(** * VulkanPlayground: cascaded shadow maps and the frame command stream

    A shallow embedding of [src/main.cpp] (class [VulkanExample]):
    - [updateCascades], the per-frame computation of the cascade split depths
      and light-space matrices;
    - [drawScene], [drawShadowCasters], [drawCSM] and [buildCommandBuffers],
      which record the command stream of a frame;
    - [OnUpdateUIOverlay], which re-records the streams when a debug toggle
      changes;
    - [createFrameBuffer], [prepareOffscreen] and [prepareCSM], the start-up
      creation of the GPU resources.

    The C++ type [float] and the glm matrix library are kept behind two
    interfaces ([FloatOps], [GlmOps]).  Everything that is proved for an
    arbitrary instance holds whatever the arithmetic does, rounding included.
    The arithmetic of the program is the binary32 instance ([Binary32]);
    the instance of exact real arithmetic, [R], gives the value a formula
    has before rounding, and a statement proved for it says so. *)

From Stdlib Require Import List ZArith Reals Lra Lia Bool Arith.
From Stdlib Require Import SpecFloat.
Import ListNotations.

Set Implicit Arguments.

(* ================================================================== *)
(** * Part I: the model *)
(* ================================================================== *)

(** ** Scalars

    The operations [main.cpp] applies to values of type [float].  [ofZ] is
    the value of an integer literal ([0.0f], [16.0f]) or of an integer
    converted to [float] ([static_cast<float>(...)]). *)
Class FloatOps (F : Type) : Type := {
  ofZ : Z -> F;
  fadd : F -> F -> F;
  fsub : F -> F -> F;
  fmul : F -> F -> F;
  fdiv : F -> F -> F;
  fneg : F -> F;            (* unary minus *)
  fpow : F -> F -> F;       (* std::pow *)
  fceil : F -> F;           (* std::ceil *)
  fmax : F -> F -> F        (* glm::max *)
}.

(** ** Vectors: [glm::vec3] and [glm::vec4] *)
Record vec3 (F : Type) : Type := mkvec3 { v3x : F; v3y : F; v3z : F }.
Record vec4 (F : Type) : Type := mkvec4 { v4x : F; v4y : F; v4z : F; v4w : F }.

(** ** Matrices

    [glm::mat4] and the glm functions [main.cpp] calls on matrices and for
    norms.  glm is a third-party library whose code is not part of the
    repository, so its functions are parameters of the model. *)
Class GlmOps (F M : Type) : Type := {
  mat4_diag : F -> M;                          (* glm::mat4(x)             *)
  mat_mul : M -> M -> M;                       (* mat4 * mat4              *)
  mat_vec : M -> vec4 F -> vec4 F;             (* mat4 * vec4              *)
  inverse : M -> M;                            (* glm::inverse             *)
  glm_scale : M -> vec3 F -> M;                (* glm::scale               *)
  lookAt : vec3 F -> vec3 F -> vec3 F -> M;    (* glm::lookAt(eye, c, up)  *)
  ortho : F -> F -> F -> F -> F -> F -> M;     (* glm::ortho(l,r,b,t,n,f)  *)
  length3 : vec3 F -> F;                       (* glm::length, on a vec3   *)
  normalize4 : vec4 F -> vec4 F                (* glm::normalize, on vec4  *)
}.

(** A 32-bit unsigned value: arithmetic on [uint32_t] wraps. *)
Definition u32 (z : Z) : Z := z mod 2 ^ 32.

(** Vulkan handles and pointers to framework objects are opaque numbers. *)
Definition VkHandle : Type := Z.
Definition VK_NULL_HANDLE : VkHandle := 0%Z.

(** Arrays are lists; [upd i f l] is the assignment [l[i] = f(l[i])].  Every
    array of [main.cpp] has a fixed size and is indexed inside it. *)
Fixpoint upd {A : Type} (i : nat) (f : A -> A) (l : list A) : list A :=
  match l, i with
  | [], _ => []
  | x :: t, O => f x :: t
  | x :: t, S j => x :: upd j f t
  end.

(** [#define FB_DIM 1024], [#define SHADOWMAP_DIM 4096] (the desktop branch of
    the [#if]) and [#define TERRAIN_LAYER_COUNT 6]. *)
Definition FB_DIM : Z := 1024.
Definition SHADOWMAP_DIM : Z := 4096.
Definition TERRAIN_LAYER_COUNT : nat := 6.

(** [enum class SceneDrawType]. *)
Inductive SceneDrawType : Type :=
| sceneDrawTypeRefract
| sceneDrawTypeReflect
| sceneDrawTypeDisplay.

(** The pipelines, pipeline layouts, descriptor sets and models are objects
    the class holds by pointer; each is named after the member that holds
    it. *)
Inductive PipelineRef : Type :=
| pipelines_debug | pipelines_mirror | pipelines_terrain | pipelines_sky
| pipelines_depthpass | cascadeDebug_pipeline.

Inductive PipelineLayoutRef : Type :=
| pipelineLayouts_debug | pipelineLayouts_textured | pipelineLayouts_terrain
| pipelineLayouts_sky | depthPass_pipelineLayout | cascadeDebug_pipelineLayout.

Inductive DescriptorSetRef : Type :=
| descriptorSets_waterplane | descriptorSets_debugquad | descriptorSets_terrain
| descriptorSets_skysphere | depthPass_descriptorSet | cascadeDebug_descriptorSet.

Inductive ModelRef : Type :=
| models_skysphere | models_plane | models_testscene.

Section Model.

Context {F M : Type} {FO : FloatOps F} {GO : GlmOps F M}.

(** [SHADOW_MAP_CASCADE_COUNT] is a macro ([#define ... 4]): a compile-time
    parameter of every function that mentions it. *)
Variable SHADOW_MAP_CASCADE_COUNT : nat.

(** *** Component-wise vector operators *)
Definition vec3_splat (x : F) : vec3 F := mkvec3 x x x.            (* glm::vec3(x) *)
Definition vec4_splat (x : F) : vec4 F := mkvec4 x x x x.          (* glm::vec4(x) *)
Definition vec4_of_vec3 (v : vec3 F) (w : F) : vec4 F :=            (* glm::vec4(v, w) *)
  mkvec4 (v3x v) (v3y v) (v3z v) w.
Definition vec3_of_vec4 (v : vec4 F) : vec3 F :=                    (* vec3 from a vec4 *)
  mkvec3 (v4x v) (v4y v) (v4z v).
Definition vec3_add (a b : vec3 F) : vec3 F :=
  mkvec3 (fadd (v3x a) (v3x b)) (fadd (v3y a) (v3y b)) (fadd (v3z a) (v3z b)).
Definition vec3_sub (a b : vec3 F) : vec3 F :=
  mkvec3 (fsub (v3x a) (v3x b)) (fsub (v3y a) (v3y b)) (fsub (v3z a) (v3z b)).
Definition vec3_muls (a : vec3 F) (k : F) : vec3 F :=
  mkvec3 (fmul (v3x a) k) (fmul (v3y a) k) (fmul (v3z a) k).
Definition vec3_divs (a : vec3 F) (k : F) : vec3 F :=
  mkvec3 (fdiv (v3x a) k) (fdiv (v3y a) k) (fdiv (v3z a) k).
Definition vec3_neg (a : vec3 F) : vec3 F :=
  mkvec3 (fneg (v3x a)) (fneg (v3y a)) (fneg (v3z a)).
Definition vec4_divs (a : vec4 F) (k : F) : vec4 F :=
  mkvec4 (fdiv (v4x a) k) (fdiv (v4y a) k) (fdiv (v4z a) k) (fdiv (v4w a) k).
Definition vec4_neg (a : vec4 F) : vec4 F :=
  mkvec4 (fneg (v4x a)) (fneg (v4y a)) (fneg (v4z a)) (fneg (v4w a)).

(** *** The state of [VulkanExample] *)

(** [VkDescriptorImageInfo]. *)
Record VkDescriptorImageInfo : Type := {
  dii_sampler : VkHandle;
  dii_imageView : VkHandle;
  dii_imageLayout : Z
}.

(** [struct Cascade]: all resources of a single shadow map cascade. *)
Record Cascade : Type := {
  frameBuffer : VkHandle;
  descriptorSet : VkHandle;
  view : VkHandle;
  splitDepth : F;
  viewProjMatrix : M;
  descriptor : VkDescriptorImageInfo
}.

(** [struct FrameBufferAttachment] and [struct OffscreenPass]. *)
Record FrameBufferAttachment : Type := {
  fba_frameBuffer : VkHandle;
  fba_mem : VkHandle;
  fba_image : VkHandle;
  fba_view : VkHandle;
  fba_descriptor : VkDescriptorImageInfo
}.

Record OffscreenPass : Type := {
  op_width : Z;
  op_height : Z;
  reflection : FrameBufferAttachment;
  refraction : FrameBufferAttachment;
  depth : FrameBufferAttachment;
  op_renderPass : VkHandle;
  op_sampler : VkHandle
}.

(** The members of [struct CascadeDebug] that are not pointers. *)
Record CascadeDebug : Type := {
  enabled : bool;
  cascadeIndex : Z          (* int32_t *)
}.

(** The camera of the base class: what [getNearClip()], [getFarClip()],
    [matrices.perspective] and [matrices.view] give. *)
Record Camera : Type := {
  znear : F;
  zfar : F;
  matrices_perspective : M;
  matrices_view : M
}.

(** *** The command stream

    A command buffer is the list of the commands recorded into it, oldest
    first.  [PushConst] is the local struct of [drawScene]. *)
Record PushConst : Type := {
  scale : M;
  clipPlane : vec4 F;
  shadows : Z               (* uint32_t *)
}.

Record CascadePushConstBlock : Type := {
  position : vec4 F;
  pc_cascadeIndex : Z       (* uint32_t *)
}.

Inductive PushData : Type :=
| PushScene (pc : PushConst)
| PushCascade (pc : CascadePushConstBlock)
| PushU32 (v : Z).

Inductive VkClearValue : Type :=
| ClearColor (r g b a : F)
| ClearDepthStencil (d : F) (stencil : Z).

Inductive Cmd : Type :=
| CmdBegin                                              (* cb->begin()            *)
| CmdEnd                                                (* cb->end()              *)
| CmdSetViewport (x y w h minDepth maxDepth : F)
| CmdSetScissor (offx offy w h : Z)
| CmdBeginRenderPass (renderPass framebuffer : VkHandle)
                     (extentW extentH : Z) (clear : list VkClearValue)
| CmdEndRenderPass
| CmdBindPipeline (p : PipelineRef)
| CmdBindDescriptorSets (l : PipelineLayoutRef) (sets : list DescriptorSetRef)
                        (firstSet : Z)
| CmdPushConstants (l : PipelineLayoutRef) (offset : Z) (data : PushData)
| CmdDrawModel (m : ModelRef)                           (* models.X.draw(...)     *)
| CmdDrawHeightMap                                      (* heightMap->draw(...)   *)
| CmdDraw (vertexCount instanceCount firstVertex firstInstance : Z)
| CmdDrawUI.                                            (* drawUI(...)            *)

Definition CommandBuffer : Type := list Cmd.

(** The members of [VulkanExample] (and of its base class, from [camera]
    on) that the modelled functions read or write. *)
Record VulkanExample : Type := {
  debugDisplayReflection : bool;
  debugDisplayRefraction : bool;
  lightPos : vec4 F;
  cascadeDebug : CascadeDebug;
  uboTerrain_layers : list (vec4 F);
  offscreenPass : OffscreenPass;
  cascadeSplitLambda : F;
  depthPass_renderPass : VkHandle;
  cascades : list Cascade;
  camera : Camera;
  renderPass : VkHandle;
  frameBuffers : list VkHandle;
  width : Z;
  height : Z;
  defaultClearColor : VkClearValue;
  commandBuffers : list CommandBuffer
}.

Definition set_debugDisplayReflection (b : bool) (s : VulkanExample) : VulkanExample :=
  {| debugDisplayReflection := b;
     debugDisplayRefraction := debugDisplayRefraction s;
     lightPos := lightPos s; cascadeDebug := cascadeDebug s;
     uboTerrain_layers := uboTerrain_layers s;
     offscreenPass := offscreenPass s;
     cascadeSplitLambda := cascadeSplitLambda s;
     depthPass_renderPass := depthPass_renderPass s;
     cascades := cascades s; camera := camera s; renderPass := renderPass s;
     frameBuffers := frameBuffers s; width := width s; height := height s;
     defaultClearColor := defaultClearColor s;
     commandBuffers := commandBuffers s |}.

Definition set_debugDisplayRefraction (b : bool) (s : VulkanExample) : VulkanExample :=
  {| debugDisplayReflection := debugDisplayReflection s;
     debugDisplayRefraction := b;
     lightPos := lightPos s; cascadeDebug := cascadeDebug s;
     uboTerrain_layers := uboTerrain_layers s;
     offscreenPass := offscreenPass s;
     cascadeSplitLambda := cascadeSplitLambda s;
     depthPass_renderPass := depthPass_renderPass s;
     cascades := cascades s; camera := camera s; renderPass := renderPass s;
     frameBuffers := frameBuffers s; width := width s; height := height s;
     defaultClearColor := defaultClearColor s;
     commandBuffers := commandBuffers s |}.

Definition set_lightPos (v : vec4 F) (s : VulkanExample) : VulkanExample :=
  {| debugDisplayReflection := debugDisplayReflection s;
     debugDisplayRefraction := debugDisplayRefraction s;
     lightPos := v; cascadeDebug := cascadeDebug s;
     uboTerrain_layers := uboTerrain_layers s;
     offscreenPass := offscreenPass s;
     cascadeSplitLambda := cascadeSplitLambda s;
     depthPass_renderPass := depthPass_renderPass s;
     cascades := cascades s; camera := camera s; renderPass := renderPass s;
     frameBuffers := frameBuffers s; width := width s; height := height s;
     defaultClearColor := defaultClearColor s;
     commandBuffers := commandBuffers s |}.

Definition set_cascadeDebug (d : CascadeDebug) (s : VulkanExample) : VulkanExample :=
  {| debugDisplayReflection := debugDisplayReflection s;
     debugDisplayRefraction := debugDisplayRefraction s;
     lightPos := lightPos s; cascadeDebug := d;
     uboTerrain_layers := uboTerrain_layers s;
     offscreenPass := offscreenPass s;
     cascadeSplitLambda := cascadeSplitLambda s;
     depthPass_renderPass := depthPass_renderPass s;
     cascades := cascades s; camera := camera s; renderPass := renderPass s;
     frameBuffers := frameBuffers s; width := width s; height := height s;
     defaultClearColor := defaultClearColor s;
     commandBuffers := commandBuffers s |}.

Definition set_uboTerrain_layers (l : list (vec4 F)) (s : VulkanExample) : VulkanExample :=
  {| debugDisplayReflection := debugDisplayReflection s;
     debugDisplayRefraction := debugDisplayRefraction s;
     lightPos := lightPos s; cascadeDebug := cascadeDebug s;
     uboTerrain_layers := l;
     offscreenPass := offscreenPass s;
     cascadeSplitLambda := cascadeSplitLambda s;
     depthPass_renderPass := depthPass_renderPass s;
     cascades := cascades s; camera := camera s; renderPass := renderPass s;
     frameBuffers := frameBuffers s; width := width s; height := height s;
     defaultClearColor := defaultClearColor s;
     commandBuffers := commandBuffers s |}.

Definition set_cascadeSplitLambda (x : F) (s : VulkanExample) : VulkanExample :=
  {| debugDisplayReflection := debugDisplayReflection s;
     debugDisplayRefraction := debugDisplayRefraction s;
     lightPos := lightPos s; cascadeDebug := cascadeDebug s;
     uboTerrain_layers := uboTerrain_layers s;
     offscreenPass := offscreenPass s;
     cascadeSplitLambda := x;
     depthPass_renderPass := depthPass_renderPass s;
     cascades := cascades s; camera := camera s; renderPass := renderPass s;
     frameBuffers := frameBuffers s; width := width s; height := height s;
     defaultClearColor := defaultClearColor s;
     commandBuffers := commandBuffers s |}.

Definition set_cascades (cs : list Cascade) (s : VulkanExample) : VulkanExample :=
  {| debugDisplayReflection := debugDisplayReflection s;
     debugDisplayRefraction := debugDisplayRefraction s;
     lightPos := lightPos s; cascadeDebug := cascadeDebug s;
     uboTerrain_layers := uboTerrain_layers s;
     offscreenPass := offscreenPass s;
     cascadeSplitLambda := cascadeSplitLambda s;
     depthPass_renderPass := depthPass_renderPass s;
     cascades := cs; camera := camera s; renderPass := renderPass s;
     frameBuffers := frameBuffers s; width := width s; height := height s;
     defaultClearColor := defaultClearColor s;
     commandBuffers := commandBuffers s |}.

Definition set_commandBuffers (cbs : list CommandBuffer) (s : VulkanExample) : VulkanExample :=
  {| debugDisplayReflection := debugDisplayReflection s;
     debugDisplayRefraction := debugDisplayRefraction s;
     lightPos := lightPos s; cascadeDebug := cascadeDebug s;
     uboTerrain_layers := uboTerrain_layers s;
     offscreenPass := offscreenPass s;
     cascadeSplitLambda := cascadeSplitLambda s;
     depthPass_renderPass := depthPass_renderPass s;
     cascades := cascades s; camera := camera s; renderPass := renderPass s;
     frameBuffers := frameBuffers s; width := width s; height := height s;
     defaultClearColor := defaultClearColor s;
     commandBuffers := cbs |}.

(** The two assignments the outer loop of [updateCascades] makes to
    [cascades[i]]. *)
Definition store_cascade (d : F) (m : M) (c : Cascade) : Cascade :=
  {| frameBuffer := frameBuffer c;
     descriptorSet := descriptorSet c;
     view := view c;
     splitDepth := d;
     viewProjMatrix := m;
     descriptor := descriptor c |}.

(** *** [updateCascades]

    "Calculate frustum split depths and matrices for the shadow map
    cascades". *)

(** The first loop: [cascadeSplits[i]] for [i = 0 .. SHADOW_MAP_CASCADE_COUNT - 1].
    [i] is a [uint32_t]. *)
Definition cascadeSplit (nearClip farClip lambda : F) (i : nat) : F :=
  let clipRange := fsub farClip nearClip in
  let minZ := nearClip in
  let maxZ := fadd nearClip clipRange in
  let range := fsub maxZ minZ in
  let ratio := fdiv maxZ minZ in
  let p := fdiv (ofZ (u32 (Z.of_nat i + 1)))
                (ofZ (Z.of_nat SHADOW_MAP_CASCADE_COUNT)) in
  let log := fmul minZ (fpow ratio p) in
  let uniform := fadd minZ (fmul range p) in
  let d := fadd (fmul lambda (fsub log uniform)) uniform in
  fdiv (fsub d nearClip) clipRange.

Definition cascadeSplits (nearClip farClip lambda : F) : list F :=
  map (cascadeSplit nearClip farClip lambda) (seq 0 SHADOW_MAP_CASCADE_COUNT).

(** The initial value of [frustumCorners]: the corners of the clip-space
    cube, near face first. *)
Definition ndcCorners : list (vec3 F) :=
  [ mkvec3 (ofZ (-1)) (ofZ 1) (ofZ (-1));
    mkvec3 (ofZ 1) (ofZ 1) (ofZ (-1));
    mkvec3 (ofZ 1) (ofZ (-1)) (ofZ (-1));
    mkvec3 (ofZ (-1)) (ofZ (-1)) (ofZ (-1));
    mkvec3 (ofZ (-1)) (ofZ 1) (ofZ 1);
    mkvec3 (ofZ 1) (ofZ 1) (ofZ 1);
    mkvec3 (ofZ 1) (ofZ (-1)) (ofZ 1);
    mkvec3 (ofZ (-1)) (ofZ (-1)) (ofZ 1) ].

(** "Project frustum corners into world space": the loop over the 8
    corners. *)
Definition unproject (invCam : M) (c : vec3 F) : vec3 F :=
  let invCorner := mat_vec invCam (vec4_of_vec3 c (ofZ 1)) in
  vec3_of_vec4 (vec4_divs invCorner (v4w invCorner)).

Definition worldCorners (cam : Camera) : list (vec3 F) :=
  let invCam := inverse (mat_mul (matrices_perspective cam) (matrices_view cam)) in
  map (unproject invCam) ndcCorners.

Definition corner (fc : list (vec3 F)) (i : nat) : vec3 F :=
  nth i fc (vec3_splat (ofZ 0)).

(** One turn of the loop over [i = 0 .. 3] that cuts the slice out of the
    frustum, and the loop. *)
Definition sliceStep (splitDist lastSplitDist : F) (fc : list (vec3 F)) (i : nat)
  : list (vec3 F) :=
  let dist := vec3_sub (corner fc (i + 4)) (corner fc i) in
  let fc1 := upd (i + 4) (fun _ => vec3_add (corner fc i) (vec3_muls dist splitDist)) fc in
  upd i (fun _ => vec3_add (corner fc1 i) (vec3_muls dist lastSplitDist)) fc1.

Definition frustumSlice (fc : list (vec3 F)) (splitDist lastSplitDist : F)
  : list (vec3 F) :=
  fold_left (sliceStep splitDist lastSplitDist) (seq 0 4) fc.

(** "Get frustum center". *)
Definition frustumCenter (fc : list (vec3 F)) : vec3 F :=
  vec3_divs
    (fold_left (fun acc i => vec3_add acc (corner fc i)) (seq 0 8) (vec3_splat (ofZ 0)))
    (ofZ 8).

(** The radius before it is rounded: the loop over the 8 corners. *)
Definition rawRadius (fc : list (vec3 F)) : F :=
  let center := frustumCenter fc in
  fold_left (fun radius i => fmax radius (length3 (vec3_sub (corner fc i) center)))
            (seq 0 8) (ofZ 0).

(** [radius = std::ceil(radius * 16.0f) / 16.0f]. *)
Definition snapRadius (radius : F) : F :=
  fdiv (fceil (fmul radius (ofZ 16))) (ofZ 16).

(** The light-space matrix built from a radius and a centre. *)
Definition lightViewProj (lightPos : vec4 F) (center : vec3 F) (radius : F) : M :=
  let maxExtents := vec3_splat radius in
  let minExtents := vec3_neg maxExtents in
  let lightDir := vec3_of_vec4 (normalize4 (vec4_neg lightPos)) in
  let lightViewMatrix :=
    lookAt (vec3_sub center (vec3_muls lightDir (fneg (v3z minExtents))))
           center
           (mkvec3 (ofZ 0) (ofZ 1) (ofZ 0)) in
  let lightOrthoMatrix :=
    ortho (v3x minExtents) (v3x maxExtents) (v3y minExtents) (v3y maxExtents)
          (ofZ 0) (fsub (v3z maxExtents) (v3z minExtents)) in
  mat_mul lightOrthoMatrix lightViewMatrix.

(** The value stored in [cascades[i].viewProjMatrix] for a slice. *)
Definition cascadeViewProj (lightPos : vec4 F) (fc : list (vec3 F)) : M :=
  lightViewProj lightPos (frustumCenter fc) (snapRadius (rawRadius fc)).

(** The second loop.  [todo] are the indices still to visit, [lastSplitDist]
    and [cs] the loop-carried variable and the cascade array. *)
Fixpoint cascadeLoop (s : VulkanExample) (splits : list F) (todo : list nat)
    (lastSplitDist : F) (cs : list Cascade) : list Cascade :=
  match todo with
  | [] => cs
  | i :: rest =>
      let clipRange := fsub (zfar (camera s)) (znear (camera s)) in
      let splitDist := nth i splits (ofZ 0) in
      let fc := frustumSlice (worldCorners (camera s)) splitDist lastSplitDist in
      let m := cascadeViewProj (lightPos s) fc in
      let d := fmul (fadd (znear (camera s)) (fmul splitDist clipRange)) (ofZ (-1)) in
      cascadeLoop s splits rest (nth i splits (ofZ 0)) (upd i (store_cascade d m) cs)
  end.

Definition updateCascades (s : VulkanExample) : VulkanExample :=
  let splits :=
    cascadeSplits (znear (camera s)) (zfar (camera s)) (cascadeSplitLambda s) in
  set_cascades
    (cascadeLoop s splits (seq 0 SHADOW_MAP_CASCADE_COUNT) (ofZ 0) (cascades s))
    s.

(** *** The second loop of [updateCascades], cascade by cascade

    Names for what the loop computes in its turn for cascade [i]: the value
    of [lastSplitDist] on entry, the frustum slice, and the two values it
    stores. *)
Definition splitsOf (s : VulkanExample) : list F :=
  cascadeSplits (znear (camera s)) (zfar (camera s)) (cascadeSplitLambda s).

Definition lastSplitOf (splits : list F) (i : nat) : F :=
  match i with
  | O => ofZ 0
  | S j => nth j splits (ofZ 0)
  end.

Definition sliceOf (s : VulkanExample) (splits : list F) (i : nat) : list (vec3 F) :=
  frustumSlice (worldCorners (camera s)) (nth i splits (ofZ 0)) (lastSplitOf splits i).

Definition splitDepthOf (s : VulkanExample) (splits : list F) (i : nat) : F :=
  fmul (fadd (znear (camera s))
             (fmul (nth i splits (ofZ 0)) (fsub (zfar (camera s)) (znear (camera s)))))
       (ofZ (-1)).

Definition storedFor (s : VulkanExample) (splits : list F) (i : nat)
  : Cascade -> Cascade :=
  store_cascade (splitDepthOf s splits i)
                (cascadeViewProj (lightPos s) (sliceOf s splits i)).

(** *** Recording commands

    Each function returns the commands it appends to the command buffer it
    is given. *)

Definition drawScene_pushConst (drawType : SceneDrawType) : PushConst :=
  (* struct PushConst { scale = mat4(1.0f); clipPlane = vec4(0.0f); shadows = 1 } *)
  let scale0 := mat4_diag (ofZ 1) in
  let clipPlane0 := vec4_splat (ofZ 0) in
  let shadows0 := 1%Z in
  (* if (drawType == sceneDrawTypeReflect) scale = glm::scale(scale, vec3(1, -1, 1)) *)
  let scale1 :=
    match drawType with
    | sceneDrawTypeReflect => glm_scale scale0 (mkvec3 (ofZ 1) (ofZ (-1)) (ofZ 1))
    | _ => scale0
    end in
  (* switch (drawType): no case for sceneDrawTypeDisplay *)
  match drawType with
  | sceneDrawTypeRefract =>
      {| scale := scale1;
         clipPlane := mkvec4 (ofZ 0) (ofZ 1) (ofZ 0) (ofZ 0);
         shadows := 0 |}
  | sceneDrawTypeReflect =>
      {| scale := scale1;
         clipPlane := mkvec4 (ofZ 0) (ofZ 1) (ofZ 0) (ofZ 0);
         shadows := 0 |}
  | sceneDrawTypeDisplay =>
      {| scale := scale1; clipPlane := clipPlane0; shadows := shadows0 |}
  end.

Definition drawScene (drawType : SceneDrawType) : list Cmd :=
  let pushConst := drawScene_pushConst drawType in
  [ (* Skysphere *)
    CmdBindPipeline pipelines_sky;
    CmdBindDescriptorSets pipelineLayouts_sky [descriptorSets_skysphere] 0;
    CmdPushConstants pipelineLayouts_sky 0 (PushScene pushConst);
    CmdDrawModel models_skysphere;
    (* Terrain *)
    CmdBindPipeline pipelines_terrain;
    CmdBindDescriptorSets pipelineLayouts_terrain [descriptorSets_terrain] 0;
    CmdPushConstants pipelineLayouts_terrain 0 (PushScene pushConst);
    CmdDrawHeightMap ].

Definition drawShadowCasters (cascadeIndex : Z) : list Cmd :=
  let pushConst := {| position := vec4_splat (ofZ 0); pc_cascadeIndex := cascadeIndex |} in
  [ CmdBindPipeline pipelines_depthpass;
    CmdBindDescriptorSets depthPass_pipelineLayout [depthPass_descriptorSet] 0;
    CmdPushConstants depthPass_pipelineLayout 0 (PushCascade pushConst);
    CmdDrawHeightMap ].

(** A cascade whose handles are all null: the default of [nth] on the cascade
    array, never met for an index below the array's size. *)
Definition nullCascade : Cascade :=
  {| frameBuffer := VK_NULL_HANDLE; descriptorSet := VK_NULL_HANDLE;
     view := VK_NULL_HANDLE; splitDepth := ofZ 0;
     viewProjMatrix := mat4_diag (ofZ 0);
     descriptor := {| dii_sampler := VK_NULL_HANDLE;
                      dii_imageView := VK_NULL_HANDLE;
                      dii_imageLayout := 0 |} |}.

(** One turn of the loop of [drawCSM]: the depth pass of cascade [j]. *)
Definition cascadePass (s : VulkanExample) (j : nat) : list Cmd :=
  [ CmdBeginRenderPass (depthPass_renderPass s)
      (frameBuffer (nth j (cascades s) nullCascade))
      SHADOWMAP_DIM SHADOWMAP_DIM [ClearDepthStencil (ofZ 1) 0] ]
  ++ drawShadowCasters (u32 (Z.of_nat j))
  ++ [ CmdEndRenderPass ].

Definition drawCSM (s : VulkanExample) : list Cmd :=
  [ CmdSetViewport (ofZ 0) (ofZ 0) (ofZ SHADOWMAP_DIM) (ofZ SHADOWMAP_DIM) (ofZ 0) (ofZ 1);
    CmdSetScissor 0 0 SHADOWMAP_DIM SHADOWMAP_DIM ]
  ++ flat_map (cascadePass s) (seq 0 SHADOW_MAP_CASCADE_COUNT).

(** The two offscreen passes of [buildCommandBuffers]. *)
Definition offscreenClear : list VkClearValue :=
  [ ClearColor (ofZ 0) (ofZ 0) (ofZ 0) (ofZ 0); ClearDepthStencil (ofZ 1) 0 ].

Definition refractionPass (s : VulkanExample) : list Cmd :=
  let o := offscreenPass s in
  [ CmdBeginRenderPass (op_renderPass o) (fba_frameBuffer (refraction o))
      (op_width o) (op_height o) offscreenClear;
    CmdSetViewport (ofZ 0) (ofZ 0) (ofZ (op_width o)) (ofZ (op_height o)) (ofZ 0) (ofZ 1);
    CmdSetScissor 0 0 (op_width o) (op_height o) ]
  ++ drawScene sceneDrawTypeRefract
  ++ [ CmdEndRenderPass ].

Definition reflectionPass (s : VulkanExample) : list Cmd :=
  let o := offscreenPass s in
  [ CmdBeginRenderPass (op_renderPass o) (fba_frameBuffer (reflection o))
      (op_width o) (op_height o) offscreenClear;
    CmdSetViewport (ofZ 0) (ofZ 0) (ofZ (op_width o)) (ofZ (op_height o)) (ofZ 0) (ofZ 1);
    CmdSetScissor 0 0 (op_width o) (op_height o) ]
  ++ drawScene sceneDrawTypeReflect
  ++ [ CmdEndRenderPass ].

(** The three optional draws of the main pass. *)
Definition debugDraws (s : VulkanExample) : list Cmd :=
  (if debugDisplayReflection s then
     [ CmdBindDescriptorSets pipelineLayouts_textured [descriptorSets_debugquad] 0;
       CmdBindPipeline pipelines_debug;
       CmdPushConstants pipelineLayouts_debug 0 (PushU32 0);
       CmdDraw 6 1 0 0 ]
   else [])
  ++ (if debugDisplayRefraction s then
        [ CmdBindDescriptorSets pipelineLayouts_textured [descriptorSets_debugquad] 0;
          CmdBindPipeline pipelines_debug;
          CmdPushConstants pipelineLayouts_debug 0 (PushU32 1);
          CmdDraw 6 1 0 0 ]
      else [])
  ++ (if enabled (cascadeDebug s) then
        [ CmdBindDescriptorSets cascadeDebug_pipelineLayout [cascadeDebug_descriptorSet] 0;
          CmdBindPipeline cascadeDebug_pipeline;
          CmdPushConstants cascadeDebug_pipelineLayout 0
            (PushCascade {| position := vec4_splat (ofZ 0);
                            pc_cascadeIndex := u32 (cascadeIndex (cascadeDebug s)) |});
          CmdDraw 6 1 0 0 ]
      else []).

(** "Scene rendering with reflection, refraction and shadows": the pass on
    the swapchain framebuffer [frameBuffers[i]]. *)
Definition mainPass (s : VulkanExample) (i : nat) : list Cmd :=
  [ CmdBeginRenderPass (renderPass s) (nth i (frameBuffers s) VK_NULL_HANDLE)
      (width s) (height s) [defaultClearColor s; ClearDepthStencil (ofZ 1) 0];
    CmdSetViewport (ofZ 0) (ofZ 0) (ofZ (width s)) (ofZ (height s)) (ofZ 0) (ofZ 1);
    CmdSetScissor 0 0 (width s) (height s) ]
  ++ drawScene sceneDrawTypeDisplay
  ++ [ (* Reflection plane *)
       CmdBindDescriptorSets pipelineLayouts_textured [descriptorSets_waterplane] 0;
       CmdBindPipeline pipelines_mirror;
       CmdDrawModel models_plane ]
  ++ debugDraws s
  ++ [ CmdDrawUI; CmdEndRenderPass ].

(** The body of the loop of [buildCommandBuffers]: what is recorded into
    [commandBuffers[i]]. *)
Definition recordCommandBuffer (s : VulkanExample) (i : nat) : CommandBuffer :=
  [ CmdBegin ]
  ++ drawCSM s
  ++ refractionPass s
  ++ reflectionPass s
  ++ mainPass s i
  ++ [ CmdEnd ].

Definition buildCommandBuffers (s : VulkanExample) : VulkanExample :=
  set_commandBuffers
    (map (recordCommandBuffer s) (seq 0 (length (commandBuffers s))))
    s.

(** *** Reading a command stream

    [passes] splits a recorded stream into its render passes: for each
    [vkCmdBeginRenderPass] ... [vkCmdEndRenderPass] pair, in the order they
    were recorded, the render pass, the framebuffer and the draws recorded
    in between.  [pushes] lists the push constants of a stream. *)
Inductive Draw : Type :=
| DrawModel (m : ModelRef)
| DrawHeightMap
| DrawVertices (vertexCount instanceCount firstVertex firstInstance : Z)
| DrawUI.

Record Pass : Type := {
  pass_renderPass : VkHandle;
  pass_framebuffer : VkHandle;
  pass_draws : list Draw
}.

Definition drawOf (c : Cmd) : option Draw :=
  match c with
  | CmdDrawModel m => Some (DrawModel m)
  | CmdDrawHeightMap => Some DrawHeightMap
  | CmdDraw v i fv fi => Some (DrawVertices v i fv fi)
  | CmdDrawUI => Some DrawUI
  | _ => None
  end.

Definition add_draw (p : Pass) (d : Draw) : Pass :=
  {| pass_renderPass := pass_renderPass p;
     pass_framebuffer := pass_framebuffer p;
     pass_draws := pass_draws p ++ [d] |}.

Fixpoint passesFrom (cur : option Pass) (l : list Cmd) : list Pass :=
  match l with
  | [] => []
  | CmdBeginRenderPass rp fb _ _ _ :: t =>
      passesFrom (Some {| pass_renderPass := rp; pass_framebuffer := fb;
                          pass_draws := [] |}) t
  | CmdEndRenderPass :: t =>
      match cur with
      | Some p => p :: passesFrom None t
      | None => passesFrom None t
      end
  | c :: t =>
      match cur, drawOf c with
      | Some p, Some d => passesFrom (Some (add_draw p d)) t
      | _, _ => passesFrom cur t
      end
  end.

Definition passes (cb : CommandBuffer) : list Pass := passesFrom None cb.

Definition pushes (l : list Cmd) : list (PipelineLayoutRef * PushData) :=
  flat_map (fun c => match c with
                     | CmdPushConstants layout _ data => [(layout, data)]
                     | _ => []
                     end) l.

(** A full-screen quad: a non-indexed draw of 6 vertices, [draw(6, 1, 0, 0)]. *)
Definition isQuadDraw (d : Draw) : bool :=
  match d with
  | DrawVertices v i fv fi => (v =? 6)%Z && (i =? 1)%Z && (fv =? 0)%Z && (fi =? 0)%Z
  | _ => false
  end.

Definition quadDraws (p : Pass) : nat := length (filter isQuadDraw (pass_draws p)).

(** The number of debug toggles that are on. *)
Definition enabledToggles (s : VulkanExample) : nat :=
  Nat.b2n (debugDisplayReflection s) + Nat.b2n (debugDisplayRefraction s)
  + Nat.b2n (enabled (cascadeDebug s)).

(** *** [updateUniformBuffers]

    It assigns [lightPos] four times, the last time a constant, and then
    fills uniform buffers, which are not part of the modelled state. *)
Definition updateUniformBuffers (s : VulkanExample) : VulkanExample :=
  set_lightPos (mkvec4 (ofZ 20) (ofZ (-10)) (ofZ 20) (ofZ 0)) s.

(** *** [OnUpdateUIOverlay]

    What the overlay answers during one call.  A widget returns [true] when
    the user changed its value, and has then written the new value through
    the pointer or reference it was given: [Some v] is "returned [true] after
    writing [v]", [None] is "returned [false]". *)
Record UIOverlay : Type := {
  header_Debugging : bool;
  checkBox_Display_reflection : option bool;
  checkBox_Display_refraction : option bool;
  checkBox_Display_cascades : option bool;
  sliderInt_Cascade : option Z;
  sliderFloat_Split_lambda : option F;
  header_Terrain_layers : bool;
  sliderFloat2_layer : nat -> option (F * F)
}.

Definition set_layer_xy (xy : F * F) (l : vec4 F) : vec4 F :=
  mkvec4 (fst xy) (snd xy) (v4z l) (v4w l).

Definition OnUpdateUIOverlay (overlay : UIOverlay) (s : VulkanExample) : VulkanExample :=
  let s :=
    if header_Debugging overlay then
      let s :=
        match checkBox_Display_reflection overlay with
        | Some v => buildCommandBuffers (set_debugDisplayReflection v s)
        | None => s
        end in
      let s :=
        match checkBox_Display_refraction overlay with
        | Some v => buildCommandBuffers (set_debugDisplayRefraction v s)
        | None => s
        end in
      let s :=
        match checkBox_Display_cascades overlay with
        | Some v =>
            buildCommandBuffers
              (set_cascadeDebug
                 {| enabled := v; cascadeIndex := cascadeIndex (cascadeDebug s) |} s)
        | None => s
        end in
      let s :=
        if enabled (cascadeDebug s) then
          match sliderInt_Cascade overlay with
          | Some v =>
              buildCommandBuffers
                (set_cascadeDebug
                   {| enabled := enabled (cascadeDebug s); cascadeIndex := v |} s)
          | None => s
          end
        else s in
      match sliderFloat_Split_lambda overlay with
      | Some v => updateUniformBuffers (updateCascades (set_cascadeSplitLambda v s))
      | None => s
      end
    else s in
  if header_Terrain_layers overlay then
    fold_left
      (fun s i =>
         match sliderFloat2_layer overlay i with
         | Some xy =>
             set_uboTerrain_layers (upd i (set_layer_xy xy) (uboTerrain_layers s)) s
         | None => s
         end)
      (seq 0 TERRAIN_LAYER_COUNT) s
  else s.

(** *** Predicates on states, for the re-recording of the streams *)

(** What a recorded stream depends on. *)
Definition sameStreamInputs (s1 s2 : VulkanExample) : Prop :=
  debugDisplayReflection s1 = debugDisplayReflection s2 /\
  debugDisplayRefraction s1 = debugDisplayRefraction s2 /\
  cascadeDebug s1 = cascadeDebug s2 /\
  offscreenPass s1 = offscreenPass s2 /\
  depthPass_renderPass s1 = depthPass_renderPass s2 /\
  map frameBuffer (cascades s1) = map frameBuffer (cascades s2) /\
  renderPass s1 = renderPass s2 /\
  frameBuffers s1 = frameBuffers s2 /\
  width s1 = width s2 /\
  height s1 = height s2 /\
  defaultClearColor s1 = defaultClearColor s2.

(** Every command buffer holds what [buildCommandBuffers] would record in
    the present state. *)
Definition streamsCurrent (s : VulkanExample) : Prop :=
  commandBuffers s = commandBuffers (buildCommandBuffers s).

Definition toggles (s : VulkanExample) : bool * bool * bool :=
  (debugDisplayReflection s, debugDisplayRefraction s, enabled (cascadeDebug s)).

(** After a step of the handler: the number of command buffers is the same,
    and either no toggle has changed so far or the streams are current. *)
Definition settled (s0 s : VulkanExample) : Prop :=
  length (commandBuffers s) = length (commandBuffers s0) /\
  (toggles s = toggles s0 \/ streamsCurrent s).

End Model.

(** ** Creation of the GPU resources at start-up

    [createFrameBuffer], [prepareOffscreen] and [prepareCSM] as programs of a
    small error monad.  The driver decides the result of every call; a run
    gives the calls made, in order, and how the run ended.  The handles the
    driver hands out play no part in the control flow and are left out, as
    are the queries that return no [VkResult]
    ([vkGetImageMemoryRequirements], [getMemoryType]). *)
Module Setup.

(** The member a call writes its handle to. *)
Inductive Attachment : Type := reflection | refraction | depth.

Inductive Dest : Type :=
| offscreenPass_renderPass
| offscreenPass_sampler
| offscreenPass_image (a : Attachment)
| offscreenPass_mem (a : Attachment)
| offscreenPass_view (a : Attachment)
| offscreenPass_frameBuffer (a : Attachment)
| depthPass_renderPass
| depth_image
| depth_mem
| depth_view
| depth_sampler
| cascades_view (i : nat)
| cascades_frameBuffer (i : nat).

(** A format is a [VkFormat], or the indeterminate value of a local variable
    that was never written. *)
Inductive Format : Type :=
| VkFormat (f : Z)
| Indeterminate.

Inductive VkCall : Type :=
| vkCreateRenderPass (d : Dest) (attachmentFormats : list Format)
| vkCreateSampler (d : Dest)
| vkCreateImage (d : Dest) (format : Format)
| vkAllocateMemory (d : Dest)
| vkBindImageMemory (image mem : Dest)
| vkCreateImageView (d : Dest) (format : Format)
| vkCreateFramebuffer (d : Dest).

Definition VK_SUCCESS : Z := 0.

(** The driver: the [VkResult] of each call, and the depth format
    [vks::tools::getSupportedDepthFormat] finds ([None]: it finds none,
    returns [VK_FALSE] and leaves [*depthFormat] unwritten). *)
Record Driver : Type := {
  vkResult : VkCall -> Z;
  supportedDepthFormat : option Z
}.

Inductive Event : Type :=
| Called (c : VkCall)
| QueriedDepthFormat.

Inductive Failure : Type :=
| FailedCall (c : VkCall) (res : Z)      (* reported by VK_CHECK_RESULT *)
| FailedAssert_validDepthFormat.         (* assert(validDepthFormat)    *)

Inductive Outcome (A : Type) : Type :=
| Completed (a : A)
| Aborted (f : Failure).
Arguments Completed {A} a.
Arguments Aborted {A} f.

Definition M (A : Type) : Type := Driver -> list Event * Outcome A.

Definition ret {A : Type} (a : A) : M A := fun _ => ([], Completed a).

Definition bind {A B : Type} (m : M A) (k : A -> M B) : M B :=
  fun d =>
    match m d with
    | (log, Completed a) => let (log', r) := k a d in (log ++ log', r)
    | (log, Aborted f) => (log, Aborted f)
    end.

Notation "x <- m ;; k" := (bind m (fun x => k))
  (at level 61, m at next level, right associativity).
Notation "m ;; k" := (bind m (fun _ => k))
  (at level 61, right associativity).

(** Modelled from the spec: the macro [VK_CHECK_RESULT] comes from the
    framework's headers, which are not in [src/].  Section 7 of the spec: a
    failed creation is fatal, "abort immediately with the failing operation
    identified". *)
Definition VK_CHECK_RESULT (c : VkCall) : M unit :=
  fun d =>
    ([Called c],
     if (vkResult d c =? VK_SUCCESS)%Z then Completed tt
     else Aborted (FailedCall c (vkResult d c))).

(** [assert(validDepthFormat)]. *)
Definition assert_validDepthFormat (validDepthFormat : bool) : M unit :=
  fun _ =>
    ([], if validDepthFormat then Completed tt else Aborted FailedAssert_validDepthFormat).

(** [vks::tools::getSupportedDepthFormat(physicalDevice, &depthFormat)], for
    a variable [depthFormat] declared without an initialiser: the returned
    [VkBool32] and the value of the variable after the call. *)
Definition getSupportedDepthFormat : M (bool * Format) :=
  fun d =>
    ([QueriedDepthFormat],
     Completed match supportedDepthFormat d with
               | Some f => (true, VkFormat f)
               | None => (false, Indeterminate)
               end).

(** [for (uint32_t i = 0; i < n; i++) body(i)]. *)
Fixpoint for_each (idx : list nat) (body : nat -> M unit) : M unit :=
  match idx with
  | [] => ret tt
  | i :: rest => body i ;; for_each rest body
  end.

(** [createFrameBuffer(target)], for [target] one of the two colour
    attachments of [offscreenPass]. *)
Definition createFrameBuffer (colorFormat : Z) (target : Attachment) : M unit :=
  VK_CHECK_RESULT (vkCreateImage (offscreenPass_image target) (VkFormat colorFormat)) ;;
  VK_CHECK_RESULT (vkAllocateMemory (offscreenPass_mem target)) ;;
  VK_CHECK_RESULT (vkBindImageMemory (offscreenPass_image target) (offscreenPass_mem target)) ;;
  VK_CHECK_RESULT (vkCreateImageView (offscreenPass_view target) (VkFormat colorFormat)).

Definition prepareOffscreen (colorFormat : Z) : M unit :=
  (* Find a suitable depth format *)
  q <- getSupportedDepthFormat ;;
  let validDepthFormat := fst q in
  let fbDepthFormat := snd q in
  assert_validDepthFormat validDepthFormat ;;
  (* Renderpass *)
  VK_CHECK_RESULT (vkCreateRenderPass offscreenPass_renderPass
                     [VkFormat colorFormat; fbDepthFormat]) ;;
  (* Shared sampler *)
  VK_CHECK_RESULT (vkCreateSampler offscreenPass_sampler) ;;
  (* Color frame buffers *)
  createFrameBuffer colorFormat refraction ;;
  createFrameBuffer colorFormat reflection ;;
  (* Depth stencil attachment *)
  VK_CHECK_RESULT (vkCreateImage (offscreenPass_image depth) fbDepthFormat) ;;
  VK_CHECK_RESULT (vkAllocateMemory (offscreenPass_mem depth)) ;;
  VK_CHECK_RESULT (vkBindImageMemory (offscreenPass_image depth) (offscreenPass_mem depth)) ;;
  VK_CHECK_RESULT (vkCreateImageView (offscreenPass_view depth) fbDepthFormat) ;;
  (* Framebuffers *)
  VK_CHECK_RESULT (vkCreateFramebuffer (offscreenPass_frameBuffer refraction)) ;;
  VK_CHECK_RESULT (vkCreateFramebuffer (offscreenPass_frameBuffer reflection)).

Definition prepareCSM (SHADOW_MAP_CASCADE_COUNT : nat) : M unit :=
  (* the value getSupportedDepthFormat returns is dropped *)
  q <- getSupportedDepthFormat ;;
  let depthFormat := snd q in
  (* Depth map renderpass *)
  VK_CHECK_RESULT (vkCreateRenderPass depthPass_renderPass [depthFormat]) ;;
  (* Layered depth image and views *)
  VK_CHECK_RESULT (vkCreateImage depth_image depthFormat) ;;
  VK_CHECK_RESULT (vkAllocateMemory depth_mem) ;;
  VK_CHECK_RESULT (vkBindImageMemory depth_image depth_mem) ;;
  (* Full depth map view (all layers) *)
  VK_CHECK_RESULT (vkCreateImageView depth_view depthFormat) ;;
  (* One image and framebuffer per cascade *)
  for_each (seq 0 SHADOW_MAP_CASCADE_COUNT)
    (fun i =>
       VK_CHECK_RESULT (vkCreateImageView (cascades_view i) depthFormat) ;;
       VK_CHECK_RESULT (vkCreateFramebuffer (cascades_frameBuffer i))) ;;
  (* Shared sampler for cascade depth reads *)
  VK_CHECK_RESULT (vkCreateSampler depth_sampler).

(** [assert(e)] in a build that may define [NDEBUG]: with [NDEBUG] the macro
    of [<assert.h>] expands to nothing, and [e] is not even evaluated. *)
Definition assert_unless (NDEBUG : bool) (validDepthFormat : bool) : M unit :=
  if NDEBUG then ret tt else assert_validDepthFormat validDepthFormat.

(** [prepareOffscreen] in such a build; without [NDEBUG] it is
    [prepareOffscreen] above. *)
Definition prepareOffscreen_in (NDEBUG : bool) (colorFormat : Z) : M unit :=
  (* Find a suitable depth format *)
  q <- getSupportedDepthFormat ;;
  let validDepthFormat := fst q in
  let fbDepthFormat := snd q in
  assert_unless NDEBUG validDepthFormat ;;
  (* Renderpass *)
  VK_CHECK_RESULT (vkCreateRenderPass offscreenPass_renderPass
                     [VkFormat colorFormat; fbDepthFormat]) ;;
  (* Shared sampler *)
  VK_CHECK_RESULT (vkCreateSampler offscreenPass_sampler) ;;
  (* Color frame buffers *)
  createFrameBuffer colorFormat refraction ;;
  createFrameBuffer colorFormat reflection ;;
  (* Depth stencil attachment *)
  VK_CHECK_RESULT (vkCreateImage (offscreenPass_image depth) fbDepthFormat) ;;
  VK_CHECK_RESULT (vkAllocateMemory (offscreenPass_mem depth)) ;;
  VK_CHECK_RESULT (vkBindImageMemory (offscreenPass_image depth) (offscreenPass_mem depth)) ;;
  VK_CHECK_RESULT (vkCreateImageView (offscreenPass_view depth) fbDepthFormat) ;;
  (* Framebuffers *)
  VK_CHECK_RESULT (vkCreateFramebuffer (offscreenPass_frameBuffer refraction)) ;;
  VK_CHECK_RESULT (vkCreateFramebuffer (offscreenPass_frameBuffer reflection)).

(** The two calls of [prepare()] that set up the offscreen and the shadow
    targets, in its order: [prepareOffscreen(); prepareCSM();].  Both query
    the same physical device. *)
Definition prepare_targets (NDEBUG : bool) (colorFormat : Z)
    (SHADOW_MAP_CASCADE_COUNT : nat) : M unit :=
  prepareOffscreen_in NDEBUG colorFormat ;;
  prepareCSM SHADOW_MAP_CASCADE_COUNT.

(** A driver that finds no supported depth format and makes every other
    call succeed, and the colour format of the swapchain used below
    ([VK_FORMAT_B8G8R8A8_UNORM]). *)
Definition noDepthFormat : Driver :=
  {| vkResult := fun _ => VK_SUCCESS; supportedDepthFormat := None |}.

Definition colorFormat0 : Z := 44.

(** A driver that has a depth format ([VK_FORMAT_D32_SFLOAT_S8_UINT]) but
    runs out of device memory ([VK_ERROR_OUT_OF_DEVICE_MEMORY]) when the
    memory of the reflection image is allocated. *)
Definition outOfDeviceMemory : Driver :=
  {| vkResult := fun c =>
       match c with
       | vkAllocateMemory (offscreenPass_mem reflection) => (-2)%Z
       | _ => VK_SUCCESS
       end;
     supportedDepthFormat := Some 130%Z |}.

(** A run is sound when every call it made before the end succeeded and, if
    it was aborted, the abort names the last call made, which failed, or the
    failed assertion. *)
Definition succeeded (d : Driver) (e : Event) : Prop :=
  match e with
  | Called c => vkResult d c = VK_SUCCESS
  | QueriedDepthFormat => True
  end.

Definition soundRun {A : Type} (d : Driver) (r : list Event * Outcome A) : Prop :=
  match r with
  | (log, Completed _) => Forall (succeeded d) log
  | (log, Aborted (FailedCall c res)) =>
      exists before, log = before ++ [Called c] /\ Forall (succeeded d) before
                     /\ res = vkResult d c /\ res <> VK_SUCCESS
  | (log, Aborted FailedAssert_validDepthFormat) => Forall (succeeded d) log
  end.

Definition Sound {A : Type} (m : M A) : Prop := forall d, soundRun d (m d).

End Setup.

(** ** Exact arithmetic

    The instance of the two interfaces in which every operation is the exact
    operation on real numbers.  It is not the arithmetic of the program: a
    C++ [float] is a binary32 number and every operation rounds (see
    [Binary32] below).  It is used where a statement is about the values the
    formulas of the code denote, and says so there. *)
Local Open Scope R_scope.

(** [std::ceil]: the least integer that is not below [x]. *)
Definition Rceil (x : R) : R := IZR (- Int_part (- x)).

#[export] Instance FloatOps_R : FloatOps R := {|
  ofZ := IZR;
  fadd := Rplus;
  fsub := Rminus;
  fmul := Rmult;
  fdiv := Rdiv;
  fneg := Ropp;
  fpow := Rpower;       (* std::pow, for a positive base *)
  fceil := Rceil;
  fmax := Rmax
|}.

(** A [glm::mat4] is four columns. *)
Record mat4R : Type := mkmat4R {
  col0 : vec4 R; col1 : vec4 R; col2 : vec4 R; col3 : vec4 R
}.

Definition v4get (v : vec4 R) (r : nat) : R :=
  match r with
  | 0%nat => v4x v | 1%nat => v4y v | 2%nat => v4z v | _ => v4w v
  end.

Definition entry (m : mat4R) (r c : nat) : R :=
  v4get (match c with
         | 0%nat => col0 m | 1%nat => col1 m | 2%nat => col2 m | _ => col3 m
         end) r.

Definition mat_of (e : nat -> nat -> R) : mat4R :=
  let column c := mkvec4 (e 0%nat c) (e 1%nat c) (e 2%nat c) (e 3%nat c) in
  mkmat4R (column 0%nat) (column 1%nat) (column 2%nat) (column 3%nat).

Definition mat4_diag_R (x : R) : mat4R :=
  mat_of (fun r c => if Nat.eqb r c then x else 0).

Definition mat_mul_R (a b : mat4R) : mat4R :=
  mat_of (fun r c =>
            entry a r 0 * entry b 0 c + entry a r 1 * entry b 1 c
            + entry a r 2 * entry b 2 c + entry a r 3 * entry b 3 c).

Definition mat_vec_R (m : mat4R) (v : vec4 R) : vec4 R :=
  let row r := entry m r 0 * v4x v + entry m r 1 * v4y v
               + entry m r 2 * v4z v + entry m r 3 * v4w v in
  mkvec4 (row 0%nat) (row 1%nat) (row 2%nat) (row 3%nat).

(** The inverse by cofactors. *)
Definition det3 (a : nat -> nat -> R) : R :=
  a 0%nat 0%nat * (a 1%nat 1%nat * a 2%nat 2%nat - a 1%nat 2%nat * a 2%nat 1%nat)
  - a 0%nat 1%nat * (a 1%nat 0%nat * a 2%nat 2%nat - a 1%nat 2%nat * a 2%nat 0%nat)
  + a 0%nat 2%nat * (a 1%nat 0%nat * a 2%nat 1%nat - a 1%nat 1%nat * a 2%nat 0%nat).

Definition skip (k j : nat) : nat := if Nat.ltb j k then j else S j.

Definition cofactor (m : mat4R) (r c : nat) : R :=
  (if Nat.even (r + c) then 1 else -1)
  * det3 (fun i j => entry m (skip r i) (skip c j)).

Definition det4 (m : mat4R) : R :=
  entry m 0 0 * cofactor m 0 0 + entry m 0 1 * cofactor m 0 1
  + entry m 0 2 * cofactor m 0 2 + entry m 0 3 * cofactor m 0 3.

Definition inverse_R (m : mat4R) : mat4R :=
  mat_of (fun r c => cofactor m c r / det4 m).

Definition vec4_muls_R (v : vec4 R) (k : R) : vec4 R :=
  mkvec4 (v4x v * k) (v4y v * k) (v4z v * k) (v4w v * k).

Definition glm_scale_R (m : mat4R) (v : vec3 R) : mat4R :=
  mkmat4R (vec4_muls_R (col0 m) (v3x v)) (vec4_muls_R (col1 m) (v3y v))
          (vec4_muls_R (col2 m) (v3z v)) (col3 m).

Definition dot3 (a b : vec3 R) : R := v3x a * v3x b + v3y a * v3y b + v3z a * v3z b.

Definition cross3 (a b : vec3 R) : vec3 R :=
  mkvec3 (v3y a * v3z b - v3z a * v3y b)
         (v3z a * v3x b - v3x a * v3z b)
         (v3x a * v3y b - v3y a * v3x b).

Definition length3_R (v : vec3 R) : R := sqrt (dot3 v v).

Definition normalize3_R (v : vec3 R) : vec3 R :=
  mkvec3 (v3x v / length3_R v) (v3y v / length3_R v) (v3z v / length3_R v).

Definition normalize4_R (v : vec4 R) : vec4 R :=
  let n := sqrt (v4x v * v4x v + v4y v * v4y v + v4z v * v4z v + v4w v * v4w v) in
  mkvec4 (v4x v / n) (v4y v / n) (v4z v / n) (v4w v / n).

(** Right-handed [lookAt], and [ortho] with depth from zero to one
    ([GLM_FORCE_DEPTH_ZERO_TO_ONE]). *)
Definition lookAt_R (eye center up : vec3 R) : mat4R :=
  let f := normalize3_R (mkvec3 (v3x center - v3x eye) (v3y center - v3y eye)
                                (v3z center - v3z eye)) in
  let s := normalize3_R (cross3 f up) in
  let u := cross3 s f in
  mkmat4R (mkvec4 (v3x s) (v3x u) (- v3x f) 0)
          (mkvec4 (v3y s) (v3y u) (- v3y f) 0)
          (mkvec4 (v3z s) (v3z u) (- v3z f) 0)
          (mkvec4 (- dot3 s eye) (- dot3 u eye) (dot3 f eye) 1).

Definition ortho_R (l r b t n f : R) : mat4R :=
  mkmat4R (mkvec4 (2 / (r - l)) 0 0 0)
          (mkvec4 0 (2 / (t - b)) 0 0)
          (mkvec4 0 0 (- 1 / (f - n)) 0)
          (mkvec4 (- (r + l) / (r - l)) (- (t + b) / (t - b)) (- n / (f - n)) 1).

#[export] Instance GlmOps_R : GlmOps R mat4R := {|
  mat4_diag := mat4_diag_R;
  mat_mul := mat_mul_R;
  mat_vec := mat_vec_R;
  inverse := inverse_R;
  glm_scale := glm_scale_R;
  lookAt := lookAt_R;
  ortho := ortho_R;
  length3 := length3_R;
  normalize4 := normalize4_R
|}.

(** The split fraction as the spec writes it, at the position [p] in (0, 1]:
    the blend of the logarithmic and the uniform split, normalised. *)
Definition blendAt (near far lambda p : R) : R :=
  let range := far - near in
  let ratio := far / near in
  let log := near * Rpower ratio p in
  let uniform := near + range * p in
  ((lambda * (log - uniform) + uniform) - near) / range.

(** The configuration of [main.cpp]: four cascades, [zNear = 0.5f],
    [zFar = 48.0f], [cascadeSplitLambda = 0.95f], the light position of the
    constructor, two swapchain images, and a camera whose matrices are the
    identity. *)
Definition cascade0 (fb : VkHandle) : Cascade (F := R) (M := mat4R) :=
  {| frameBuffer := fb; descriptorSet := (100 + fb)%Z; view := (200 + fb)%Z;
     splitDepth := 0; viewProjMatrix := mat4_diag_R 0;
     descriptor := {| dii_sampler := 7%Z; dii_imageView := 8%Z;
                      dii_imageLayout := 9%Z |} |}.

Definition attachment0 (h : VkHandle) : FrameBufferAttachment :=
  {| fba_frameBuffer := h; fba_mem := (h + 1)%Z; fba_image := (h + 2)%Z;
     fba_view := (h + 3)%Z;
     fba_descriptor := {| dii_sampler := 5%Z; dii_imageView := (h + 3)%Z;
                          dii_imageLayout := 9%Z |} |}.

Definition example0 : VulkanExample (F := R) (M := mat4R) :=
  {| debugDisplayReflection := false;
     debugDisplayRefraction := false;
     lightPos := mkvec4 (-400) (-300) (-300) 0;
     cascadeDebug := {| enabled := false; cascadeIndex := 0%Z |};
     uboTerrain_layers :=
       [ mkvec4 12.5 45 0 0; mkvec4 50 30 0 0; mkvec4 62.5 35 0 0;
         mkvec4 87.5 25 0 0; mkvec4 117.5 45 0 0; mkvec4 165 50 0 0 ];
     offscreenPass :=
       {| op_width := FB_DIM; op_height := FB_DIM;
          reflection := attachment0 20%Z; refraction := attachment0 30%Z;
          depth := attachment0 40%Z; op_renderPass := 50%Z; op_sampler := 5%Z |};
     cascadeSplitLambda := 0.95;
     depthPass_renderPass := 60%Z;
     cascades := [cascade0 11%Z; cascade0 12%Z; cascade0 13%Z; cascade0 14%Z];
     camera := {| znear := 0.5; zfar := 48;
                  matrices_perspective := mat4_diag_R 1;
                  matrices_view := mat4_diag_R 1 |};
     renderPass := 70%Z;
     frameBuffers := [81; 82]%Z;
     width := 1280%Z; height := 720%Z;
     defaultClearColor := ClearColor 0.025 0.025 0.025 1;
     commandBuffers := [[]; []] |}.

(** The same application with other handles and other stored cascade
    values, and an overlay on which the user has just ticked "Display
    reflection". *)
Definition example1 : VulkanExample (F := R) (M := mat4R) :=
  set_cascades
    [ store_cascade 1 (mat4_diag_R 1) (cascade0 21%Z);
      store_cascade 2 (mat4_diag_R 2) (cascade0 22%Z);
      store_cascade 3 (mat4_diag_R 3) (cascade0 23%Z);
      store_cascade 4 (mat4_diag_R 4) (cascade0 24%Z) ]
    example0.

Definition overlay0 : UIOverlay (F := R) :=
  {| header_Debugging := true;
     checkBox_Display_reflection := Some true;
     checkBox_Display_refraction := None;
     checkBox_Display_cascades := None;
     sliderInt_Cascade := None;
     sliderFloat_Split_lambda := None;
     header_Terrain_layers := false;
     sliderFloat2_layer := fun _ => None |}.

Local Close Scope R_scope.

(** ** Binary32 arithmetic

    The arithmetic of the program: a C++ [float] is an IEEE 754 binary32
    number, [spec_float] with a precision of 24 bits and [emax] = 128, and
    [+], [-], [*], [/] are the operations of the Standard Library's
    [SpecFloat], which round to nearest, ties to even.  An integer literal or
    a converted integer is the integer rounded; [std::ceil] and [glm::max]
    follow their definitions.  Every operation rounds its own result, as a
    compiler does that keeps [float] expressions in binary32 and does not
    fuse a product with a sum.  [std::pow] is a function of the C library,
    whose code is not part of the repository: it is a parameter. *)
Module Binary32.

Definition prec : Z := 24.
Definition emax : Z := 128.

Definition float : Type := spec_float.

(** The [float] with the given bit pattern. *)
Definition of_bits (b : Z) : float :=
  let s := Z.testbit b 31 in
  let e := ((b / 2 ^ 23) mod 2 ^ 8)%Z in
  let m := (b mod 2 ^ 23)%Z in
  if (e =? 0)%Z then
    (if (m =? 0)%Z then S754_zero s else S754_finite s (Z.to_pos m) (-149))
  else if (e =? 255)%Z then
    (if (m =? 0)%Z then S754_infinity s else S754_nan)
  else S754_finite s (Z.to_pos (m + 2 ^ 23)) (e - 150).

Definition of_Z (z : Z) : float := binary_normalize prec emax z 0 false.

(** [std::ceil]: the least integer not below [x], which is a [float] when
    [x] is; a negative [x] above -1 gives -0. *)
Definition ceil (x : float) : float :=
  match x with
  | S754_finite s m e =>
      if (0 <=? e)%Z then x
      else binary_normalize prec emax
             (- ((- cond_Zopp s (Zpos m)) / 2 ^ (- e)))%Z 0 s
  | _ => x
  end.

(** [glm::max(x, y)] is [(x < y) ? y : x]. *)
Definition max (x y : float) : float := if SFltb x y then y else x.

Definition FloatOps_binary32 (pow : float -> float -> float) : FloatOps float := {|
  ofZ := of_Z;
  fadd := SFadd prec emax;
  fsub := SFsub prec emax;
  fmul := SFmul prec emax;
  fdiv := SFdiv prec emax;
  fneg := SFopp;
  fpow := pow;
  fceil := ceil;
  fmax := max
|}.

(** A number: finite or zero, not an infinity and not a NaN. *)
Definition is_number (x : float) : bool :=
  match x with
  | S754_zero _ | S754_finite _ _ _ => true
  | _ => false
  end.

(** [std::pow(x, 1.0f)] is [x]. *)
Definition pow_one (pow : float -> float -> float) : Prop :=
  forall x, pow x (of_Z 1) = x.

End Binary32.

(** ** The split fraction as the spec writes it

    "range = far - near, ratio = far/near", "near * ratio^p",
    "near + range*p (p = (i+1)/N)", blended with lambda and normalised,
    with the operations of the arithmetic at hand. *)
Definition specSplit {F : Type} {FO : FloatOps F} (N : nat) (near far lambda : F)
    (i : nat) : F :=
  let range := fsub far near in
  let ratio := fdiv far near in
  let p := fdiv (ofZ (Z.of_nat i + 1)) (ofZ (Z.of_nat N)) in
  let log := fmul near (fpow ratio p) in
  let uniform := fadd near (fmul range p) in
  fdiv (fsub (fadd (fmul lambda (fsub log uniform)) uniform) near) range.

(* ================================================================== *)
(** * Part II: properties *)
(* ================================================================== *)

(** ** Arrays *)

Lemma upd_length {A : Type} (f : A -> A) (l : list A) (i : nat) :
  length (upd i f l) = length l.
Proof.
  revert i; induction l as [|x t IH]; intros [|j]; simpl; auto.
Qed.

Lemma upd_nth_error {A : Type} (f : A -> A) (l : list A) (i j : nat) :
  nth_error (upd i f l) j =
  if Nat.eqb j i then option_map f (nth_error l j) else nth_error l j.
Proof.
  revert i j; induction l as [|x t IH]; intros i j.
  - destruct i, j; simpl; try reflexivity; destruct (Nat.eqb _ _); reflexivity.
  - destruct i as [|i], j as [|j]; simpl; try reflexivity.
    apply IH.
Qed.

Lemma upd_map_frame {A B : Type} (g : A -> B) (f : A -> A) (l : list A) (i : nat) :
  (forall x, g (f x) = g x) -> map g (upd i f l) = map g l.
Proof.
  intros Hg; revert i; induction l as [|x t IH]; intros [|j]; simpl;
    rewrite ?Hg, ?IH; reflexivity.
Qed.

Lemma map_const_repeat {A B : Type} (b : B) (l : list A) :
  map (fun _ => b) l = repeat b (length l).
Proof. induction l as [|x t IH]; simpl; [|rewrite IH]; reflexivity. Qed.

Lemma nth_of_nth_error {A : Type} (l : list A) (i : nat) (x d : A) :
  nth_error l i = Some x -> nth i l d = x.
Proof. intros H; apply nth_error_nth; exact H. Qed.

Section Generic.

Context {F M : Type} {FO : FloatOps F} {GO : GlmOps F M}.
Variable N : nat.

Local Abbreviation State := (VulkanExample (F := F) (M := M)).

(** ** The second loop of [updateCascades] *)

Lemma cascadeLoop_nth_error (s : State) (splits : list F) :
  forall (k a : nat) (cs : list Cascade) (i : nat),
    nth_error (cascadeLoop s splits (seq a k) (lastSplitOf splits a) cs) i =
    if andb (Nat.leb a i) (Nat.ltb i (a + k))
    then option_map (storedFor s splits i) (nth_error cs i)
    else nth_error cs i.
Proof.
  induction k as [|k IH]; intros a cs i.
  - simpl. replace (a + 0) with a by lia.
    destruct (Nat.leb_spec a i), (Nat.ltb_spec i a); simpl; try reflexivity; lia.
  - cbn [seq cascadeLoop].
    change (nth a splits (ofZ 0)) with (lastSplitOf splits (S a)) at 3.
    rewrite IH, upd_nth_error.
    destruct (Nat.eqb_spec i a) as [->|Hne].
    + replace (Nat.leb (S a) a) with false by (symmetry; apply Nat.leb_gt; lia).
      rewrite Nat.leb_refl.
      replace (Nat.ltb a (a + S k)) with true by (symmetry; apply Nat.ltb_lt; lia).
      reflexivity.
    + destruct (Nat.leb_spec (S a) i), (Nat.leb_spec a i),
        (Nat.ltb_spec i (S a + k)), (Nat.ltb_spec i (a + S k));
        simpl; try reflexivity; lia.
Qed.

Lemma cascadeLoop_length (s : State) (splits : list F) :
  forall (todo : list nat) (last : F) (cs : list Cascade),
    length (cascadeLoop s splits todo last cs) = length cs.
Proof.
  induction todo as [|i rest IH]; intros last cs; simpl; [reflexivity|].
  rewrite IH. apply upd_length.
Qed.

Lemma cascadeLoop_frame {B : Type} (g : Cascade (F := F) (M := M) -> B)
    (s : State) (splits : list F) :
  (forall d m c, g (store_cascade d m c) = g c) ->
  forall (todo : list nat) (last : F) (cs : list Cascade),
    map g (cascadeLoop s splits todo last cs) = map g cs.
Proof.
  intros Hg; induction todo as [|i rest IH]; intros last cs; simpl; [reflexivity|].
  rewrite IH. apply upd_map_frame. intros x; apply Hg.
Qed.

Lemma updateCascades_nth_error (s : State) (i : nat) :
  nth_error (cascades (updateCascades N s)) i =
  if Nat.ltb i N
  then option_map (storedFor s (splitsOf N s) i) (nth_error (cascades s) i)
  else nth_error (cascades s) i.
Proof.
  unfold updateCascades. cbn [cascades set_cascades].
  change (ofZ 0) with (lastSplitOf (splitsOf N s) 0) at 1.
  fold (splitsOf N s).
  rewrite (cascadeLoop_nth_error s (splitsOf N s) N 0 (cascades s) i).
  reflexivity.
Qed.

Lemma updateCascades_length (s : State) :
  length (cascades (updateCascades N s)) = length (cascades s).
Proof. apply cascadeLoop_length. Qed.

(** In any arithmetic in which [near + (far - near)] is [far], as it is for
    the reals, the split of cascade [i] is the formula of the spec with the
    operations of that arithmetic. *)
Lemma cascadeSplit_any_arithmetic (near far lambda : F) (i : nat) :
  fadd near (fsub far near) = far ->
  cascadeSplit N near far lambda i
  = let range := fsub far near in
    let ratio := fdiv far near in
    let p := fdiv (ofZ (u32 (Z.of_nat i + 1))) (ofZ (Z.of_nat N)) in
    let log := fmul near (fpow ratio p) in
    let uniform := fadd near (fmul range p) in
    fdiv (fsub (fadd (fmul lambda (fsub log uniform)) uniform) near) range.
Proof.
  intros Hsum. unfold cascadeSplit. cbv zeta. rewrite Hsum. reflexivity.
Qed.

Lemma cascadeSplits_at (near far lambda : F) (i : nat) :
  i < N ->
  nth i (cascadeSplits N near far lambda) (ofZ 0) = cascadeSplit N near far lambda i.
Proof.
  intros Hi. unfold cascadeSplits.
  rewrite (nth_indep _ (ofZ 0) (cascadeSplit N near far lambda 0))
    by (rewrite length_map, length_seq; exact Hi).
  rewrite map_nth, seq_nth by exact Hi. reflexivity.
Qed.

(** C2 (amended).  In the arithmetic of the code, whatever it is: for a
    cascade index [i] below the cascade count [N], the first loop of
    [updateCascades] stores ((lambda * (log - uniform) + uniform) - near)
    / (far - near), where p = (i + 1) / N, log = near * ratio^p and
    uniform = near + range * p, and where range and ratio are not
    far - near and far / near but maxZ - near and maxZ / near, with
    maxZ = near + (far - near) as the arithmetic computes it.  Whenever
    near + (far - near) gives far, this is the formula of the spec. *)
Theorem cascadeSplits_stored_fraction (near far lambda : F) (i : nat) :
  i < N -> (Z.of_nat N < 2 ^ 32)%Z ->
  let clipRange := fsub far near in
  let maxZ := fadd near clipRange in
  let range := fsub maxZ near in
  let ratio := fdiv maxZ near in
  let p := fdiv (ofZ (Z.of_nat i + 1)) (ofZ (Z.of_nat N)) in
  let log := fmul near (fpow ratio p) in
  let uniform := fadd near (fmul range p) in
  let stored := nth i (cascadeSplits N near far lambda) (ofZ 0) in
  stored = fdiv (fsub (fadd (fmul lambda (fsub log uniform)) uniform) near) clipRange /\
  (maxZ = far -> stored = specSplit N near far lambda i).
Proof.
  intros Hi HN. cbv zeta.
  assert (Hu : u32 (Z.of_nat i + 1) = (Z.of_nat i + 1)%Z)
    by (unfold u32; rewrite Z.mod_small; lia).
  rewrite (cascadeSplits_at near far lambda Hi).
  split.
  - unfold cascadeSplit. rewrite Hu. reflexivity.
  - intros Hsum. rewrite (@cascadeSplit_any_arithmetic near far lambda i Hsum).
    unfold specSplit. rewrite Hu. reflexivity.
Qed.

(** ** What [updateCascades] leaves alone *)

(** C10.  [updateCascades] writes nothing but the [splitDepth] and
    [viewProjMatrix] of the cascades: the framebuffer, image view, descriptor
    set and descriptor of every cascade are the same after the call, the
    array keeps its size, and the camera, the light position, the split
    lambda and every other member of the state are unchanged. *)
Theorem updateCascades_frame (s : State) :
  let s' := updateCascades N s in
  map frameBuffer (cascades s') = map frameBuffer (cascades s) /\
  map view (cascades s') = map view (cascades s) /\
  map descriptorSet (cascades s') = map descriptorSet (cascades s) /\
  map descriptor (cascades s') = map descriptor (cascades s) /\
  length (cascades s') = length (cascades s) /\
  camera s' = camera s /\
  lightPos s' = lightPos s /\
  cascadeSplitLambda s' = cascadeSplitLambda s /\
  s' = set_cascades (cascades s') s.
Proof.
  cbv zeta.
  repeat split; try reflexivity;
    try (apply cascadeLoop_frame; intros; reflexivity).
  apply updateCascades_length.
Qed.

(** ** Determinism *)

Lemma storedFor_inputs (s1 s2 : State) (splits : list F) (i : nat) :
  camera s1 = camera s2 -> lightPos s1 = lightPos s2 ->
  storedFor s1 splits i = storedFor s2 splits i.
Proof.
  intros Hc Hl. unfold storedFor, splitDepthOf, sliceOf. rewrite Hc, Hl. reflexivity.
Qed.

Lemma splitsOf_inputs (s1 s2 : State) :
  camera s1 = camera s2 -> cascadeSplitLambda s1 = cascadeSplitLambda s2 ->
  splitsOf N s1 = splitsOf N s2.
Proof. intros Hc Hl. unfold splitsOf. rewrite Hc, Hl. reflexivity. Qed.

Lemma updateCascades_outputs (s : State) (i : nat) (c : Cascade) :
  i < N -> nth_error (cascades s) i = Some c ->
  nth_error (cascades (updateCascades N s)) i = Some (storedFor s (splitsOf N s) i c).
Proof.
  intros Hi Hc. rewrite updateCascades_nth_error.
  replace (Nat.ltb i N) with true by (symmetry; apply Nat.ltb_lt; exact Hi).
  rewrite Hc. reflexivity.
Qed.

Lemma updateCascades_idempotent (s : State) :
  updateCascades N (updateCascades N s) = updateCascades N s.
Proof.
  set (s' := updateCascades N s).
  assert (Hcs : cascades (updateCascades N s') = cascades s').
  { apply nth_error_ext; intros i.
    rewrite (updateCascades_nth_error s' i).
    destruct (Nat.ltb i N) eqn:Hi; [|reflexivity].
    rewrite (storedFor_inputs s' s (splitsOf N s') i) by reflexivity.
    rewrite (splitsOf_inputs s' s) by reflexivity.
    unfold s'. rewrite (updateCascades_nth_error s i), Hi.
    destruct (nth_error (cascades s) i) as [c|]; reflexivity. }
  unfold updateCascades at 1. fold (splitsOf N s').
  change (cascadeLoop s' (splitsOf N s') (seq 0 N) (ofZ 0) (cascades s'))
    with (cascades (updateCascades N s')).
  rewrite Hcs. destruct s'; reflexivity.
Qed.

(** C7.  [updateCascades] is deterministic and idempotent.  Two states with
    the same camera (near and far clip, view and projection matrices), light
    position and split lambda get the same [splitDepth] and the same
    [viewProjMatrix] in every cascade, whatever the cascades held before and
    whatever the arithmetic is; and a second call right after the first
    changes nothing.  (The accumulator [lastSplitDist] is a local that
    starts from zero in every call.) *)
Theorem updateCascades_deterministic (s1 s2 : State) :
  camera s1 = camera s2 ->
  lightPos s1 = lightPos s2 ->
  cascadeSplitLambda s1 = cascadeSplitLambda s2 ->
  length (cascades s1) = N ->
  length (cascades s2) = N ->
  map splitDepth (cascades (updateCascades N s1))
    = map splitDepth (cascades (updateCascades N s2)) /\
  map viewProjMatrix (cascades (updateCascades N s1))
    = map viewProjMatrix (cascades (updateCascades N s2)) /\
  updateCascades N (updateCascades N s1) = updateCascades N s1.
Proof.
  intros Hc Hl Hla H1 H2.
  assert (Hpt : forall i,
             option_map (fun c => (splitDepth c, viewProjMatrix c))
                        (nth_error (cascades (updateCascades N s1)) i)
             = option_map (fun c => (splitDepth c, viewProjMatrix c))
                          (nth_error (cascades (updateCascades N s2)) i)).
  { intros i. rewrite !updateCascades_nth_error.
    rewrite (storedFor_inputs s1 s2 (splitsOf N s1) i Hc Hl).
    rewrite (splitsOf_inputs s1 s2 Hc Hla).
    destruct (Nat.ltb_spec i N) as [Hi|Hi].
    - destruct (nth_error (cascades s1) i) as [c1|] eqn:E1;
        [|apply nth_error_None in E1; lia].
      destruct (nth_error (cascades s2) i) as [c2|] eqn:E2;
        [|apply nth_error_None in E2; lia].
      reflexivity.
    - replace (nth_error (cascades s1) i) with (@None (Cascade (F:=F) (M:=M)))
        by (symmetry; apply nth_error_None; lia).
      replace (nth_error (cascades s2) i) with (@None (Cascade (F:=F) (M:=M)))
        by (symmetry; apply nth_error_None; lia).
      reflexivity. }
  assert (Hboth : map (fun c => (splitDepth c, viewProjMatrix c))
                      (cascades (updateCascades N s1))
                  = map (fun c => (splitDepth c, viewProjMatrix c))
                        (cascades (updateCascades N s2))).
  { apply nth_error_ext; intros i. rewrite !nth_error_map. apply Hpt. }
  split; [|split].
  - apply (f_equal (map fst)) in Hboth. rewrite !map_map in Hboth. exact Hboth.
  - apply (f_equal (map snd)) in Hboth. rewrite !map_map in Hboth. exact Hboth.
  - apply updateCascades_idempotent.
Qed.

(** ** The push constants of [drawScene] *)

(** C5.  The push-constant block of [drawScene] is a function of the draw
    type alone, given by a fixed table: refract has the identity scale, the
    water clip plane (0, 1, 0, 0) and shadows off; reflect has the scale with
    the vertical axis negated, the same clip plane and shadows off; display
    has the identity scale, the zero clip plane and shadows on.  The sky draw
    and the terrain draw of one call get the same block, and the call pushes
    nothing else. *)
Theorem drawScene_pushConst_table (drawType : SceneDrawType) :
  let identity := mat4_diag (ofZ 1) in
  let waterPlane := mkvec4 (ofZ 0) (ofZ 1) (ofZ 0) (ofZ 0) in
  let block :=
    match drawType with
    | sceneDrawTypeRefract =>
        {| scale := identity; clipPlane := waterPlane; shadows := 0 |}
    | sceneDrawTypeReflect =>
        {| scale := glm_scale identity (mkvec3 (ofZ 1) (ofZ (-1)) (ofZ 1));
           clipPlane := waterPlane; shadows := 0 |}
    | sceneDrawTypeDisplay =>
        {| scale := identity; clipPlane := vec4_splat (ofZ 0); shadows := 1 |}
    end in
  pushes (drawScene drawType)
  = [ (pipelineLayouts_sky, PushScene block);
      (pipelineLayouts_terrain, PushScene block) ]
  /\ map drawOf (drawScene (F := F) (M := M) drawType)
     = [ None; None; None; Some (DrawModel models_skysphere);
         None; None; None; Some DrawHeightMap ].
Proof.
  destruct drawType; split; reflexivity.
Qed.

(** ** The order of the passes *)

Lemma passes_cascades (s : State) (rest : list Cmd) :
  forall (k a : nat),
    passesFrom None (flat_map (cascadePass s) (seq a k) ++ rest)
    = map (fun j => {| pass_renderPass := depthPass_renderPass s;
                       pass_framebuffer := frameBuffer (nth j (cascades s) nullCascade);
                       pass_draws := [DrawHeightMap] |}) (seq a k)
      ++ passesFrom None rest.
Proof.
  induction k as [|k IH]; intros a; [reflexivity|].
  cbn [seq flat_map map]. rewrite <- app_assoc.
  unfold cascadePass at 1. cbn [app drawShadowCasters passesFrom drawOf add_draw
    pass_renderPass pass_framebuffer pass_draws].
  rewrite IH. reflexivity.
Qed.

Lemma passes_recordCommandBuffer (s : State) (i : nat) :
  passes (recordCommandBuffer N s i)
  = map (fun j => {| pass_renderPass := depthPass_renderPass s;
                     pass_framebuffer := frameBuffer (nth j (cascades s) nullCascade);
                     pass_draws := [DrawHeightMap] |}) (seq 0 N)
    ++ [ {| pass_renderPass := op_renderPass (offscreenPass s);
            pass_framebuffer := fba_frameBuffer (refraction (offscreenPass s));
            pass_draws := [DrawModel models_skysphere; DrawHeightMap] |};
         {| pass_renderPass := op_renderPass (offscreenPass s);
            pass_framebuffer := fba_frameBuffer (reflection (offscreenPass s));
            pass_draws := [DrawModel models_skysphere; DrawHeightMap] |};
         {| pass_renderPass := renderPass s;
            pass_framebuffer := nth i (frameBuffers s) VK_NULL_HANDLE;
            pass_draws :=
              [DrawModel models_skysphere; DrawHeightMap; DrawModel models_plane]
              ++ repeat (DrawVertices 6 1 0 0) (enabledToggles s)
              ++ [DrawUI] |} ].
Proof.
  unfold passes, recordCommandBuffer, drawCSM.
  cbn [app passesFrom drawOf].
  rewrite passes_cascades. f_equal.
  unfold refractionPass, reflectionPass, mainPass, debugDraws, enabledToggles.
  destruct (debugDisplayReflection s), (debugDisplayRefraction s),
    (enabled (cascadeDebug s)); reflexivity.
Qed.

(** C1.  Every command buffer that [buildCommandBuffers] records holds the
    passes in one fixed order: a depth pass on the framebuffer of cascade 0,
    1, ..., N-1, in this order, each drawing the shadow casters; then the
    offscreen pass on the refraction framebuffer; then the offscreen pass on
    the reflection framebuffer; then the pass on the swapchain framebuffer of
    that buffer.  In the last pass the scene (sky, terrain) is drawn first,
    then the mirror plane, then one quad per enabled debug toggle, and the UI
    overlay is the last draw before the pass ends. *)
Theorem buildCommandBuffers_pass_order (s : State) :
  map passes (commandBuffers (buildCommandBuffers N s))
  = map (fun i =>
           map (fun j =>
                  {| pass_renderPass := depthPass_renderPass s;
                     pass_framebuffer := frameBuffer (nth j (cascades s) nullCascade);
                     pass_draws := [DrawHeightMap] |}) (seq 0 N)
           ++ [ {| pass_renderPass := op_renderPass (offscreenPass s);
                   pass_framebuffer := fba_frameBuffer (refraction (offscreenPass s));
                   pass_draws := [DrawModel models_skysphere; DrawHeightMap] |};
                {| pass_renderPass := op_renderPass (offscreenPass s);
                   pass_framebuffer := fba_frameBuffer (reflection (offscreenPass s));
                   pass_draws := [DrawModel models_skysphere; DrawHeightMap] |};
                {| pass_renderPass := renderPass s;
                   pass_framebuffer := nth i (frameBuffers s) VK_NULL_HANDLE;
                   pass_draws :=
                     [DrawModel models_skysphere; DrawHeightMap; DrawModel models_plane]
                     ++ repeat (DrawVertices 6 1 0 0) (enabledToggles s)
                     ++ [DrawUI] |} ])
        (seq 0 (length (commandBuffers s))).
Proof.
  unfold buildCommandBuffers. cbn [commandBuffers set_commandBuffers].
  rewrite map_map. apply map_ext. intros i. apply passes_recordCommandBuffer.
Qed.

(** ** Re-recording on a toggle *)

Lemma cascadePass_ext (s1 s2 : State) (j : nat) :
  depthPass_renderPass s1 = depthPass_renderPass s2 ->
  map frameBuffer (cascades s1) = map frameBuffer (cascades s2) ->
  cascadePass s1 j = cascadePass s2 j.
Proof.
  intros Hrp Hfb. unfold cascadePass. rewrite Hrp.
  change VK_NULL_HANDLE with VK_NULL_HANDLE.
  replace (frameBuffer (nth j (cascades s1) nullCascade))
    with (nth j (map frameBuffer (cascades s1)) (frameBuffer (nullCascade (F:=F) (M:=M))))
    by apply map_nth.
  rewrite Hfb, map_nth. reflexivity.
Qed.

Lemma recordCommandBuffer_ext (s1 s2 : State) (i : nat) :
  sameStreamInputs s1 s2 ->
  recordCommandBuffer N s1 i = recordCommandBuffer N s2 i.
Proof.
  intros (H1 & H2 & H3 & H4 & H5 & H6 & H7 & H8 & H9 & H10 & H11).
  unfold recordCommandBuffer, drawCSM, refractionPass, reflectionPass, mainPass,
    debugDraws.
  rewrite H1, H2, H3, H4, H7, H8, H9, H10, H11.
  rewrite (flat_map_ext (cascadePass s1) (cascadePass s2)
             (fun j => cascadePass_ext s1 s2 j H5 H6)).
  reflexivity.
Qed.

Lemma buildCommandBuffers_current (s : State) :
  streamsCurrent N (buildCommandBuffers N s).
Proof.
  unfold streamsCurrent, buildCommandBuffers.
  cbn [commandBuffers set_commandBuffers].
  rewrite length_map, length_seq.
  apply map_ext. intros i. apply recordCommandBuffer_ext.
  repeat split; reflexivity.
Qed.

Lemma streamsCurrent_ext (s1 s2 : State) :
  sameStreamInputs s1 s2 -> commandBuffers s1 = commandBuffers s2 ->
  streamsCurrent N s1 -> streamsCurrent N s2.
Proof.
  unfold streamsCurrent, buildCommandBuffers. cbn [commandBuffers set_commandBuffers].
  intros Hin Hcb Hcur. rewrite <- Hcb. rewrite Hcur at 1.
  apply map_ext. intros i. apply recordCommandBuffer_ext. exact Hin.
Qed.

Lemma settled_build (s0 s s1 : State) :
  settled N s0 s -> length (commandBuffers s1) = length (commandBuffers s) ->
  settled N s0 (buildCommandBuffers N s1).
Proof.
  intros [Hlen _] Hl1. split.
  - unfold buildCommandBuffers. cbn [commandBuffers set_commandBuffers].
    rewrite length_map, length_seq. congruence.
  - right. apply buildCommandBuffers_current.
Qed.

Lemma settled_ext (s0 s s1 : State) :
  settled N s0 s -> sameStreamInputs s s1 -> commandBuffers s = commandBuffers s1 ->
  settled N s0 s1.
Proof.
  intros [Hlen Hor] Hin Hcb. split; [congruence|].
  destruct Hor as [Ht|Hc].
  - left. rewrite <- Ht. unfold toggles.
    destruct Hin as (H1 & H2 & H3 & _). rewrite H1, H2, H3. reflexivity.
  - right. exact (streamsCurrent_ext Hin Hcb Hc).
Qed.

Lemma lambda_step_inputs (v : F) (s : State) :
  let s1 := updateUniformBuffers (updateCascades N (set_cascadeSplitLambda v s)) in
  sameStreamInputs s s1 /\ commandBuffers s = commandBuffers s1.
Proof.
  cbv zeta. split; [|reflexivity].
  repeat split; try reflexivity.
  symmetry.
  apply cascadeLoop_frame. intros; reflexivity.
Qed.

Lemma terrain_step_inputs (slider : nat -> option (F * F)) :
  forall (idx : list nat) (s : State),
    let s1 :=
      fold_left
        (fun s i =>
           match slider i with
           | Some xy =>
               set_uboTerrain_layers (upd i (set_layer_xy xy) (uboTerrain_layers s)) s
           | None => s
           end) idx s in
    sameStreamInputs s s1 /\ commandBuffers s = commandBuffers s1.
Proof.
  induction idx as [|i rest IH]; intros s; cbv zeta.
  - split; [repeat split|]; reflexivity.
  - cbn [fold_left].
    destruct (slider i) as [xy|]; [|apply IH].
    set (s1 := set_uboTerrain_layers _ s).
    destruct (IH s1) as [Hin Hcb]. cbv zeta in Hin, Hcb.
    split; [|exact Hcb].
    destruct Hin as (H1 & H2 & H3 & H4 & H5 & H6 & H7 & H8 & H9 & H10 & H11).
    repeat split; (etransitivity; [|eassumption]); reflexivity.
Qed.

Ltac settle :=
  lazymatch goal with
  | |- settled _ ?s ?s => split; [reflexivity | left; reflexivity]
  | |- settled _ _ (buildCommandBuffers _ (_ _ ?x)) =>
      refine (settled_build (s := x) _ _ _); [settle | reflexivity]
  | |- settled _ _ (updateUniformBuffers (updateCascades _ (set_cascadeSplitLambda ?v ?x))) =>
      refine (settled_ext (s := x) _ (proj1 (lambda_step_inputs v x))
                          (proj2 (lambda_step_inputs v x))); settle
  | |- settled _ _ (fold_left (fun s i => match ?g i with _ => _ end) ?idx ?x) =>
      refine (settled_ext (s := x) _ (proj1 (terrain_step_inputs g idx x))
                          (proj2 (terrain_step_inputs g idx x))); settle
  | |- settled _ _ (if enabled (cascadeDebug ?x) then _ else _) =>
      destruct (enabled (cascadeDebug x)); settle
  end.

Lemma OnUpdateUIOverlay_settled (overlay : UIOverlay (F := F)) (s : State) :
  settled N s (OnUpdateUIOverlay N overlay s).
Proof.
  unfold OnUpdateUIOverlay.
  destruct (header_Debugging overlay),
    (checkBox_Display_reflection overlay) as [v1|],
    (checkBox_Display_refraction overlay) as [v2|],
    (checkBox_Display_cascades overlay) as [v3|],
    (sliderInt_Cascade overlay) as [vi|],
    (sliderFloat_Split_lambda overlay) as [vl|],
    (header_Terrain_layers overlay);
    cbv zeta; settle.
Qed.

(** C6.  When a call of [OnUpdateUIOverlay] changes one of the three debug
    toggles (display reflection, display refraction, display cascades), the
    command buffers of all swapchain images have been re-recorded by the time
    the call returns: each holds what [buildCommandBuffers] records in the new
    state.  And in every command buffer [buildCommandBuffers] records, the
    number of full-screen quad draws ([draw(6, 1, 0, 0)]) in the main pass is
    the number of toggles that are on, and no other pass has one. *)
Theorem rebuild_on_toggle (overlay : UIOverlay (F := F)) (s : State) :
  let s' := OnUpdateUIOverlay N overlay s in
  (toggles s' <> toggles s ->
   commandBuffers s'
   = map (recordCommandBuffer N s') (seq 0 (length (commandBuffers s))))
  /\ map (fun cb => map quadDraws (passes cb))
         (commandBuffers (buildCommandBuffers N s))
     = map (fun _ => repeat 0 N ++ [0; 0; enabledToggles s])
           (seq 0 (length (commandBuffers s))).
Proof.
  cbv zeta. split.
  - intros Hchg.
    destruct (OnUpdateUIOverlay_settled overlay s) as [Hlen [Hsame|Hcur]];
      [contradiction|].
    rewrite <- Hlen. exact Hcur.
  - unfold buildCommandBuffers. cbn [commandBuffers set_commandBuffers].
    rewrite map_map. apply map_ext. intros i.
    rewrite passes_recordCommandBuffer, map_app, map_map.
    f_equal.
    + cbn [quadDraws pass_draws filter isQuadDraw length].
      rewrite map_const_repeat, length_seq. reflexivity.
    + cbn [map quadDraws pass_draws app filter isQuadDraw length].
      do 2 f_equal. f_equal.
      rewrite filter_app. cbn [filter isQuadDraw app].
      rewrite app_nil_r.
      induction (enabledToggles s) as [|k IH]; simpl; [reflexivity|].
      rewrite IH. reflexivity.
Qed.

End Generic.

(** ** Start-up: which results are checked *)

Module SetupFacts.
Import Setup.

Lemma Sound_ret {A : Type} (a : A) : Sound (ret a).
Proof. intros d. constructor. Qed.

Lemma Sound_bind {A B : Type} (m : M A) (k : A -> M B) :
  Sound m -> (forall a, Sound (k a)) -> Sound (bind m k).
Proof.
  intros Hm Hk d. specialize (Hm d). unfold bind.
  destruct (m d) as [log [a|f]].
  - specialize (Hk a d). destruct (k a d) as [log' [b|f]]; simpl in *.
    + apply Forall_app; split; assumption.
    + destruct f as [c res|].
      * destruct Hk as (before & -> & Hb & Hres & Hne).
        exists (log ++ before). rewrite app_assoc. repeat split; auto.
        apply Forall_app; split; assumption.
      * apply Forall_app; split; assumption.
  - exact Hm.
Qed.

Lemma Sound_VK_CHECK_RESULT (c : VkCall) : Sound (VK_CHECK_RESULT c).
Proof.
  intros d. unfold VK_CHECK_RESULT.
  destruct (Z.eqb_spec (vkResult d c) VK_SUCCESS) as [He|Hne]; simpl.
  - repeat constructor. exact He.
  - exists []. repeat split; auto.
Qed.

Lemma Sound_getSupportedDepthFormat : Sound getSupportedDepthFormat.
Proof. intros d. repeat constructor. Qed.

Lemma Sound_assert (b : bool) : Sound (assert_validDepthFormat b).
Proof. intros d. destruct b; constructor. Qed.

Lemma Sound_for_each (body : nat -> M unit) :
  (forall i, Sound (body i)) -> forall idx, Sound (for_each idx body).
Proof.
  intros Hb; induction idx as [|i rest IH]; simpl.
  - apply Sound_ret.
  - apply Sound_bind; auto.
Qed.

Create HintDb sound.

#[local] Hint Resolve Sound_ret Sound_VK_CHECK_RESULT
  Sound_getSupportedDepthFormat Sound_assert : sound.

Ltac sound :=
  repeat first [ apply Sound_bind; [ | intros ? ]
               | apply Sound_for_each; intros ?
               | solve [auto with sound] ].

(** Every call wrapped in [VK_CHECK_RESULT] is checked: a run of
    [prepareOffscreen] or [prepareCSM] stops at the first call that fails and
    names it; all the calls before it succeeded, so it was made once. *)
Lemma prepareOffscreen_sound (colorFormat : Z) : Sound (prepareOffscreen colorFormat).
Proof. unfold prepareOffscreen, createFrameBuffer. sound. Qed.

Lemma prepareCSM_sound (n : nat) : Sound (prepareCSM n).
Proof. unfold prepareCSM. sound. Qed.

Example prepareOffscreen_out_of_memory :
  prepareOffscreen colorFormat0 outOfDeviceMemory
  = ([ QueriedDepthFormat;
       Called (vkCreateRenderPass offscreenPass_renderPass
                 [VkFormat colorFormat0; VkFormat 130]);
       Called (vkCreateSampler offscreenPass_sampler);
       Called (vkCreateImage (offscreenPass_image refraction) (VkFormat colorFormat0));
       Called (vkAllocateMemory (offscreenPass_mem refraction));
       Called (vkBindImageMemory (offscreenPass_image refraction)
                                 (offscreenPass_mem refraction));
       Called (vkCreateImageView (offscreenPass_view refraction) (VkFormat colorFormat0));
       Called (vkCreateImage (offscreenPass_image reflection) (VkFormat colorFormat0));
       Called (vkAllocateMemory (offscreenPass_mem reflection)) ],
     Aborted (FailedCall (vkAllocateMemory (offscreenPass_mem reflection)) (-2))).
Proof. reflexivity. Qed.

Lemma prepareOffscreen_in_debug (colorFormat : Z) :
  prepareOffscreen_in false colorFormat = prepareOffscreen colorFormat.
Proof. reflexivity. Qed.

(** C9 (the code departs from it).  The only check of the depth-format query
    is the [assert] of [prepareOffscreen]; [prepareCSM] drops the answer of
    its query.  On a device with no supported depth format, on which every
    call succeeds: in a build with [NDEBUG] the setup of [prepare()] runs to
    completion, and the render passes, the depth images and their views are
    created with a depth format that was never written; in a build without
    [NDEBUG] it stops at the assertion before it creates anything. *)
Theorem setup_goes_on_after_failed_depth_format_query :
  prepare_targets true colorFormat0 4 noDepthFormat
  = ([ (* prepareOffscreen *)
       QueriedDepthFormat;
       Called (vkCreateRenderPass offscreenPass_renderPass
                 [VkFormat colorFormat0; Indeterminate]);
       Called (vkCreateSampler offscreenPass_sampler);
       Called (vkCreateImage (offscreenPass_image refraction) (VkFormat colorFormat0));
       Called (vkAllocateMemory (offscreenPass_mem refraction));
       Called (vkBindImageMemory (offscreenPass_image refraction)
                                 (offscreenPass_mem refraction));
       Called (vkCreateImageView (offscreenPass_view refraction) (VkFormat colorFormat0));
       Called (vkCreateImage (offscreenPass_image reflection) (VkFormat colorFormat0));
       Called (vkAllocateMemory (offscreenPass_mem reflection));
       Called (vkBindImageMemory (offscreenPass_image reflection)
                                 (offscreenPass_mem reflection));
       Called (vkCreateImageView (offscreenPass_view reflection) (VkFormat colorFormat0));
       Called (vkCreateImage (offscreenPass_image depth) Indeterminate);
       Called (vkAllocateMemory (offscreenPass_mem depth));
       Called (vkBindImageMemory (offscreenPass_image depth) (offscreenPass_mem depth));
       Called (vkCreateImageView (offscreenPass_view depth) Indeterminate);
       Called (vkCreateFramebuffer (offscreenPass_frameBuffer refraction));
       Called (vkCreateFramebuffer (offscreenPass_frameBuffer reflection));
       (* prepareCSM *)
       QueriedDepthFormat;
       Called (vkCreateRenderPass depthPass_renderPass [Indeterminate]);
       Called (vkCreateImage depth_image Indeterminate);
       Called (vkAllocateMemory depth_mem);
       Called (vkBindImageMemory depth_image depth_mem);
       Called (vkCreateImageView depth_view Indeterminate);
       Called (vkCreateImageView (cascades_view 0) Indeterminate);
       Called (vkCreateFramebuffer (cascades_frameBuffer 0));
       Called (vkCreateImageView (cascades_view 1) Indeterminate);
       Called (vkCreateFramebuffer (cascades_frameBuffer 1));
       Called (vkCreateImageView (cascades_view 2) Indeterminate);
       Called (vkCreateFramebuffer (cascades_frameBuffer 2));
       Called (vkCreateImageView (cascades_view 3) Indeterminate);
       Called (vkCreateFramebuffer (cascades_frameBuffer 3));
       Called (vkCreateSampler depth_sampler) ],
     Completed tt)
  /\ prepare_targets false colorFormat0 4 noDepthFormat
     = ([QueriedDepthFormat], Aborted FailedAssert_validDepthFormat).
Proof. split; reflexivity. Qed.

End SetupFacts.

(** ** The split fractions, in exact arithmetic *)

Section Exact.

Local Open Scope R_scope.

Lemma u32_small (i N : nat) :
  (i < N)%nat -> (Z.of_nat N < 2 ^ 32)%Z -> u32 (Z.of_nat i + 1) = Z.of_nat (i + 1).
Proof.
  intros Hi HN. unfold u32. rewrite Z.mod_small; lia.
Qed.

Lemma cascadeSplit_blendAt (N i : nat) (near far lambda : R) :
  (i < N)%nat -> (Z.of_nat N < 2 ^ 32)%Z ->
  cascadeSplit N near far lambda i = blendAt near far lambda (INR (i + 1) / INR N).
Proof.
  intros Hi HN. unfold cascadeSplit, blendAt.
  cbn [ofZ fadd fsub fmul fdiv fpow FloatOps_R].
  rewrite (u32_small Hi HN), <- !INR_IZR_INZ.
  replace (near + (far - near)) with far by ring.
  reflexivity.
Qed.

Lemma cascadeSplits_nth (N i : nat) (near far lambda : R) :
  (i < N)%nat ->
  nth i (cascadeSplits N near far lambda) 0 = cascadeSplit N near far lambda i.
Proof.
  intros Hi. unfold cascadeSplits.
  rewrite (nth_indep _ 0 (cascadeSplit N near far lambda 0%nat))
    by (rewrite length_map, length_seq; exact Hi).
  rewrite map_nth, seq_nth by exact Hi. reflexivity.
Qed.

(** *** The blend is increasing in [p] *)

Lemma convex_pos (lambda u v : R) :
  0 <= lambda <= 1 -> 0 < u -> 0 < v -> 0 < lambda * u + (1 - lambda) * v.
Proof.
  intros [H0 H1] Hu Hv.
  destruct (Rle_lt_dec lambda (1 / 2)) as [Hl|Hl].
  - assert (0 <= lambda * u) by (apply Rmult_le_pos; lra).
    assert (v / 2 <= (1 - lambda) * v) by nra.
    lra.
  - assert (0 <= (1 - lambda) * v) by (apply Rmult_le_pos; lra).
    assert (u / 2 <= lambda * u) by nra.
    lra.
Qed.

Lemma blendAt_numerator (near far lambda p : R) :
  near < far ->
  blendAt near far lambda p
  = (lambda * (near * (Rpower (far / near) p - 1)) + (1 - lambda) * ((far - near) * p))
    / (far - near).
Proof.
  intros Hnf. unfold blendAt. cbv zeta. field. lra.
Qed.

Lemma ratio_gt_1 (near far : R) : 0 < near -> near < far -> 1 < far / near.
Proof.
  intros Hn Hnf. apply (Rmult_lt_reg_r near); [exact Hn|].
  unfold Rdiv. rewrite Rmult_assoc, Rinv_l by lra. lra.
Qed.

Lemma blendAt_increasing (near far lambda p q : R) :
  0 < near -> near < far -> 0 <= lambda <= 1 -> p < q ->
  blendAt near far lambda p < blendAt near far lambda q.
Proof.
  intros Hn Hnf Hl Hpq.
  rewrite !blendAt_numerator by exact Hnf.
  apply Rmult_lt_compat_r; [apply Rinv_0_lt_compat; lra|].
  pose proof (Rpower_lt (far / near) p q (ratio_gt_1 Hn Hnf) Hpq) as Hpow.
  set (X := Rpower (far / near) p) in *.
  set (Y := Rpower (far / near) q) in *.
  assert (Hu : 0 < near * (Y - X)) by (apply Rmult_lt_0_compat; lra).
  assert (Hv : 0 < (far - near) * (q - p)) by (apply Rmult_lt_0_compat; lra).
  pose proof (convex_pos Hl Hu Hv). nra.
Qed.

Lemma blendAt_0 (near far lambda : R) :
  0 < near -> near < far -> blendAt near far lambda 0 = 0.
Proof.
  intros Hn Hnf. rewrite blendAt_numerator by exact Hnf.
  rewrite Rpower_O by (pose proof (ratio_gt_1 Hn Hnf); lra).
  field. lra.
Qed.

Lemma blendAt_1 (near far lambda : R) :
  0 < near -> near < far -> blendAt near far lambda 1 = 1.
Proof.
  intros Hn Hnf. rewrite blendAt_numerator by exact Hnf.
  rewrite Rpower_1 by (pose proof (ratio_gt_1 Hn Hnf); lra).
  field. lra.
Qed.

Lemma blendAt_uniform (near far p : R) :
  blendAt near far 0 p = ((near + (far - near) * p) - near) / (far - near).
Proof. unfold blendAt. cbv zeta. f_equal. ring. Qed.

Lemma blendAt_log (near far p : R) :
  blendAt near far 1 p = (near * Rpower (far / near) p - near) / (far - near).
Proof. unfold blendAt. cbv zeta. f_equal. ring. Qed.

Lemma position_increasing (N i j : nat) :
  (i < j)%nat -> (1 <= N)%nat -> INR (i + 1) / INR N < INR (j + 1) / INR N.
Proof.
  intros Hij HN. apply Rmult_lt_compat_r.
  - apply Rinv_0_lt_compat. apply lt_0_INR. lia.
  - apply lt_INR. lia.
Qed.

Lemma position_last (N : nat) : (1 <= N)%nat -> INR (N - 1 + 1) / INR N = 1.
Proof.
  intros HN. replace (N - 1 + 1)%nat with N by lia.
  apply Rinv_r. apply not_0_INR. lia.
Qed.

Lemma position_bounds (N i : nat) :
  (i < N)%nat -> 0 < INR (i + 1) / INR N <= 1.
Proof.
  intros Hi.
  assert (HN : 0 < INR N) by (apply lt_0_INR; lia).
  split.
  - apply Rdiv_lt_0_compat; [apply lt_0_INR; lia | exact HN].
  - apply (Rmult_le_reg_r (INR N)); [exact HN|].
    unfold Rdiv. rewrite Rmult_assoc, Rinv_l, Rmult_1_r, Rmult_1_l by lra.
    apply le_INR. lia.
Qed.

(** With exact operations: for 0 < near < far, a lambda in [0.1, 1] and
    N >= 1 cascades, the N split fractions are strictly increasing and lie
    in (0, 1], and the last one is 1.  At lambda = 0 the fraction of cascade
    [i] is the uniform split (near + range * p - near) / range and the last
    one is 1; at lambda = 1 it is the logarithmic split
    (near * ratio^p - near) / range. *)
Lemma exact_splits_increasing (N : nat) (near far lambda : R) :
  0 < near -> near < far -> 0.1 <= lambda <= 1 ->
  (1 <= N)%nat -> (Z.of_nat N < 2 ^ 32)%Z ->
  let f := cascadeSplits N near far lambda in
  let p := fun i : nat => INR (i + 1) / INR N in
  length f = N /\
  (forall i j, (i < j)%nat -> (j < N)%nat -> nth i f 0 < nth j f 0) /\
  (forall i, (i < N)%nat -> 0 < nth i f 0 <= 1) /\
  nth (N - 1) f 0 = 1 /\
  nth (N - 1) (cascadeSplits N near far 0) 0 = 1 /\
  (forall i, (i < N)%nat ->
     nth i (cascadeSplits N near far 0) 0
     = ((near + (far - near) * p i) - near) / (far - near)) /\
  (forall i, (i < N)%nat ->
     nth i (cascadeSplits N near far 1) 0
     = (near * Rpower (far / near) (p i) - near) / (far - near)).
Proof.
  intros Hn Hnf Hl HN1 HN. cbv zeta.
  assert (Hl01 : 0 <= lambda <= 1) by lra.
  assert (Hnth : forall l i, (i < N)%nat ->
             nth i (cascadeSplits N near far l) 0
             = blendAt near far l (INR (i + 1) / INR N)).
  { intros l i Hi.
    rewrite (cascadeSplits_nth _ _ _ Hi). apply cascadeSplit_blendAt; assumption. }
  split; [|split; [|split; [|split; [|split; [|split]]]]].
  - unfold cascadeSplits. rewrite length_map, length_seq. reflexivity.
  - intros i j Hij Hj. rewrite !Hnth by lia.
    apply blendAt_increasing; try assumption. apply position_increasing; assumption.
  - intros i Hi. rewrite Hnth by assumption.
    destruct (position_bounds Hi) as [Hpos Hle]. split.
    + rewrite <- (blendAt_0 lambda Hn Hnf).
      apply blendAt_increasing; assumption.
    + destruct Hle as [Hlt|Heq].
      * left. rewrite <- (blendAt_1 lambda Hn Hnf).
        apply blendAt_increasing; assumption.
      * right. rewrite Heq. apply blendAt_1; assumption.
  - rewrite Hnth by lia. rewrite position_last by assumption.
    apply blendAt_1; assumption.
  - rewrite Hnth by lia. rewrite position_last by assumption.
    apply blendAt_1; assumption.
  - intros i Hi. rewrite Hnth by assumption. apply blendAt_uniform.
  - intros i Hi. rewrite Hnth by assumption. apply blendAt_log.
Qed.

(** In exact arithmetic the scale pushed for the reflection pass is the
    identity with the vertical axis negated. *)
Example reflect_scale_exact :
  scale (drawScene_pushConst (F := R) (M := mat4R) sceneDrawTypeReflect)
  = mkmat4R (mkvec4 1 0 0 0) (mkvec4 0 (-1) 0 0) (mkvec4 0 0 1 0) (mkvec4 0 0 0 1).
Proof.
  cbn. unfold glm_scale_R, mat4_diag_R, mat_of, vec4_muls_R. cbn.
  repeat f_equal; ring.
Qed.

Example passes_example0 :
  passes (recordCommandBuffer 4 example0 1)
  = [ {| pass_renderPass := 60; pass_framebuffer := 11; pass_draws := [DrawHeightMap] |};
      {| pass_renderPass := 60; pass_framebuffer := 12; pass_draws := [DrawHeightMap] |};
      {| pass_renderPass := 60; pass_framebuffer := 13; pass_draws := [DrawHeightMap] |};
      {| pass_renderPass := 60; pass_framebuffer := 14; pass_draws := [DrawHeightMap] |};
      {| pass_renderPass := 50; pass_framebuffer := 30;
         pass_draws := [DrawModel models_skysphere; DrawHeightMap] |};
      {| pass_renderPass := 50; pass_framebuffer := 20;
         pass_draws := [DrawModel models_skysphere; DrawHeightMap] |};
      {| pass_renderPass := 70; pass_framebuffer := 82;
         pass_draws := [DrawModel models_skysphere; DrawHeightMap;
                        DrawModel models_plane; DrawUI] |} ]%Z.
Proof. reflexivity. Qed.

(** ** The stored split depth and the frustum slices *)

Context {M : Type} {GO : GlmOps R M}.

Local Abbreviation StateR := (VulkanExample (F := R) (M := M)).

Lemma worldCorners_8 (cam : Camera (F := R) (M := M)) :
  exists w0 w1 w2 w3 w4 w5 w6 w7,
    worldCorners cam = [w0; w1; w2; w3; w4; w5; w6; w7].
Proof.
  unfold worldCorners, ndcCorners. cbn [map]. repeat eexists.
Qed.

Lemma vec3_add_muls_0 (a d : vec3 R) : vec3_add a (vec3_muls d 0) = a.
Proof.
  destruct a as [x y z], d as [dx dy dz].
  unfold vec3_add, vec3_muls. cbn [v3x v3y v3z fadd fmul FloatOps_R].
  f_equal; ring.
Qed.

(** For every cascade [i]: the stored [splitDepth] is
    -(near + splitFraction_i * range), with range = far - near; the matrix
    is built from the slice cut out between the unprojected corners of the
    clip cube: along each edge from a corner with z = -1 to the corner with
    z = 1 behind it, from the split fraction of cascade [i - 1] (0 for
    cascade 0) to the split fraction of cascade [i]; the far corners of one
    slice are the near corners of the next; and both results are stored at
    index [i] of the cascade array.  Where the unprojected corners lie
    depends on the camera's matrices, see [unproject_depth] below. *)
Lemma updateCascades_splitDepth_and_slice (N : nat) (s : StateR) (i : nat)
    (c : Cascade) :
  (i < N)%nat ->
  nth_error (cascades s) i = Some c ->
  let near := znear (camera s) in
  let far := zfar (camera s) in
  let split := fun k : nat => nth k (splitsOf N s) 0 in
  let start := match i with O => 0 | S j => split j end in
  let w := worldCorners (camera s) in
  let slice := frustumSlice w (split i) start in
  exists c',
    nth_error (cascades (updateCascades N s)) i = Some c' /\
    splitDepth c' = - (near + split i * (far - near)) /\
    viewProjMatrix c' = cascadeViewProj (lightPos s) slice /\
    (forall k, (k < 4)%nat ->
       corner slice k
       = vec3_add (corner w k)
                  (vec3_muls (vec3_sub (corner w (k + 4)) (corner w k)) start) /\
       corner slice (k + 4)
       = vec3_add (corner w k)
                  (vec3_muls (vec3_sub (corner w (k + 4)) (corner w k)) (split i))) /\
    (i = 0%nat -> forall k, (k < 4)%nat -> corner slice k = corner w k) /\
    (forall k, (k < 4)%nat ->
       corner (frustumSlice w (split (S i)) (split i)) k = corner slice (k + 4)).
Proof.
  intros Hi Hc. cbv zeta.
  exists (storedFor s (splitsOf N s) i c).
  assert (Hcorners : forall a b k, (k < 4)%nat ->
    corner (frustumSlice (worldCorners (camera s)) a b) k
    = vec3_add (corner (worldCorners (camera s)) k)
        (vec3_muls (vec3_sub (corner (worldCorners (camera s)) (k + 4))
                             (corner (worldCorners (camera s)) k)) b) /\
    corner (frustumSlice (worldCorners (camera s)) a b) (k + 4)
    = vec3_add (corner (worldCorners (camera s)) k)
        (vec3_muls (vec3_sub (corner (worldCorners (camera s)) (k + 4))
                             (corner (worldCorners (camera s)) k)) a)).
  { intros a b k Hk.
    destruct (worldCorners_8 (camera s))
      as (w0 & w1 & w2 & w3 & w4 & w5 & w6 & w7 & ->).
    destruct k as [|[|[|[|k]]]]; [| | | |lia]; split; reflexivity. }
  split; [|split; [|split; [|split; [|split]]]].
  - apply updateCascades_outputs; assumption.
  - cbn [storedFor store_cascade splitDepth]. unfold splitDepthOf.
    cbn [ofZ fadd fsub fmul FloatOps_R]. ring.
  - destruct i; reflexivity.
  - intros k Hk. apply Hcorners. exact Hk.
  - intros -> k Hk. rewrite (proj1 (Hcorners _ _ k Hk)). apply vec3_add_muls_0.
  - intros k Hk.
    rewrite (proj1 (Hcorners _ _ k Hk)), (proj2 (Hcorners _ _ k Hk)). reflexivity.
Qed.

(** ** The radius of the bounding sphere *)





End Exact.

(** ** The first loop of [updateCascades] in binary32 *)

Module Binary32Facts.
Import Binary32.

Definition lt32 (x y : float) : Prop := SFltb x y = true.
Definition le32 (x y : float) : Prop := SFleb x y = true.

Lemma mul_number_zero (x : float) (s : bool) :
  is_number x = true -> exists s', SFmul prec emax x (S754_zero s) = S754_zero s'.
Proof. destruct x; try discriminate; intros _; cbn; eauto. Qed.

Lemma mul_zero_number (x : float) (s : bool) :
  is_number x = true -> exists s', SFmul prec emax (S754_zero s) x = S754_zero s'.
Proof. destruct x; try discriminate; intros _; cbn; eauto. Qed.

(** The last cascade of [n] has p = n / n = 1, and [std::pow(x, 1)] is [x]. *)
Ltac at_last_cascade Hpow :=
  unfold cascadeSplits; cbn [seq map nth]; unfold cascadeSplit, specSplit;
  cbn [ofZ fadd fsub fmul fdiv fpow FloatOps_binary32];
  repeat match goal with
         | |- context [SFdiv prec emax (of_Z ?a) (of_Z ?b)] =>
             replace (SFdiv prec emax (of_Z a) (of_Z b)) with (of_Z 1)
               by (vm_compute; reflexivity)
         end;
  rewrite !Hpow.

(** With lambda = 0.0f the blend is the uniform split itself, whenever
    log - uniform is a number and uniform is finite and not zero. *)
Lemma uniform_split_at_lambda_zero (pow : float -> float -> float) (n i : nat)
    (near far : float) :
  (i < n)%nat ->
  let FO := FloatOps_binary32 pow in
  let clipRange := fsub far near in
  let maxZ := fadd near clipRange in
  let range := fsub maxZ near in
  let ratio := fdiv maxZ near in
  let p := fdiv (ofZ (u32 (Z.of_nat i + 1))) (ofZ (Z.of_nat n)) in
  let log := fmul near (fpow ratio p) in
  let uniform := fadd near (fmul range p) in
  is_number (fsub log uniform) = true ->
  (exists s m e, uniform = S754_finite s m e) ->
  nth i (cascadeSplits n near far (ofZ 0)) (ofZ 0) = fdiv (fsub uniform near) clipRange.
Proof.
  intros Hi FO clipRange maxZ range ratio p log uniform Hnum (s & m & e & Hu).
  unfold cascadeSplits.
  rewrite (nth_indep _ (ofZ 0) (cascadeSplit n near far (ofZ 0) 0%nat))
    by (rewrite length_map, length_seq; exact Hi).
  rewrite map_nth, seq_nth by exact Hi. cbn [Nat.add].
  unfold cascadeSplit.
  fold clipRange. fold maxZ. fold range. fold ratio. fold p. fold log. fold uniform.
  change (fmul (ofZ 0) (fsub log uniform))
    with (SFmul prec emax (S754_zero false) (fsub log uniform)).
  destruct (mul_zero_number (fsub log uniform) false Hnum) as [s' ->].
  rewrite Hu. reflexivity.
Qed.

(** With the clip planes of [main.cpp], [zNear = 0.5f] and [zFar = 48.0f],
    and four cascades, log and uniform of the last cascade are both 48, and
    the last fraction is 1 whatever number lambda is. *)
Lemma last_fraction_at_program_planes (pow : float -> float -> float) (lambda : float) :
  pow_one pow -> is_number lambda = true ->
  nth 3 (cascadeSplits (FO := FloatOps_binary32 pow) 4
           (of_bits 0x3f000000) (of_Z 48) lambda) (of_Z 0)
  = of_Z 1.
Proof.
  intros Hpow Hl. at_last_cascade Hpow.
  match goal with
  | |- context [SFmul prec emax lambda ?d] =>
      replace d with (S754_zero false) by (vm_compute; reflexivity)
  end.
  destruct (mul_number_zero lambda false Hl) as [s' ->].
  destruct s'; vm_compute; reflexivity.
Qed.

(** [x] is one of the two binary32 numbers with the bit patterns [lo] and
    [hi]. *)
Definition either (lo hi : Z) (x : float) : Prop := x = of_bits lo \/ x = of_bits hi.

(** [lo] and [hi] are the bit patterns of two consecutive positive binary32
    numbers, and the [k]-th root of [c] lies between them. *)
Definition root_between (k c lo hi : Z) : Prop :=
  match of_bits lo, of_bits hi with
  | S754_finite false m e, S754_finite false m' e' =>
      (e' = e /\ Zpos m' = Zpos m + 1 /\
       Zpos m ^ k < c * 2 ^ (- k * e) < Zpos m' ^ k)%Z
  | _, _ => False
  end.

(** The binary32 numbers next to 96^(1/4), 96^(1/2) and 96^(3/4): what a
    [std::pow] with an error below one unit in the last place returns for
    the ratio 48 / 0.5 and p = 1/4, 1/2, 3/4. *)
Lemma powers_of_96_between :
  root_between 4 96 0x404854b1 0x404854b2 /\
  root_between 2 96 0x411cc470 0x411cc471 /\
  root_between 4 (96 ^ 3) 0x41f55aa9 0x41f55aaa.
Proof. vm_compute. repeat split; reflexivity. Qed.

Ltac closed_pow_args :=
  repeat match goal with
         | |- context [?pw ?A ?B] =>
             is_var pw;
             let A' := eval vm_compute in A in
             let B' := eval vm_compute in B in
             progress change (pw A B) with (pw A' B')
         end.

Ltac closed_float x :=
  let a := eval vm_compute in x in change x with a.

(** The program as it starts: clip planes 0.5f and 48.0f, four cascades,
    [cascadeSplitLambda = 0.95f].  Whichever neighbour of the exact power
    [std::pow] returns, the four stored fractions are strictly increasing,
    above 0, and the last one is 1. *)
Lemma fractions_at_program_start (pow : float -> float -> float) :
  pow_one pow ->
  either 0x404854b1 0x404854b2 (pow (of_Z 96) (of_bits 0x3e800000)) ->
  either 0x411cc470 0x411cc471 (pow (of_Z 96) (of_bits 0x3f000000)) ->
  either 0x41f55aa9 0x41f55aaa (pow (of_Z 96) (of_bits 0x3f400000)) ->
  let f := fun i : nat =>
             nth i (cascadeSplits (FO := FloatOps_binary32 pow) 4
                      (of_bits 0x3f000000) (of_Z 48) (of_bits 0x3f733333))
                 (of_Z 0) in
  lt32 (of_Z 0) (f 0%nat) /\ lt32 (f 0%nat) (f 1%nat) /\
  lt32 (f 1%nat) (f 2%nat) /\ lt32 (f 2%nat) (f 3%nat) /\ f 3%nat = of_Z 1.
Proof.
  intros Hone H1 H2 H3. cbv zeta.
  assert (H4 : pow (of_Z 96) (of_Z 1) = of_Z 96) by apply Hone.
  unfold either in *.
  unfold cascadeSplits; cbn [seq map nth]; unfold cascadeSplit;
    cbn [ofZ fadd fsub fmul fdiv fpow FloatOps_binary32].
  revert H1 H2 H3 H4. generalize pow. clear pow Hone. intros pow.
  closed_pow_args.
  closed_float (of_Z 96). closed_float (of_Z 1).
  closed_float (of_bits 0x3e800000). closed_float (of_bits 0x3f000000).
  closed_float (of_bits 0x3f400000).
  intros [H1|H1] [H2|H2] [H3|H3] H4; rewrite H1, H2, H3, H4;
    vm_compute; repeat split; reflexivity.
Qed.

(** A function with the values the lemma asks of [std::pow]. *)
Definition pow_sample (x y : float) : float :=
  if SFeqb y (of_bits 0x3e800000) then of_bits 0x404854b1
  else if SFeqb y (of_bits 0x3f000000) then of_bits 0x411cc470
  else if SFeqb y (of_bits 0x3f400000) then of_bits 0x41f55aaa
  else x.

Lemma pow_sample_fits :
  pow_one pow_sample /\
  either 0x404854b1 0x404854b2 (pow_sample (of_Z 96) (of_bits 0x3e800000)) /\
  either 0x411cc470 0x411cc471 (pow_sample (of_Z 96) (of_bits 0x3f000000)) /\
  either 0x41f55aa9 0x41f55aaa (pow_sample (of_Z 96) (of_bits 0x3f400000)).
Proof.
  split; [intros x; reflexivity|].
  split; [left; reflexivity|]. split; [left; reflexivity|]. right; reflexivity.
Qed.

End Binary32Facts.

(** C3 (amended).  For 0 < near < far, a lambda in [0.1, 1] and N >= 1
    cascades, with exact operations: the N split fractions are strictly
    increasing and lie in (0, 1], and the last one is 1; at lambda = 0 the
    fraction of cascade [i] is the uniform split and the last one is 1; at
    lambda = 1 it is the logarithmic split.  With the binary32 operations of
    the program the stored fractions are these values rounded, operation by
    operation, and the order and the bounds are not kept in general.  What
    is kept: at lambda = 0.0f the stored fraction of cascade [i] is exactly
    the binary32 uniform split (uniform - near) / (far - near), whenever
    log - uniform is a number and uniform is finite and not zero; with the
    clip planes of [main.cpp] (0.5f and 48.0f) and four cascades the last
    stored fraction is exactly 1, for every number lambda, if
    [std::pow(x, 1)] is [x]; and with the lambda the program starts with
    (0.95f) the four stored fractions are strictly increasing, above 0, and
    end in 1, whichever binary32 neighbour of 96^(1/4), 96^(1/2) and
    96^(3/4) [std::pow] returns. *)
Theorem cascadeSplits_increasing (N : nat) (near far lambda : R) :
  (0 < near)%R -> (near < far)%R -> (0.1 <= lambda <= 1)%R ->
  (1 <= N)%nat -> (Z.of_nat N < 2 ^ 32)%Z ->
  let f := cascadeSplits N near far lambda in
  let p := fun i : nat => (INR (i + 1) / INR N)%R in
  (* with exact operations *)
  (length f = N /\
   (forall i j, (i < j)%nat -> (j < N)%nat -> (nth i f 0 < nth j f 0)%R) /\
   (forall i, (i < N)%nat -> (0 < nth i f 0 <= 1)%R) /\
   nth (N - 1) f 0%R = 1%R /\
   nth (N - 1) (cascadeSplits N near far 0%R) 0%R = 1%R /\
   (forall i, (i < N)%nat ->
      nth i (cascadeSplits N near far 0%R) 0%R
      = (((near + (far - near) * p i) - near) / (far - near))%R) /\
   (forall i, (i < N)%nat ->
      nth i (cascadeSplits N near far 1%R) 0%R
      = ((near * Rpower (far / near) (p i) - near) / (far - near))%R)) /\
  (* with the binary32 operations of the program *)
  (forall (pow : Binary32.float -> Binary32.float -> Binary32.float) (n i : nat)
          (near32 far32 : Binary32.float),
      (i < n)%nat ->
      let FO := Binary32.FloatOps_binary32 pow in
      let clipRange := fsub far32 near32 in
      let maxZ := fadd near32 clipRange in
      let range := fsub maxZ near32 in
      let ratio := fdiv maxZ near32 in
      let p32 := fdiv (ofZ (u32 (Z.of_nat i + 1))) (ofZ (Z.of_nat n)) in
      let log := fmul near32 (fpow ratio p32) in
      let uniform := fadd near32 (fmul range p32) in
      Binary32.is_number (fsub log uniform) = true ->
      (exists s m e, uniform = S754_finite s m e) ->
      nth i (cascadeSplits n near32 far32 (ofZ 0)) (ofZ 0)
      = fdiv (fsub uniform near32) clipRange) /\
  (forall (pow : Binary32.float -> Binary32.float -> Binary32.float)
          (lambda32 : Binary32.float),
      Binary32.pow_one pow -> Binary32.is_number lambda32 = true ->
      nth 3 (cascadeSplits (FO := Binary32.FloatOps_binary32 pow) 4
               (Binary32.of_bits 0x3f000000) (Binary32.of_Z 48) lambda32)
          (Binary32.of_Z 0)
      = Binary32.of_Z 1) /\
  (forall pow : Binary32.float -> Binary32.float -> Binary32.float,
      Binary32.pow_one pow ->
      Binary32Facts.either 0x404854b1 0x404854b2
        (pow (Binary32.of_Z 96) (Binary32.of_bits 0x3e800000)) ->
      Binary32Facts.either 0x411cc470 0x411cc471
        (pow (Binary32.of_Z 96) (Binary32.of_bits 0x3f000000)) ->
      Binary32Facts.either 0x41f55aa9 0x41f55aaa
        (pow (Binary32.of_Z 96) (Binary32.of_bits 0x3f400000)) ->
      let f32 := fun i : nat =>
                   nth i (cascadeSplits (FO := Binary32.FloatOps_binary32 pow) 4
                            (Binary32.of_bits 0x3f000000) (Binary32.of_Z 48)
                            (Binary32.of_bits 0x3f733333))
                       (Binary32.of_Z 0) in
      Binary32Facts.lt32 (Binary32.of_Z 0) (f32 0%nat) /\
      Binary32Facts.lt32 (f32 0%nat) (f32 1%nat) /\
      Binary32Facts.lt32 (f32 1%nat) (f32 2%nat) /\
      Binary32Facts.lt32 (f32 2%nat) (f32 3%nat) /\
      f32 3%nat = Binary32.of_Z 1).
Proof.
  intros Hn Hnf Hl HN1 HN. cbv zeta. split; [|split; [|split]].
  - exact (exact_splits_increasing Hn Hnf Hl HN1 HN).
  - intros pow n i near32 far32 Hi. apply Binary32Facts.uniform_split_at_lambda_zero.
    exact Hi.
  - intros pow lambda32. apply Binary32Facts.last_fraction_at_program_planes.
  - intros pow. apply Binary32Facts.fractions_at_program_start.
Qed.

(** ** Where the slices of the cascades lie

    [main.cpp] defines [GLM_FORCE_DEPTH_ZERO_TO_ONE] (line 16) before it
    includes glm and the camera of the framework.  The perspective matrix
    glm builds then maps the view depth [n] of the near plane to the clip
    depth 0 and the view depth [f] of the far plane to 1.  [perspectiveZO]
    is that matrix, as glm documents [perspectiveRH_ZO]; [a] and [b] are its x
    and y scale factors, 1 / (aspect * tan (fovy / 2)) and 1 / tan (fovy / 2)
    (negated when the y axis is flipped).  Columns first, as in glm. *)
Definition perspectiveZO (a b n f : R) : mat4R :=
  mkmat4R (mkvec4 a 0 0 0)%R
          (mkvec4 0 b 0 0)%R
          (mkvec4 0 0 (f / (n - f)) (-1))%R
          (mkvec4 0 0 (- (f * n) / (f - n)) 0)%R.

(** A view matrix is a rotation times a translation: its last row is
    (0, 0, 0, 1). *)
Definition affine (V : mat4R) : Prop :=
  (v4w (col0 V) = 0 /\ v4w (col1 V) = 0 /\ v4w (col2 V) = 0 /\ v4w (col3 V) = 1)%R.

(** The depth of the world point [p] in front of the camera: the camera
    looks down the negative z axis of view space. *)
Definition viewDepth (V : mat4R) (p : vec3 R) : R :=
  (- v4z (mat_vec V (vec4_of_vec3 p 1)))%R.

Section Slices.

Local Open Scope R_scope.

Ltac matrices :=
  lazy beta iota zeta delta
    [inverse mat_mul mat_vec GlmOps_R fdiv fadd fmul fsub ofZ FloatOps_R
     inverse_R mat_mul_R mat_vec_R perspectiveZO mat4_diag_R mat_of cofactor
     det4 det3 entry skip v4get Nat.eqb Nat.ltb Nat.leb Nat.even Nat.add
     col0 col1 col2 col3 v4x v4y v4z v4w v3x v3y v3z
     unproject vec3_of_vec4 vec4_divs vec4_of_vec3 viewDepth].

(** The point of clip depth [z] unprojects to the view depth
    n * f / (f - z * (f - n)): to [n] for z = 0, to [f] for z = 1, and to
    n * f / (2 * f - n) for z = -1. *)
Lemma unproject_depth (a b n f x y z : R) (V : mat4R) :
  a <> 0 -> b <> 0 -> 0 < n -> n < f -> f - z * (f - n) <> 0 ->
  affine V -> det4 V <> 0 ->
  viewDepth V (unproject (inverse (mat_mul (perspectiveZO a b n f) V)) (mkvec3 x y z))
  = n * f / (f - z * (f - n)).
Proof.
  intros Ha Hb Hn Hnf Hz HV Hdet.
  destruct V as [[v00 v10 v20 v30] [v01 v11 v21 v31]
                 [v02 v12 v22 v32] [v03 v13 v23 v33]].
  destruct HV as (H0 & H1 & H2 & H3). cbn in H0, H1, H2, H3. subst.
  revert Hdet. matrices. intros Hdet.
  field.
  set (D := v00 * (v11 * v22 - v12 * v21) - v01 * (v10 * v22 - v12 * v20)
            + v02 * (v10 * v21 - v11 * v20)) in *.
  assert (HD : D <> 0).
  { intro E. apply Hdet. etransitivity; [|exact E]. unfold D; ring. }
  split; [exact Hz|]. split; [lra|]. split; [lra|]. split.
  - match goal with
    | |- ?A <> 0 =>
        replace A with (a * b * f * n * (f - n) * D) by (unfold D; ring)
    end.
    repeat apply Rmult_integral_contrapositive_currified; try assumption; lra.
  - match goal with
    | |- ?A <> 0 =>
        replace A with (a * b * (f - n) * (f - z * (f - n)) * D) by (unfold D; ring)
    end.
    repeat apply Rmult_integral_contrapositive_currified; try assumption; lra.
Qed.

Lemma corners_depth (cam : Camera (F := R) (M := mat4R)) (a b : R) (k : nat) :
  0 < znear cam -> znear cam < zfar cam -> a <> 0 -> b <> 0 ->
  matrices_perspective cam = perspectiveZO a b (znear cam) (zfar cam) ->
  affine (matrices_view cam) -> det4 (matrices_view cam) <> 0 ->
  (k < 4)%nat ->
  viewDepth (matrices_view cam) (corner (worldCorners cam) k)
  = znear cam * zfar cam / (2 * zfar cam - znear cam) /\
  viewDepth (matrices_view cam) (corner (worldCorners cam) (k + 4)) = zfar cam.
Proof.
  intros Hn Hnf Ha Hb HP HV Hdet Hk.
  unfold worldCorners, ndcCorners. rewrite HP.
  destruct k as [|[|[|[|k]]]]; [| | | |lia];
    cbn [map corner nth Nat.add]; cbn [ofZ FloatOps_R];
    (split; rewrite unproject_depth by (try assumption; lra); field; lra).
Qed.

Lemma viewDepth_along (V : mat4R) (p q : vec3 R) (t : R) :
  viewDepth V (vec3_add p (vec3_muls (vec3_sub q p) t))
  = viewDepth V p + (viewDepth V q - viewDepth V p) * t.
Proof.
  destruct p as [px py pz], q as [qx qy qz].
  unfold vec3_add, vec3_muls, vec3_sub. matrices. ring.
Qed.

(** C4 (the code departs from it).  With exact operations, for a camera
    whose perspective matrix is the zero-to-one matrix of glm for its clip
    planes 0 < n < f and whose view matrix is affine and invertible:
    cascade [i] is stored at index [i], with
    splitDepth = -(n + split_i * (f - n)) and the matrix of its slice, and
    consecutive slices are contiguous; but the slices are not cut between
    the near and the far plane.  The corners with z = -1 in the table of
    [updateCascades] lie at the view depth front = n * f / (2 * f - n),
    which is less than [n].  So the slice of cascade [i] reaches from the
    depth front + split_(i-1) * (f - front) to the depth
    front + split_i * (f - front): the slice of cascade 0 starts at front,
    in front of the near plane, and every slice with split_i < 1 ends before
    the depth n + split_i * (f - n) that the code stores as the end of the
    cascade. *)
Theorem cascade_slices_start_before_near_plane (N : nat)
    (s : VulkanExample (F := R) (M := mat4R)) (a b : R) (i k : nat) (c : Cascade) :
  let n := znear (camera s) in
  let f := zfar (camera s) in
  let depth := viewDepth (matrices_view (camera s)) in
  let split := fun j : nat => nth j (splitsOf N s) 0 in
  let start := match i with O => 0 | S j => split j end in
  let slice := sliceOf s (splitsOf N s) i in
  let front := n * f / (2 * f - n) in
  0 < n -> n < f -> a <> 0 -> b <> 0 ->
  matrices_perspective (camera s) = perspectiveZO a b n f ->
  affine (matrices_view (camera s)) -> det4 (matrices_view (camera s)) <> 0 ->
  (i < N)%nat -> nth_error (cascades s) i = Some c -> (k < 4)%nat ->
  exists c',
    nth_error (cascades (updateCascades N s)) i = Some c' /\
    viewProjMatrix c' = cascadeViewProj (lightPos s) slice /\
    splitDepth c' = - (n + split i * (f - n)) /\
    depth (corner slice k) = front + start * (f - front) /\
    depth (corner slice (k + 4)) = front + split i * (f - front) /\
    front < n /\
    (i = 0%nat -> depth (corner slice k) = front) /\
    (split i < 1 -> front + split i * (f - front) < n + split i * (f - n)).
Proof.
  cbv zeta. intros Hn Hnf Ha Hb HP HV Hdet Hi Hc Hk.
  destruct (@updateCascades_splitDepth_and_slice mat4R _ N s i c Hi Hc)
    as (c' & Hc' & Hd & Hm & Hcorn & _ & _).
  cbv zeta in Hcorn.
  destruct (Hcorn k Hk) as [Hnear Hfar].
  destruct (@corners_depth (camera s) a b k Hn Hnf Ha Hb HP HV Hdet Hk) as [Hz0 Hz1].
  assert (Hfront : znear (camera s) * zfar (camera s)
                   / (2 * zfar (camera s) - znear (camera s)) < znear (camera s)).
  { apply (Rmult_lt_reg_r (2 * zfar (camera s) - znear (camera s))); [lra|].
    unfold Rdiv. rewrite Rmult_assoc, Rinv_l by lra. nra. }
  exists c'. split; [exact Hc'|]. split.
  { rewrite Hm. unfold sliceOf, lastSplitOf. destruct i; reflexivity. }
  split; [exact Hd|].
  assert (Hslice : sliceOf s (splitsOf N s) i
                   = frustumSlice (worldCorners (camera s)) (nth i (splitsOf N s) 0)
                       match i with O => 0 | S j => nth j (splitsOf N s) 0 end).
  { unfold sliceOf, lastSplitOf. destruct i; reflexivity. }
  rewrite Hslice, Hnear, Hfar, !viewDepth_along, Hz0, Hz1.
  split; [field; lra|]. split; [field; lra|]. split; [exact Hfront|]. split.
  - intros ->. field. lra.
  - intros Hlt. nra.
Qed.

End Slices.

(* ================================================================== *)
(** * Part III: the theorems at the configuration of [main.cpp] *)
(* ================================================================== *)

(** The first cascade of four, with the clip planes and the lambda of
    [main.cpp] (0.5f, 48.0f, 0.95f), in binary32 with any [std::pow]. *)
Lemma cascadeSplits_stored_fraction_witness :
  (0 < 4)%nat /\
  forall pow : Binary32.float -> Binary32.float -> Binary32.float,
    let FO := Binary32.FloatOps_binary32 pow in
    let near := Binary32.of_bits 0x3f000000 in
    let far := Binary32.of_Z 48 in
    let lambda := Binary32.of_bits 0x3f733333 in
    let clipRange := fsub far near in
    let maxZ := fadd near clipRange in
    let range := fsub maxZ near in
    let ratio := fdiv maxZ near in
    let p := fdiv (ofZ (Z.of_nat 0 + 1)) (ofZ (Z.of_nat 4)) in
    let log := fmul near (fpow ratio p) in
    let uniform := fadd near (fmul range p) in
    let stored := nth 0 (cascadeSplits 4 near far lambda) (ofZ 0) in
    stored = fdiv (fsub (fadd (fmul lambda (fsub log uniform)) uniform) near) clipRange /\
    (maxZ = far -> stored = specSplit 4 near far lambda 0).
Proof.
  split; [lia|]. intros pow.
  apply (@cascadeSplits_stored_fraction Binary32.float
           (Binary32.FloatOps_binary32 pow) 4
           (Binary32.of_bits 0x3f000000) (Binary32.of_Z 48)
           (Binary32.of_bits 0x3f733333) 0%nat);
    [lia | reflexivity].
Defined.

(** In binary32, with near = 0.19f, far = 1.6f, lambda = 0.95f and four
    cascades: near + (far - near) is not far but the next [float] above it,
    and for the last cascade [updateCascades] stores 1 + 2^-23, while the
    formula of the spec, with the same operations, gives 1 (which is also its
    exact value at p = 1). *)
Lemma cascadeSplits_stored_fraction_counterexample :
  let near := Binary32.of_bits 0x3e428f5c in
  let far := Binary32.of_bits 0x3fcccccd in
  let lambda := Binary32.of_bits 0x3f733333 in
  Binary32Facts.lt32 (Binary32.of_Z 0) near /\
  Binary32Facts.lt32 near far /\
  SFadd Binary32.prec Binary32.emax near (SFsub Binary32.prec Binary32.emax far near)
  = Binary32.of_bits 0x3fccccce /\
  forall pow : Binary32.float -> Binary32.float -> Binary32.float,
    Binary32.pow_one pow ->
    let FO := Binary32.FloatOps_binary32 pow in
    nth 3 (cascadeSplits 4 near far lambda) (ofZ 0) = Binary32.of_bits 0x3f800001 /\
    specSplit 4 near far lambda 3 = Binary32.of_bits 0x3f800000 /\
    nth 3 (cascadeSplits 4 near far lambda) (ofZ 0) <> specSplit 4 near far lambda 3.
Proof.
  cbv zeta. do 3 (split; [vm_compute; reflexivity|]).
  intros pow Hpow.
  assert (Hcode : nth 3 (cascadeSplits (FO := Binary32.FloatOps_binary32 pow) 4
                           (Binary32.of_bits 0x3e428f5c) (Binary32.of_bits 0x3fcccccd)
                           (Binary32.of_bits 0x3f733333)) (Binary32.of_Z 0)
                  = Binary32.of_bits 0x3f800001).
  { Binary32Facts.at_last_cascade Hpow. vm_compute. reflexivity. }
  assert (Hspec : specSplit (FO := Binary32.FloatOps_binary32 pow) 4
                    (Binary32.of_bits 0x3e428f5c) (Binary32.of_bits 0x3fcccccd)
                    (Binary32.of_bits 0x3f733333) 3
                  = Binary32.of_bits 0x3f800000).
  { Binary32Facts.at_last_cascade Hpow. vm_compute. reflexivity. }
  split; [exact Hcode|]. split; [exact Hspec|].
  cbn [ofZ Binary32.FloatOps_binary32]. rewrite Hcode, Hspec.
  vm_compute. discriminate.
Qed.

(** In binary32, with near = 0.3f, far = 27.0f, lambda = 0.95f (so
    0 < near < far and lambda in [0.1, 1]) and four cascades, the last split
    fraction [updateCascades] computes is 1 + 2^-23: above 1. *)
Lemma cascadeSplits_increasing_counterexample :
  let near := Binary32.of_bits 0x3e99999a in
  let far := Binary32.of_Z 27 in
  let lambda := Binary32.of_bits 0x3f733333 in
  Binary32Facts.lt32 (Binary32.of_Z 0) near /\
  Binary32Facts.lt32 near far /\
  Binary32Facts.le32 (Binary32.of_bits 0x3dcccccd) lambda /\
  Binary32Facts.le32 lambda (Binary32.of_Z 1) /\
  forall pow : Binary32.float -> Binary32.float -> Binary32.float,
    Binary32.pow_one pow ->
    let FO := Binary32.FloatOps_binary32 pow in
    nth 3 (cascadeSplits 4 near far lambda) (ofZ 0) = Binary32.of_bits 0x3f800001 /\
    Binary32Facts.lt32 (ofZ 1) (nth 3 (cascadeSplits 4 near far lambda) (ofZ 0)).
Proof.
  cbv zeta. do 4 (split; [vm_compute; reflexivity|]).
  intros pow Hpow.
  assert (Hcode : nth 3 (cascadeSplits (FO := Binary32.FloatOps_binary32 pow) 4
                           (Binary32.of_bits 0x3e99999a) (Binary32.of_Z 27)
                           (Binary32.of_bits 0x3f733333)) (Binary32.of_Z 0)
                  = Binary32.of_bits 0x3f800001).
  { Binary32Facts.at_last_cascade Hpow. vm_compute. reflexivity. }
  split; [exact Hcode|].
  cbn [ofZ Binary32.FloatOps_binary32]. rewrite Hcode. vm_compute. reflexivity.
Qed.

Local Open Scope R_scope.

Lemma cascadeSplits_increasing_witness :
  let f := cascadeSplits 4 0.5 48 0.95 in
  let p := fun i : nat => INR (i + 1) / INR 4 in
  length f = 4%nat /\
  (forall i j, (i < j)%nat -> (j < 4)%nat -> nth i f 0 < nth j f 0) /\
  (forall i, (i < 4)%nat -> 0 < nth i f 0 <= 1) /\
  nth (4 - 1) f 0 = 1 /\
  nth (4 - 1) (cascadeSplits 4 0.5 48 0) 0 = 1 /\
  (forall i, (i < 4)%nat ->
     nth i (cascadeSplits 4 0.5 48 0) 0 = ((0.5 + (48 - 0.5) * p i) - 0.5) / (48 - 0.5)) /\
  (forall i, (i < 4)%nat ->
     nth i (cascadeSplits 4 0.5 48 1) 0
     = (0.5 * Rpower (48 / 0.5) (p i) - 0.5) / (48 - 0.5)).
Proof.
  apply (@cascadeSplits_increasing 4 0.5 48 0.95);
    [lra | lra | lra | lia | reflexivity].
Defined.

Lemma updateCascades_deterministic_witness :
  map splitDepth (cascades (updateCascades 4 example0))
    = map splitDepth (cascades (updateCascades 4 example1)) /\
  map viewProjMatrix (cascades (updateCascades 4 example0))
    = map viewProjMatrix (cascades (updateCascades 4 example1)) /\
  updateCascades 4 (updateCascades 4 example0) = updateCascades 4 example0.
Proof.
  apply (@updateCascades_deterministic R mat4R _ _ 4 example0 example1);
    reflexivity.
Defined.

Lemma rebuild_on_toggle_witness :
  toggles (OnUpdateUIOverlay 4 overlay0 example0) <> toggles example0 /\
  commandBuffers (OnUpdateUIOverlay 4 overlay0 example0)
  = map (recordCommandBuffer 4 (OnUpdateUIOverlay 4 overlay0 example0))
        (seq 0 (length (commandBuffers example0))).
Proof.
  assert (Hchg : toggles (OnUpdateUIOverlay 4 overlay0 example0) <> toggles example0)
    by (intros H; lazy in H; discriminate H).
  split; [exact Hchg|].
  exact (proj1 (@rebuild_on_toggle R mat4R _ _ 4 overlay0 example0) Hchg).
Defined.

(** The camera of [main.cpp]: [setPerspective(45.0f, width / height, 0.5f,
    48.0f)] with a window of 1280 x 720, at its position
    (-0.12, 1.14, -2.25), looking straight ahead. *)
Definition cameraZO : Camera (F := R) (M := mat4R) :=
  {| znear := 0.5; zfar := 48;
     matrices_perspective :=
       perspectiveZO ((1 + sqrt 2) * 9 / 16) (1 + sqrt 2) 0.5 48;
     matrices_view :=
       mkmat4R (mkvec4 1 0 0 0) (mkvec4 0 1 0 0) (mkvec4 0 0 1 0)
               (mkvec4 (-0.12) 1.14 (-2.25) 1) |}.

Definition exampleZO : VulkanExample (F := R) (M := mat4R) :=
  {| debugDisplayReflection := debugDisplayReflection example0;
     debugDisplayRefraction := debugDisplayRefraction example0;
     lightPos := lightPos example0;
     cascadeDebug := cascadeDebug example0;
     uboTerrain_layers := uboTerrain_layers example0;
     offscreenPass := offscreenPass example0;
     cascadeSplitLambda := cascadeSplitLambda example0;
     depthPass_renderPass := depthPass_renderPass example0;
     cascades := cascades example0;
     camera := cameraZO;
     renderPass := renderPass example0;
     frameBuffers := frameBuffers example0;
     width := width example0;
     height := height example0;
     defaultClearColor := defaultClearColor example0;
     commandBuffers := commandBuffers example0 |}.

(** There the slice of cascade 0 starts at the view depth
    0.5 * 48 / (2 * 48 - 0.5) = 48 / 191, about 0.2513, not at 0.5. *)
Lemma cascade_slices_start_before_near_plane_witness :
  let n := 0.5 in
  let f := 48 in
  let depth := viewDepth (matrices_view cameraZO) in
  let split := fun j : nat => nth j (splitsOf 4 exampleZO) 0 in
  let slice := sliceOf exampleZO (splitsOf 4 exampleZO) 0 in
  let front := n * f / (2 * f - n) in
  exists c',
    nth_error (cascades (updateCascades 4 exampleZO)) 0 = Some c' /\
    viewProjMatrix c' = cascadeViewProj (lightPos exampleZO) slice /\
    splitDepth c' = - (n + split 0%nat * (f - n)) /\
    depth (corner slice 0) = front + 0 * (f - front) /\
    depth (corner slice (0 + 4)) = front + split 0%nat * (f - front) /\
    front < n /\
    (0%nat = 0%nat -> depth (corner slice 0) = front) /\
    (split 0%nat < 1 -> front + split 0%nat * (f - front) < n + split 0%nat * (f - n)).
Proof.
  assert (Hs : 0 <= sqrt 2) by apply sqrt_pos.
  apply (@cascade_slices_start_before_near_plane 4 exampleZO
           ((1 + sqrt 2) * 9 / 16) (1 + sqrt 2) 0 0 (cascade0 11%Z));
    [ cbn; lra | cbn; lra | lra | lra | reflexivity
    | unfold affine; cbn; repeat split; lra
    | replace (det4 _) with 1; [lra | unfold det4, cofactor, det3; cbn; ring]
    | lia | reflexivity | lia ].
Defined.


Local Close Scope R_scope.

(* ================================================================== *)
(** * Part IV: the pipelines and the validity of a recorded stream *)
(* ================================================================== *)

From Stdlib Require String.
Import String.StringSyntax.

(** ** [preparePipelines]

    The function fills one [VkGraphicsPipelineCreateInfo] that points to
    shared state structures, and between two creations assigns to members of
    these structures.  A pipeline is created from the values the structures
    hold when its [create()] is called.  The members that are assigned are
    modelled; the others (input assembly, vertex input, multisampling,
    viewport and dynamic state) are the same for all pipelines. *)
Inductive VkCullModeFlags : Type :=
| VK_CULL_MODE_NONE
| VK_CULL_MODE_FRONT_BIT.

Inductive VkCompareOp : Type :=
| VK_COMPARE_OP_LESS_OR_EQUAL.

Record PipelineState : Type := {
  cullMode : VkCullModeFlags;            (* rasterizationState.cullMode          *)
  depthClampEnable : bool;               (* rasterizationState.depthClampEnable  *)
  depthTestEnable : bool;                (* depthStencilState.depthTestEnable    *)
  depthWriteEnable : bool;               (* depthStencilState.depthWriteEnable   *)
  depthCompareOp : VkCompareOp;          (* depthStencilState.depthCompareOp     *)
  attachmentCount : Z                    (* colorBlendState.attachmentCount      *)
}.

Definition set_cullMode (v : VkCullModeFlags) (st : PipelineState) : PipelineState :=
  {| cullMode := v; depthClampEnable := depthClampEnable st;
     depthTestEnable := depthTestEnable st; depthWriteEnable := depthWriteEnable st;
     depthCompareOp := depthCompareOp st; attachmentCount := attachmentCount st |}.

Definition set_depthClampEnable (v : bool) (st : PipelineState) : PipelineState :=
  {| cullMode := cullMode st; depthClampEnable := v;
     depthTestEnable := depthTestEnable st; depthWriteEnable := depthWriteEnable st;
     depthCompareOp := depthCompareOp st; attachmentCount := attachmentCount st |}.

Definition set_depthTestEnable (v : bool) (st : PipelineState) : PipelineState :=
  {| cullMode := cullMode st; depthClampEnable := depthClampEnable st;
     depthTestEnable := v; depthWriteEnable := depthWriteEnable st;
     depthCompareOp := depthCompareOp st; attachmentCount := attachmentCount st |}.

Definition set_depthWriteEnable (v : bool) (st : PipelineState) : PipelineState :=
  {| cullMode := cullMode st; depthClampEnable := depthClampEnable st;
     depthTestEnable := depthTestEnable st; depthWriteEnable := v;
     depthCompareOp := depthCompareOp st; attachmentCount := attachmentCount st |}.

Definition set_depthCompareOp (v : VkCompareOp) (st : PipelineState) : PipelineState :=
  {| cullMode := cullMode st; depthClampEnable := depthClampEnable st;
     depthTestEnable := depthTestEnable st; depthWriteEnable := depthWriteEnable st;
     depthCompareOp := v; attachmentCount := attachmentCount st |}.

Definition set_attachmentCount (v : Z) (st : PipelineState) : PipelineState :=
  {| cullMode := cullMode st; depthClampEnable := depthClampEnable st;
     depthTestEnable := depthTestEnable st; depthWriteEnable := depthWriteEnable st;
     depthCompareOp := depthCompareOp st; attachmentCount := v |}.

(** The render pass a pipeline is created for: the [renderPass] of the base
    class or [depthPass.renderPass]. *)
Inductive PipelineRenderPass : Type :=
| for_renderPass
| for_depthPass_renderPass.

(** One [new Pipeline ... create()] block. *)
Record PipelineCreated : Type := {
  created_pipeline : PipelineRef;
  created_layout : PipelineLayoutRef;          (* setLayout      *)
  created_renderPass : PipelineRenderPass;     (* setRenderPass  *)
  created_shaders : list String.string;        (* addShader, after getAssetPath() *)
  created_state : PipelineState
}.

Local Open Scope string_scope.

(** [depthClampEnable0] is the value the initialiser of the framework gives
    [rasterizationState.depthClampEnable]; [deviceFeatures_depthClamp] is
    [deviceFeatures.depthClamp]. *)
Definition preparePipelines (depthClampEnable0 deviceFeatures_depthClamp : bool)
  : list PipelineCreated :=
  let st :=
    {| cullMode := VK_CULL_MODE_FRONT_BIT; depthClampEnable := depthClampEnable0;
       depthTestEnable := true; depthWriteEnable := true;
       depthCompareOp := VK_COMPARE_OP_LESS_OR_EQUAL; attachmentCount := 1 |} in
  let st := set_cullMode VK_CULL_MODE_NONE st in
  let st := set_depthTestEnable false st in
  (* Debug *)
  let debug :=
    {| created_pipeline := pipelines_debug; created_layout := pipelineLayouts_debug;
       created_renderPass := for_renderPass;
       created_shaders := ["shaders/quad.vert.spv"; "shaders/quad.frag.spv"];
       created_state := st |} in
  (* Debug cascades *)
  let debug_cascades :=
    {| created_pipeline := cascadeDebug_pipeline;
       created_layout := cascadeDebug_pipelineLayout;
       created_renderPass := for_renderPass;
       created_shaders :=
         ["shaders/debug_csm.vert.spv"; "shaders/debug_csm.frag.spv"];
       created_state := st |} in
  let st := set_depthTestEnable true st in
  (* Mirror *)
  let st := set_cullMode VK_CULL_MODE_NONE st in
  let mirror :=
    {| created_pipeline := pipelines_mirror; created_layout := pipelineLayouts_textured;
       created_renderPass := for_renderPass;
       created_shaders := ["shaders/mirror.vert.spv"; "shaders/mirror.frag.spv"];
       created_state := st |} in
  (* Terrain *)
  let terrain :=
    {| created_pipeline := pipelines_terrain; created_layout := pipelineLayouts_terrain;
       created_renderPass := for_renderPass;
       created_shaders := ["shaders/terrain.vert.spv"; "shaders/terrain.frag.spv"];
       created_state := st |} in
  (* Sky *)
  let st := set_cullMode VK_CULL_MODE_NONE st in
  let st := set_depthWriteEnable false st in
  let sky :=
    {| created_pipeline := pipelines_sky; created_layout := pipelineLayouts_sky;
       created_renderPass := for_renderPass;
       created_shaders :=
         ["shaders/skysphere.vert.spv"; "shaders/skysphere.frag.spv"];
       created_state := st |} in
  let st := set_depthWriteEnable true st in
  (* Shadow map depth pass *)
  let st := set_attachmentCount 0 st in
  let st := set_depthCompareOp VK_COMPARE_OP_LESS_OR_EQUAL st in
  let st := set_depthClampEnable deviceFeatures_depthClamp st in
  let depthpass :=
    {| created_pipeline := pipelines_depthpass;
       created_layout := depthPass_pipelineLayout;
       created_renderPass := for_depthPass_renderPass;
       created_shaders :=
         ["shaders/depthpass.vert.spv"; "shaders/terrain_depthpass.frag.spv"];
       created_state := st |} in
  [debug; debug_cascades; mirror; terrain; sky; depthpass].

Local Close Scope string_scope.

Scheme Equality for PipelineRef.
Scheme Equality for PipelineLayoutRef.

(** The pipeline created under a name, if any (the first, if several). *)
Definition createdAs (created : list PipelineCreated) (p : PipelineRef)
  : option PipelineCreated :=
  find (fun c => PipelineRef_beq (created_pipeline c) p) created.

(** ** The push-constant ranges of [setupDescriptorSetLayout] *)

Definition sizeof_mat4 : Z := 64.        (* sizeof(glm::mat4): 16 floats *)
Definition sizeof_vec4 : Z := 16.        (* sizeof(glm::vec4): 4 floats  *)
Definition sizeof_uint32_t : Z := 4.

(** [sizeof(CascadePushConstBlock)] and the size of the [PushConst] of
    [drawScene]: every member is a multiple of four bytes, so there is no
    padding. *)
Definition sizeof_CascadePushConstBlock : Z := sizeof_vec4 + sizeof_uint32_t.
Definition sizeof_PushConst : Z := sizeof_mat4 + sizeof_vec4 + sizeof_uint32_t.

(** The size given to [addPushConstantRange] for each pipeline layout; [None]
    for a layout that gets no range. *)
Definition pushConstantRange (l : PipelineLayoutRef) : option Z :=
  match l with
  | pipelineLayouts_textured => None
  | pipelineLayouts_debug => Some sizeof_uint32_t
  | pipelineLayouts_terrain => Some (sizeof_mat4 + sizeof_vec4 + sizeof_uint32_t)%Z
  | pipelineLayouts_sky => Some (sizeof_mat4 + sizeof_vec4 + sizeof_uint32_t)%Z
  | depthPass_pipelineLayout => Some sizeof_CascadePushConstBlock
  | cascadeDebug_pipelineLayout => Some (sizeof_vec4 + sizeof_uint32_t)%Z
  end.

Section Streams.

Context {F M : Type} {FO : FloatOps F} {GO : GlmOps F M}.
Variable N : nat.

Local Abbreviation State := (VulkanExample (F := F) (M := M)).
Local Abbreviation Command := (Cmd (F := F) (M := M)).

(** The size of the object whose address is passed to [updatePushConstant]. *)
Definition sizeofPushData (d : PushData (F := F) (M := M)) : Z :=
  match d with
  | PushScene _ => sizeof_PushConst
  | PushCascade _ => sizeof_CascadePushConstBlock
  | PushU32 _ => sizeof_uint32_t
  end.

(** ** The life cycle of a command buffer

    Recording starts with [begin] and stops with [end]; render passes do not
    nest; a draw is recorded inside a render pass; state is set and bound
    while recording. *)
Inductive Recording : Type := NotBegun | OutsidePass | InsidePass | Finished.

Definition recordStep (st : Recording) (c : Command) : option Recording :=
  match c, st with
  | CmdBegin, NotBegun => Some OutsidePass
  | CmdEnd, OutsidePass => Some Finished
  | CmdBeginRenderPass _ _ _ _ _, OutsidePass => Some InsidePass
  | CmdEndRenderPass, InsidePass => Some OutsidePass
  | (CmdDrawModel _ | CmdDrawHeightMap | CmdDraw _ _ _ _ | CmdDrawUI), InsidePass =>
      Some InsidePass
  | (CmdSetViewport _ _ _ _ _ _ | CmdSetScissor _ _ _ _ | CmdBindPipeline _
     | CmdBindDescriptorSets _ _ _ | CmdPushConstants _ _ _), (OutsidePass | InsidePass) =>
      Some st
  | _, _ => None
  end.

Fixpoint recordRun (st : Recording) (l : list Command) : option Recording :=
  match l with
  | [] => Some st
  | c :: t =>
      match recordStep st c with
      | Some st' => recordRun st' t
      | None => None
      end
  end.

(** ** Pipelines and push constants

    [bindingsOk created bound l]: along [l], starting with the pipeline
    [bound] bound, every pipeline that is bound is one of [created]; every
    draw of the class finds a pipeline bound; and every push-constant update
    names the layout the bound pipeline was created with.  The UI overlay
    binds a pipeline of its own, so nothing is known to be bound after it. *)
Fixpoint bindingsOk (created : list PipelineCreated) (bound : option PipelineRef)
    (l : list Command) : bool :=
  match l with
  | [] => true
  | c :: t =>
      match c with
      | CmdBegin => bindingsOk created None t
      | CmdBindPipeline p =>
          match createdAs created p with
          | Some _ => bindingsOk created (Some p) t
          | None => false
          end
      | CmdPushConstants layout _ _ =>
          match bound with
          | Some p =>
              match createdAs created p with
              | Some cp =>
                  PipelineLayoutRef_beq (created_layout cp) layout
                  && bindingsOk created bound t
              | None => false
              end
          | None => false
          end
      | CmdDrawModel _ | CmdDrawHeightMap | CmdDraw _ _ _ _ =>
          match bound with
          | Some _ => bindingsOk created bound t
          | None => false
          end
      | CmdDrawUI => bindingsOk created None t
      | _ => bindingsOk created bound t
      end
  end.

(** ** Viewport and scissor

    [drawsCovered extent viewport scissor l]: at every draw in [l] a render
    pass is open, and the viewport and the scissor set last are the whole
    area of that pass, with the depth range 0 to 1.  All pipelines declare
    viewport and scissor dynamic, so the values come from the stream. *)
Fixpoint drawsCovered (extent : option (Z * Z))
    (viewport : option (F * F * F * F * F * F)) (scissor : option (Z * Z * Z * Z))
    (l : list Command) : Prop :=
  match l with
  | [] => True
  | c :: t =>
      match c with
      | CmdBegin => drawsCovered None None None t
      | CmdBeginRenderPass _ _ w h _ => drawsCovered (Some (w, h)) viewport scissor t
      | CmdEndRenderPass => drawsCovered None viewport scissor t
      | CmdSetViewport x y w h minDepth maxDepth =>
          drawsCovered extent (Some (x, y, w, h, minDepth, maxDepth)) scissor t
      | CmdSetScissor offx offy w h =>
          drawsCovered extent viewport (Some (offx, offy, w, h)) t
      | CmdDrawModel _ | CmdDrawHeightMap | CmdDraw _ _ _ _ | CmdDrawUI =>
          (exists w h,
              extent = Some (w, h) /\
              viewport = Some (ofZ 0, ofZ 0, ofZ w, ofZ h, ofZ 0, ofZ 1) /\
              scissor = Some (0, 0, w, h)%Z)
          /\ drawsCovered extent viewport scissor t
      | _ => drawsCovered extent viewport scissor t
      end
  end.

End Streams.

Section StreamFacts.

Context {F M : Type} {FO : FloatOps F} {GO : GlmOps F M}.
Variable N : nat.

Local Abbreviation State := (VulkanExample (F := F) (M := M)).
Local Abbreviation Command := (Cmd (F := F) (M := M)).

Lemma Forall_recorded (P : CommandBuffer (F := F) (M := M) -> Prop) (s : State) :
  (forall i, P (recordCommandBuffer N s i)) ->
  Forall P (commandBuffers (buildCommandBuffers N s)).
Proof.
  intros HP. unfold buildCommandBuffers. cbn [commandBuffers set_commandBuffers].
  apply Forall_forall. intros cb Hin. apply in_map_iff in Hin.
  destruct Hin as (i & <- & _). apply HP.
Qed.

(** *** Life cycle *)

Lemma recordRun_app (l1 l2 : list Command) :
  forall st,
    recordRun st (l1 ++ l2) =
    match recordRun st l1 with
    | Some st' => recordRun st' l2
    | None => None
    end.
Proof.
  induction l1 as [|c t IH]; intros st; [reflexivity|].
  cbn [app recordRun]. destruct (recordStep st c); [apply IH|reflexivity].
Qed.

Lemma recordRun_cascades (s : State) :
  forall k a, recordRun OutsidePass (flat_map (cascadePass s) (seq a k)) = Some OutsidePass.
Proof.
  induction k as [|k IH]; intros a; [reflexivity|].
  cbn [seq flat_map]. rewrite recordRun_app. cbn. apply IH.
Qed.

(** X1.  The recording of every command buffer starts with [begin], ends with
    [end], opens and closes its render passes one after the other, and
    records every draw inside a render pass. *)
Theorem recorded_streams_well_formed (s : State) :
  Forall (fun cb => recordRun NotBegun cb = Some Finished)
         (commandBuffers (buildCommandBuffers N s)).
Proof.
  apply Forall_recorded. intros i.
  unfold recordCommandBuffer, drawCSM.
  cbn [app recordRun recordStep].
  rewrite recordRun_app, recordRun_cascades.
  unfold refractionPass, reflectionPass, mainPass, debugDraws.
  destruct (debugDisplayReflection s), (debugDisplayRefraction s),
    (enabled (cascadeDebug s)); reflexivity.
Qed.

(** *** Pipelines and push constants *)

Lemma bindingsOk_cascades (created : list PipelineCreated) (s : State)
    (rest : list Command) :
  createdAs created pipelines_depthpass <> None ->
  option_map created_layout (createdAs created pipelines_depthpass)
    = Some depthPass_pipelineLayout ->
  (forall bound, bindingsOk created bound rest = true) ->
  forall k a bound,
    bindingsOk created bound (flat_map (cascadePass s) (seq a k) ++ rest) = true.
Proof.
  intros Hsome Hlay Hrest.
  induction k as [|k IH]; intros a bound; [apply Hrest|].
  cbn [seq flat_map]. rewrite <- app_assoc.
  unfold cascadePass at 1. cbn [app drawShadowCasters bindingsOk].
  destruct (createdAs created pipelines_depthpass) as [cp|]; [|congruence].
  cbn in Hlay. injection Hlay as ->. cbn. apply IH.
Qed.

(** X2.  In every recorded command buffer, for the pipelines [preparePipelines]
    creates: only created pipelines are bound, every draw of the scene, the
    mirror plane and the debug quads finds a pipeline bound, and every
    push-constant update names the pipeline layout the bound pipeline was
    created with. *)
Theorem recorded_streams_bind_created_pipelines (s : State)
    (depthClampEnable0 deviceFeatures_depthClamp : bool) :
  Forall (fun cb =>
            bindingsOk (preparePipelines depthClampEnable0 deviceFeatures_depthClamp)
                       None cb = true)
         (commandBuffers (buildCommandBuffers N s)).
Proof.
  apply Forall_recorded. intros i.
  unfold recordCommandBuffer, drawCSM.
  cbn [app bindingsOk].
  apply bindingsOk_cascades.
  - discriminate.
  - reflexivity.
  - intros bound.
    unfold refractionPass, reflectionPass, mainPass, debugDraws.
    destruct (debugDisplayReflection s), (debugDisplayRefraction s),
      (enabled (cascadeDebug s)); reflexivity.
Qed.

(** *** Push-constant sizes *)

Lemma pushes_app (l1 l2 : list Command) : pushes (l1 ++ l2) = pushes l1 ++ pushes l2.
Proof. apply flat_map_app. Qed.

Definition rangeFits (x : PipelineLayoutRef * PushData (F := F) (M := M)) : Prop :=
  pushConstantRange (fst x) = Some (sizeofPushData (snd x)).

Lemma rangeFits_cascades (s : State) :
  forall k a, Forall rangeFits (pushes (flat_map (cascadePass s) (seq a k))).
Proof.
  induction k as [|k IH]; intros a; [constructor|].
  cbn [seq flat_map]. rewrite pushes_app. apply Forall_app. split; [|apply IH].
  repeat constructor.
Qed.

(** X3.  Every push-constant update in a recorded command buffer passes an object
    of exactly the size of the push-constant range that
    [setupDescriptorSetLayout] declares for the layout it names; no update
    names the layout without a range ([pipelineLayouts.textured]). *)
Theorem recorded_push_constants_fit_ranges (s : State) :
  Forall (fun cb =>
            forall layout data,
              In (layout, data) (pushes cb) ->
              pushConstantRange layout = Some (sizeofPushData data))
         (commandBuffers (buildCommandBuffers N s)).
Proof.
  apply Forall_recorded. intros i layout data Hin.
  assert (Hall : Forall rangeFits (pushes (recordCommandBuffer N s i))).
  { unfold recordCommandBuffer, drawCSM.
    rewrite !pushes_app. repeat (apply Forall_app; split);
      try apply rangeFits_cascades; try (repeat constructor).
    unfold mainPass, debugDraws.
    destruct (debugDisplayReflection s), (debugDisplayRefraction s),
      (enabled (cascadeDebug s)); repeat constructor. }
  rewrite Forall_forall in Hall. exact (Hall (layout, data) Hin).
Qed.

(** *** Viewport and scissor *)

Lemma drawsCovered_cascades (s : State) (rest : list Command) :
  let viewport := Some (ofZ 0, ofZ 0, ofZ SHADOWMAP_DIM, ofZ SHADOWMAP_DIM, ofZ 0, ofZ 1) in
  let scissor := Some (0, 0, SHADOWMAP_DIM, SHADOWMAP_DIM)%Z in
  drawsCovered None viewport scissor rest ->
  forall k a,
    drawsCovered None viewport scissor (flat_map (cascadePass s) (seq a k) ++ rest).
Proof.
  cbv zeta. intros Hrest.
  induction k as [|k IH]; intros a; [exact Hrest|].
  cbn [seq flat_map]. rewrite <- app_assoc.
  unfold cascadePass at 1. cbn [app drawShadowCasters drawsCovered].
  split; [|apply IH].
  exists SHADOWMAP_DIM, SHADOWMAP_DIM. repeat split.
Qed.

(** X4.  In every recorded command buffer every draw is inside a render pass
    whose whole area is the viewport and the scissor in force, with depth
    0 to 1: the shadow-map size in the cascade passes (set once, before the
    first), the offscreen size in the refraction and reflection passes, the
    window size in the main pass. *)
Theorem recorded_draws_cover_their_pass (s : State) :
  Forall (drawsCovered None None None) (commandBuffers (buildCommandBuffers N s)).
Proof.
  apply Forall_recorded. intros i.
  unfold recordCommandBuffer, drawCSM.
  cbn [app drawsCovered].
  apply drawsCovered_cascades.
  unfold refractionPass, reflectionPass, mainPass, debugDraws.
  destruct (debugDisplayReflection s), (debugDisplayRefraction s),
    (enabled (cascadeDebug s));
    cbn [app drawScene drawsCovered]; repeat split; eauto.
Qed.

End StreamFacts.

(* ================================================================== *)
(** * Part V: the frame loop, the handler and the uniform data *)
(* ================================================================== *)

Section Frame.

Context {F M : Type} {FO : FloatOps F} {GO : GlmOps F M}.
Variable SHADOW_MAP_CASCADE_COUNT : nat.

Local Abbreviation State := (VulkanExample (F := F) (M := M)).

(** ** [updateUniformBufferCSM]

    [struct UBOCSM], and the four objects the function writes: the block
    [depthPass.ubo] and the buffer it is copied to, the block [uboCSM] and
    the buffer it is copied to. *)
Record UBOCSM : Type := {
  ubo_cascadeSplits : list F;
  ubo_cascadeViewProjMat : list M;
  ubo_inverseViewMat : M;
  ubo_lightDir : vec3 F
}.

Record CSMUniforms : Type := {
  depthPass_ubo_cascadeViewProjMat : list M;
  depthPass_uniformBuffer_mapped : list M;
  uboCSM : UBOCSM;
  uniformBuffers_CSM_mapped : UBOCSM
}.

Definition cascadeAt (s : State) (i : nat) : Cascade := nth i (cascades s) nullCascade.

Definition updateUniformBufferCSM (s : State) (u : CSMUniforms) : CSMUniforms :=
  (* for (auto i = 0; i < cascades.size(); i++) depthPass.ubo.cascadeViewProjMat[i] = ... *)
  let depthMats :=
    fold_left (fun mats i => upd i (fun _ => viewProjMatrix (cascadeAt s i)) mats)
              (seq 0 (length (cascades s))) (depthPass_ubo_cascadeViewProjMat u) in
  (* for (auto i = 0; i < cascades.size(); i++) { uboCSM.cascadeSplits[i] = ...;
                                                  uboCSM.cascadeViewProjMat[i] = ...; } *)
  let arrays :=
    fold_left (fun (a : list F * list M) i =>
                 (upd i (fun _ => splitDepth (cascadeAt s i)) (fst a),
                  upd i (fun _ => viewProjMatrix (cascadeAt s i)) (snd a)))
              (seq 0 (length (cascades s)))
              (ubo_cascadeSplits (uboCSM u), ubo_cascadeViewProjMat (uboCSM u)) in
  let ubo :=
    {| ubo_cascadeSplits := fst arrays;
       ubo_cascadeViewProjMat := snd arrays;
       ubo_inverseViewMat := inverse (matrices_view (camera s));
       ubo_lightDir := vec3_of_vec4 (normalize4 (vec4_neg (lightPos s))) |} in
  {| depthPass_ubo_cascadeViewProjMat := depthMats;
     depthPass_uniformBuffer_mapped := depthMats;          (* memcpy *)
     uboCSM := ubo;
     uniformBuffers_CSM_mapped := ubo |}.                   (* memcpy *)

(** [updateUniformBuffers] together with the call of
    [updateUniformBufferCSM] it makes: the assignments to [lightPos] come
    first, and nothing after the call writes what the call read. *)
Definition updateUniformBuffers_CSM (su : State * CSMUniforms) : State * CSMUniforms :=
  let s := updateUniformBuffers (fst su) in
  (s, updateUniformBufferCSM s (snd su)).

(** ** [render] and [viewChanged]

    [prepared], [paused] and [camera.updated] are members of the base
    class.  [draw()] submits the recorded command buffer of the current
    swapchain image and writes nothing modelled;
    [updateUniformBufferOffscreen] writes only [uboShared] and its buffer. *)
Definition render (prepared paused camera_updated : bool) (su : State * CSMUniforms)
  : State * CSMUniforms :=
  if negb prepared then su
  else
    if negb paused || camera_updated
    then updateUniformBuffers_CSM (updateCascades SHADOW_MAP_CASCADE_COUNT (fst su), snd su)
    else su.

Definition viewChanged (su : State * CSMUniforms) : State * CSMUniforms :=
  updateUniformBuffers_CSM su.

(** The light position [updateUniformBuffers] assigns last. *)
Definition fixedLightPos : vec4 F := mkvec4 (ofZ 20) (ofZ (-10)) (ofZ 20) (ofZ 0).

End Frame.

Section FrameFacts.

Context {F M : Type} {FO : FloatOps F} {GO : GlmOps F M}.
Variable N : nat.

Local Abbreviation State := (VulkanExample (F := F) (M := M)).

(** ** Copy loops *)

Lemma copy_loop_nth_error {A : Type} (g : nat -> A) :
  forall (k a : nat) (l : list A) (j : nat),
    nth_error (fold_left (fun acc i => upd i (fun _ => g i) acc) (seq a k) l) j =
    if andb (Nat.leb a j) (Nat.ltb j (a + k))
    then option_map (fun _ => g j) (nth_error l j)
    else nth_error l j.
Proof.
  induction k as [|k IH]; intros a l j.
  - cbn [seq fold_left]. replace (a + 0) with a by lia.
    destruct (Nat.leb_spec a j), (Nat.ltb_spec j a); simpl; try reflexivity; lia.
  - cbn [seq fold_left]. rewrite IH, upd_nth_error.
    destruct (Nat.eqb_spec j a) as [->|Hne].
    + replace (Nat.leb (S a) a) with false by (symmetry; apply Nat.leb_gt; lia).
      rewrite Nat.leb_refl.
      replace (Nat.ltb a (a + S k)) with true by (symmetry; apply Nat.ltb_lt; lia).
      simpl. destruct (nth_error l a); reflexivity.
    + destruct (Nat.leb_spec (S a) j), (Nat.leb_spec a j),
        (Nat.ltb_spec j (S a + k)), (Nat.ltb_spec j (a + S k));
        simpl; try reflexivity; lia.
Qed.

Lemma copy_loop_all {A B : Type} (f : B -> A) (src : list B) (d : B) (l : list A) :
  length l = length src ->
  fold_left (fun acc i => upd i (fun _ => f (nth i src d)) acc) (seq 0 (length src)) l
  = map f src.
Proof.
  intros Hlen. apply nth_error_ext. intros j.
  rewrite (copy_loop_nth_error (fun i => f (nth i src d))), nth_error_map.
  cbn [Nat.leb andb Nat.add].
  destruct (Nat.ltb_spec j (length src)) as [Hj|Hj].
  - destruct (nth_error l j) as [x|] eqn:El;
      [|apply nth_error_None in El; lia].
    destruct (nth_error src j) as [y|] eqn:Es;
      [|apply nth_error_None in Es; lia].
    cbn. f_equal. f_equal. apply nth_error_nth. exact Es.
  - replace (nth_error l j) with (@None A) by (symmetry; apply nth_error_None; lia).
    replace (nth_error src j) with (@None B) by (symmetry; apply nth_error_None; lia).
    reflexivity.
Qed.

Lemma pair_loop {A B : Type} (f : nat -> list A -> list A) (g : nat -> list B -> list B) :
  forall (idx : list nat) (a : list A) (b : list B),
    fold_left (fun (p : list A * list B) i => (f i (fst p), g i (snd p))) idx (a, b)
    = (fold_left (fun x i => f i x) idx a, fold_left (fun y i => g i y) idx b).
Proof.
  induction idx as [|i rest IH]; intros a b; [reflexivity|].
  cbn [fold_left fst snd]. apply IH.
Qed.

(** ** The uniform data mirror the cascades *)

Lemma updateUniformBufferCSM_mirrors_cascades_aux (s : State) (u : CSMUniforms) :
  length (depthPass_ubo_cascadeViewProjMat u) = length (cascades s) ->
  length (ubo_cascadeSplits (uboCSM u)) = length (cascades s) ->
  length (ubo_cascadeViewProjMat (uboCSM u)) = length (cascades s) ->
  depthPass_uniformBuffer_mapped (updateUniformBufferCSM s u)
  = map viewProjMatrix (cascades s) /\
  uniformBuffers_CSM_mapped (updateUniformBufferCSM s u)
  = {| ubo_cascadeSplits := map splitDepth (cascades s);
       ubo_cascadeViewProjMat := map viewProjMatrix (cascades s);
       ubo_inverseViewMat := inverse (matrices_view (camera s));
       ubo_lightDir := vec3_of_vec4 (normalize4 (vec4_neg (lightPos s))) |}.
Proof.
  intros H1 H2 H3. unfold updateUniformBufferCSM.
  cbn [depthPass_uniformBuffer_mapped uniformBuffers_CSM_mapped].
  rewrite (pair_loop (fun i => upd i (fun _ => splitDepth (cascadeAt s i)))
                     (fun i => upd i (fun _ => viewProjMatrix (cascadeAt s i)))).
  cbn [fst snd]. unfold cascadeAt.
  rewrite (copy_loop_all viewProjMatrix (cascades s) nullCascade _ H1).
  rewrite (copy_loop_all splitDepth (cascades s) nullCascade _ H2).
  rewrite (copy_loop_all viewProjMatrix (cascades s) nullCascade _ H3).
  split; reflexivity.
Qed.

(** X5.  After [updateUniformBufferCSM], when the three uniform arrays have as
    many elements as there are cascades: the buffer of the depth pass holds
    the matrices of the cascades, in order; the CSM buffer holds their split
    depths and matrices, in order, the inverse of the camera's view matrix
    and the normalised negated light position; and each buffer equals the
    block it was copied from. *)
Theorem updateUniformBufferCSM_mirrors_cascades (s : State) (u : CSMUniforms) :
  length (depthPass_ubo_cascadeViewProjMat u) = length (cascades s) ->
  length (ubo_cascadeSplits (uboCSM u)) = length (cascades s) ->
  length (ubo_cascadeViewProjMat (uboCSM u)) = length (cascades s) ->
  let u' := updateUniformBufferCSM s u in
  depthPass_uniformBuffer_mapped u' = map viewProjMatrix (cascades s) /\
  uniformBuffers_CSM_mapped u'
  = {| ubo_cascadeSplits := map splitDepth (cascades s);
       ubo_cascadeViewProjMat := map viewProjMatrix (cascades s);
       ubo_inverseViewMat := inverse (matrices_view (camera s));
       ubo_lightDir := vec3_of_vec4 (normalize4 (vec4_neg (lightPos s))) |} /\
  depthPass_ubo_cascadeViewProjMat u' = depthPass_uniformBuffer_mapped u' /\
  uboCSM u' = uniformBuffers_CSM_mapped u'.
Proof.
  intros H1 H2 H3. cbv zeta.
  destruct (updateUniformBufferCSM_mirrors_cascades_aux s u H1 H2 H3) as [Hd Hu].
  repeat split; assumption.
Qed.

(** ** The refresh of [render] *)

(** X6.  On a frame that refreshes ([prepared], and not paused or the camera
    moved), with [N] cascades and uniform arrays of [N] elements: for every
    cascade [i] the CSM buffer and the depth-pass buffer hold the split depth
    and the matrix [updateCascades] computes from the camera, the light
    position and the lambda the frame started with; the light direction
    uploaded is that of the fixed light position, which is also the light
    position after the frame; the command buffers are not touched. *)
Theorem render_refreshes_uniforms (paused camera_updated : bool)
    (s : State) (u : CSMUniforms) (i : nat) :
  negb paused || camera_updated = true ->
  length (cascades s) = N ->
  length (depthPass_ubo_cascadeViewProjMat u) = N ->
  length (ubo_cascadeSplits (uboCSM u)) = N ->
  length (ubo_cascadeViewProjMat (uboCSM u)) = N ->
  i < N ->
  let s' := fst (render N true paused camera_updated (s, u)) in
  let u' := snd (render N true paused camera_updated (s, u)) in
  let csm := uniformBuffers_CSM_mapped u' in
  nth_error (ubo_cascadeSplits csm) i = Some (splitDepthOf s (splitsOf N s) i) /\
  nth_error (ubo_cascadeViewProjMat csm) i
  = Some (cascadeViewProj (lightPos s) (sliceOf s (splitsOf N s) i)) /\
  nth_error (depthPass_uniformBuffer_mapped u') i
  = Some (cascadeViewProj (lightPos s) (sliceOf s (splitsOf N s) i)) /\
  ubo_lightDir csm = vec3_of_vec4 (normalize4 (vec4_neg fixedLightPos)) /\
  lightPos s' = fixedLightPos /\
  commandBuffers s' = commandBuffers s.
Proof.
  intros Hrefresh Hc H1 H2 H3 Hi. cbv zeta.
  unfold render. cbn [negb]. rewrite Hrefresh.
  unfold updateUniformBuffers_CSM. cbn [fst snd].
  set (s1 := updateUniformBuffers (updateCascades N s)).
  assert (Hcs : cascades s1 = cascades (updateCascades N s)) by reflexivity.
  assert (Hlen : length (cascades s1) = N).
  { rewrite Hcs, updateCascades_length. exact Hc. }
  destruct (updateUniformBufferCSM_mirrors_cascades_aux s1 u) as (Hd & Hu);
    try congruence.
  rewrite Hd, Hu. cbn [ubo_cascadeSplits ubo_cascadeViewProjMat ubo_lightDir].
  destruct (nth_error (cascades s) i) as [c|] eqn:Ec;
    [|apply nth_error_None in Ec; lia].
  rewrite !nth_error_map, Hcs, (updateCascades_outputs s Hi Ec).
  repeat split.
Qed.

(** ** The recorded streams stay current *)

Lemma kept_build (s0 s1 : State) :
  streamsCurrent N s0 -> streamsCurrent N (buildCommandBuffers N s1).
Proof. intros _. apply buildCommandBuffers_current. Qed.

Lemma kept_ext (s0 s s1 : State) :
  (streamsCurrent N s0 -> streamsCurrent N s) ->
  sameStreamInputs s s1 -> commandBuffers s = commandBuffers s1 ->
  streamsCurrent N s0 -> streamsCurrent N s1.
Proof.
  intros Hs Hin Hcb H0. exact (streamsCurrent_ext Hin Hcb (Hs H0)).
Qed.

Ltac keep_current :=
  lazymatch goal with
  | |- streamsCurrent _ ?s -> streamsCurrent _ ?s => exact (fun H => H)
  | |- streamsCurrent _ _ -> streamsCurrent _ (buildCommandBuffers _ _) =>
      apply kept_build
  | |- streamsCurrent _ _ ->
       streamsCurrent _ (updateUniformBuffers
                           (updateCascades _ (set_cascadeSplitLambda ?v ?x))) =>
      refine (kept_ext (s := x) _ (proj1 (lambda_step_inputs _ v x))
                       (proj2 (lambda_step_inputs _ v x))); keep_current
  | |- streamsCurrent _ _ ->
       streamsCurrent _ (fold_left (fun s i => match ?g i with _ => _ end) ?idx ?x) =>
      refine (kept_ext (s := x) _ (proj1 (terrain_step_inputs g idx x))
                       (proj2 (terrain_step_inputs g idx x))); keep_current
  | |- streamsCurrent _ _ ->
       streamsCurrent _ (if enabled (cascadeDebug ?x) then _ else _) =>
      destruct (enabled (cascadeDebug x)); keep_current
  end.

(** X7.  If every command buffer holds what [buildCommandBuffers] records in the
    present state (as after [prepare], which ends with
    [buildCommandBuffers]), this is still so after [OnUpdateUIOverlay],
    whatever the user did: toggled a display, moved the cascade index, the
    lambda or a terrain layer, or nothing. *)
Theorem OnUpdateUIOverlay_keeps_streams_current (overlay : UIOverlay (F := F))
    (s : State) :
  streamsCurrent N s -> streamsCurrent N (OnUpdateUIOverlay N overlay s).
Proof.
  unfold OnUpdateUIOverlay.
  destruct (header_Debugging overlay),
    (checkBox_Display_reflection overlay) as [v1|],
    (checkBox_Display_refraction overlay) as [v2|],
    (checkBox_Display_cascades overlay) as [v3|],
    (sliderInt_Cascade overlay) as [vi|],
    (sliderFloat_Split_lambda overlay) as [vl|],
    (header_Terrain_layers overlay);
    cbv zeta; keep_current.
Qed.

Lemma refresh_step_inputs (s : State) :
  sameStreamInputs s (updateUniformBuffers (updateCascades N s)) /\
  commandBuffers s = commandBuffers (updateUniformBuffers (updateCascades N s)).
Proof.
  split; [|reflexivity].
  repeat split; try reflexivity.
  symmetry. apply cascadeLoop_frame. intros; reflexivity.
Qed.

(** X8.  [render] and [viewChanged] never record: the command buffers are the
    same lists after the call, and if they were current before, they still
    are, although [render] has recomputed every cascade. *)
Theorem render_keeps_streams_current (prepared paused camera_updated : bool)
    (s : State) (u : CSMUniforms) :
  let s1 := fst (render N prepared paused camera_updated (s, u)) in
  let s2 := fst (viewChanged (s, u)) in
  commandBuffers s1 = commandBuffers s /\
  commandBuffers s2 = commandBuffers s /\
  (streamsCurrent N s -> streamsCurrent N s1 /\ streamsCurrent N s2).
Proof.
  cbv zeta. unfold render, viewChanged, updateUniformBuffers_CSM. cbn [fst snd].
  assert (Hv : sameStreamInputs s (updateUniformBuffers s))
    by (repeat split; reflexivity).
  destruct (refresh_step_inputs s) as [Hin Hcb].
  split; [|split].
  - destruct (negb prepared); [reflexivity|].
    destruct (negb paused || camera_updated); reflexivity.
  - reflexivity.
  - intros Hcur. split.
    + destruct (negb prepared); [exact Hcur|].
      destruct (negb paused || camera_updated); [|exact Hcur].
      cbn [fst]. exact (streamsCurrent_ext Hin Hcb Hcur).
    + exact (streamsCurrent_ext Hv eq_refl Hcur).
Qed.

(** ** What the handler does to the cascades *)

Lemma cascadeLoop_ext (s1 s2 : State) (splits : list F) :
  camera s1 = camera s2 -> lightPos s1 = lightPos s2 ->
  forall (todo : list nat) (last : F) (cs : list Cascade),
    cascadeLoop s1 splits todo last cs = cascadeLoop s2 splits todo last cs.
Proof.
  intros Hc Hl. induction todo as [|i rest IH]; intros last cs; [reflexivity|].
  cbn [cascadeLoop]. rewrite Hc, Hl. apply IH.
Qed.

Lemma updateCascades_cascades_ext (s1 s2 : State) :
  camera s1 = camera s2 -> lightPos s1 = lightPos s2 ->
  cascadeSplitLambda s1 = cascadeSplitLambda s2 -> cascades s1 = cascades s2 ->
  cascades (updateCascades N s1) = cascades (updateCascades N s2).
Proof.
  intros Hc Hl Hla Hcs. unfold updateCascades. cbn [cascades set_cascades].
  rewrite (cascadeLoop_ext s1 s2 _ Hc Hl), Hc, Hla, Hcs. reflexivity.
Qed.

Lemma terrain_fold_shape (slider : nat -> option (F * F)) :
  forall (idx : list nat) (s : State),
    exists layers,
      fold_left
        (fun s i =>
           match slider i with
           | Some xy =>
               set_uboTerrain_layers (upd i (set_layer_xy xy) (uboTerrain_layers s)) s
           | None => s
           end) idx s
      = set_uboTerrain_layers layers s.
Proof.
  induction idx as [|i rest IH]; intros s.
  - exists (uboTerrain_layers s). destruct s; reflexivity.
  - cbn [fold_left]. destruct (slider i) as [xy|]; [|apply IH].
    destruct (IH (set_uboTerrain_layers
                    (upd i (set_layer_xy xy) (uboTerrain_layers s)) s)) as [l ->].
    exists l. reflexivity.
Qed.

(** The two outcomes of the handler for the inputs of [updateCascades]:
    kept as they were in [s], or recomputed for the lambda [v]. *)
Definition cascadesKept (s x : State) : Prop :=
  camera x = camera s /\ cascades x = cascades s /\
  cascadeSplitLambda x = cascadeSplitLambda s /\ lightPos x = lightPos s.

Definition cascadesRecomputed (v : F) (s x : State) : Prop :=
  camera x = camera s /\
  cascades x = cascades (updateCascades N (set_cascadeSplitLambda v s)) /\
  cascadeSplitLambda x = v /\ lightPos x = fixedLightPos.

Lemma cascadesKept_trans (s x y : State) :
  cascadesKept s x -> cascadesKept x y -> cascadesKept s y.
Proof.
  intros (H1 & H2 & H3 & H4) (K1 & K2 & K3 & K4).
  repeat split; congruence.
Qed.

Lemma cascadesKept_refl (x : State) : cascadesKept x x.
Proof. repeat split. Qed.

Lemma cascadesKept_reflection (v : bool) (x : State) :
  cascadesKept x (buildCommandBuffers N (set_debugDisplayReflection v x)).
Proof. repeat split. Qed.

Lemma cascadesKept_refraction (v : bool) (x : State) :
  cascadesKept x (buildCommandBuffers N (set_debugDisplayRefraction v x)).
Proof. repeat split. Qed.

Lemma cascadesKept_cascadeDebug (d : CascadeDebug) (x : State) :
  cascadesKept x (buildCommandBuffers N (set_cascadeDebug d x)).
Proof. repeat split. Qed.

Lemma cascadesKept_terrain (slider : nat -> option (F * F)) (idx : list nat) (x : State) :
  cascadesKept x
    (fold_left
       (fun s i =>
          match slider i with
          | Some xy =>
              set_uboTerrain_layers (upd i (set_layer_xy xy) (uboTerrain_layers s)) s
          | None => s
          end) idx x).
Proof.
  destruct (terrain_fold_shape slider idx x) as [l ->]. repeat split.
Qed.

Lemma cascadesRecomputed_lambda (v : F) (s x : State) :
  cascadesKept s x ->
  cascadesRecomputed v s
    (updateUniformBuffers (updateCascades N (set_cascadeSplitLambda v x))).
Proof.
  intros (H1 & H2 & H3 & H4). repeat split; try assumption.
  apply updateCascades_cascades_ext; assumption || reflexivity.
Qed.

Lemma cascadesRecomputed_then (v : F) (s x y : State) :
  cascadesRecomputed v s x -> cascadesKept x y -> cascadesRecomputed v s y.
Proof.
  intros (H1 & H2 & H3 & H4) (K1 & K2 & K3 & K4).
  repeat split; congruence.
Qed.

Ltac keep_cascades :=
  lazymatch goal with
  | |- cascadesKept _ (buildCommandBuffers _ (set_debugDisplayReflection ?v ?x)) =>
      refine (cascadesKept_trans (x := x) _ (cascadesKept_reflection v x));
      keep_cascades
  | |- cascadesKept _ (buildCommandBuffers _ (set_debugDisplayRefraction ?v ?x)) =>
      refine (cascadesKept_trans (x := x) _ (cascadesKept_refraction v x));
      keep_cascades
  | |- cascadesKept _ (buildCommandBuffers _ (set_cascadeDebug ?d ?x)) =>
      refine (cascadesKept_trans (x := x) _ (cascadesKept_cascadeDebug d x));
      keep_cascades
  | |- cascadesKept _ (fold_left (fun s i => match ?g i with _ => _ end) ?idx ?x) =>
      refine (cascadesKept_trans (x := x) _ (cascadesKept_terrain g idx x));
      keep_cascades
  | |- cascadesKept _ (if enabled (cascadeDebug ?x) then _ else _) =>
      destruct (enabled (cascadeDebug x)); keep_cascades
  | |- cascadesRecomputed _ _
         (fold_left (fun s i => match ?g i with _ => _ end) ?idx ?x) =>
      refine (cascadesRecomputed_then (x := x) _ (cascadesKept_terrain g idx x));
      keep_cascades
  | |- cascadesRecomputed _ _
         (updateUniformBuffers (updateCascades _ (set_cascadeSplitLambda _ _))) =>
      apply cascadesRecomputed_lambda; keep_cascades
  | |- cascadesKept _ _ => apply cascadesKept_refl
  end.

Lemma OnUpdateUIOverlay_cascades_aux (overlay : UIOverlay (F := F)) (s : State) :
  match (if header_Debugging overlay then sliderFloat_Split_lambda overlay else None) with
  | Some v => cascadesRecomputed v s (OnUpdateUIOverlay N overlay s)
  | None => cascadesKept s (OnUpdateUIOverlay N overlay s)
  end.
Proof.
  unfold OnUpdateUIOverlay.
  destruct (header_Debugging overlay),
    (checkBox_Display_reflection overlay) as [v1|],
    (checkBox_Display_refraction overlay) as [v2|],
    (checkBox_Display_cascades overlay) as [v3|],
    (sliderInt_Cascade overlay) as [vi|],
    (sliderFloat_Split_lambda overlay) as [vl|],
    (header_Terrain_layers overlay);
    cbv zeta; keep_cascades.
Qed.

(** X9.  The handler recomputes the cascades only when the "Split lambda" slider
    moved (under the open "Debugging" header).  Then the cascades are those
    [updateCascades] computes from the state the handler was called with and
    the new lambda, whatever else the user changed in the same call, and the
    light position becomes the fixed one.  Otherwise the cascades, the lambda
    and the light position are untouched.  The camera is never written. *)
Theorem OnUpdateUIOverlay_cascades (overlay : UIOverlay (F := F)) (s : State) :
  let s' := OnUpdateUIOverlay N overlay s in
  camera s' = camera s /\
  match (if header_Debugging overlay then sliderFloat_Split_lambda overlay else None) with
  | Some v =>
      cascades s' = cascades (updateCascades N (set_cascadeSplitLambda v s)) /\
      cascadeSplitLambda s' = v /\
      lightPos s' = fixedLightPos
  | None =>
      cascades s' = cascades s /\
      cascadeSplitLambda s' = cascadeSplitLambda s /\
      lightPos s' = lightPos s
  end.
Proof.
  cbv zeta. pose proof (OnUpdateUIOverlay_cascades_aux overlay s) as H.
  destruct (if header_Debugging overlay then sliderFloat_Split_lambda overlay else None);
    destruct H as (H1 & H2 & H3 & H4); repeat split; assumption.
Qed.

End FrameFacts.

(* ================================================================== *)
(** * Part VI: the life of the GPU objects *)
(* ================================================================== *)

Module Lifetime.
Import Setup.

(** ** The calls of a run *)

(** The driver that answers the depth-format query as [d] does and lets
    every call succeed. *)
Definition succeeding (d : Driver) : Driver :=
  {| vkResult := fun _ => VK_SUCCESS; supportedDepthFormat := supportedDepthFormat d |}.

(** The value [getSupportedDepthFormat] leaves in the variable it is given. *)
Definition depthFormatOf (d : Driver) : Format :=
  match supportedDepthFormat d with
  | Some f => VkFormat f
  | None => Indeterminate
  end.

(** What [createFrameBuffer], [prepareOffscreen] and [prepareCSM] call when
    nothing fails, in program order. *)
Definition createFrameBuffer_calls (colorFormat : Z) (target : Attachment) : list Event :=
  [ Called (vkCreateImage (offscreenPass_image target) (VkFormat colorFormat));
    Called (vkAllocateMemory (offscreenPass_mem target));
    Called (vkBindImageMemory (offscreenPass_image target) (offscreenPass_mem target));
    Called (vkCreateImageView (offscreenPass_view target) (VkFormat colorFormat)) ].

Definition prepareOffscreen_calls (colorFormat : Z) (fbDepthFormat : Format) : list Event :=
  [ QueriedDepthFormat;
    Called (vkCreateRenderPass offscreenPass_renderPass
              [VkFormat colorFormat; fbDepthFormat]);
    Called (vkCreateSampler offscreenPass_sampler) ]
  ++ createFrameBuffer_calls colorFormat refraction
  ++ createFrameBuffer_calls colorFormat reflection
  ++ [ Called (vkCreateImage (offscreenPass_image depth) fbDepthFormat);
       Called (vkAllocateMemory (offscreenPass_mem depth));
       Called (vkBindImageMemory (offscreenPass_image depth) (offscreenPass_mem depth));
       Called (vkCreateImageView (offscreenPass_view depth) fbDepthFormat);
       Called (vkCreateFramebuffer (offscreenPass_frameBuffer refraction));
       Called (vkCreateFramebuffer (offscreenPass_frameBuffer reflection)) ].

Definition cascade_calls (depthFormat : Format) (i : nat) : list Event :=
  [ Called (vkCreateImageView (cascades_view i) depthFormat);
    Called (vkCreateFramebuffer (cascades_frameBuffer i)) ].

Definition prepareCSM_calls (n : nat) (depthFormat : Format) : list Event :=
  [ QueriedDepthFormat;
    Called (vkCreateRenderPass depthPass_renderPass [depthFormat]);
    Called (vkCreateImage depth_image depthFormat);
    Called (vkAllocateMemory depth_mem);
    Called (vkBindImageMemory depth_image depth_mem);
    Called (vkCreateImageView depth_view depthFormat) ]
  ++ flat_map (cascade_calls depthFormat) (seq 0 n)
  ++ [ Called (vkCreateSampler depth_sampler) ].

(** The object a call creates, and the objects created along a log. *)
Definition createdBy (c : VkCall) : option Dest :=
  match c with
  | vkCreateRenderPass d _ => Some d
  | vkCreateSampler d => Some d
  | vkCreateImage d _ => Some d
  | vkAllocateMemory d => Some d
  | vkBindImageMemory _ _ => None
  | vkCreateImageView d _ => Some d
  | vkCreateFramebuffer d => Some d
  end.

Definition created (log : list Event) : list Dest :=
  flat_map (fun e => match e with
                     | Called c => match createdBy c with
                                   | Some d => [d]
                                   | None => []
                                   end
                     | QueriedDepthFormat => []
                     end) log.

(** ** The destructor

    [~VulkanExample()], statement by statement.  The uniform buffers are
    named after the members of [uniformBuffers]; [depthPass_uniformBuffer]
    is [depthPass.uniformBuffer]. *)
Inductive UniformBufferRef : Type :=
| vsShared | vsMirror | vsOffScreen | vsDebugQuad | terrain | sky | CSM
| depthPass_uniformBuffer.

Inductive Release : Type :=
| vkDestroyImageView (d : Dest)
| vkDestroyImage (d : Dest)
| vkFreeMemory (d : Dest)
| vkDestroyRenderPass (d : Dest)
| vkDestroySampler (d : Dest)
| Buffer_destroy (b : UniformBufferRef).

Definition destructor : list Release :=
  [ (* Color attachment *)
    vkDestroyImageView (offscreenPass_view refraction);
    vkDestroyImage (offscreenPass_image refraction);
    vkFreeMemory (offscreenPass_mem refraction);
    (* Depth attachment *)
    vkDestroyImageView (offscreenPass_view depth);
    vkDestroyImage (offscreenPass_image depth);
    vkFreeMemory (offscreenPass_mem depth);
    vkDestroyRenderPass offscreenPass_renderPass;
    vkDestroySampler offscreenPass_sampler;
    (* Uniform buffers *)
    Buffer_destroy vsShared;
    Buffer_destroy vsMirror;
    Buffer_destroy vsOffScreen;
    Buffer_destroy vsDebugQuad ].

Definition releasedObjects (l : list Release) : list Dest :=
  flat_map (fun r => match r with
                     | vkDestroyImageView d | vkDestroyImage d | vkFreeMemory d
                     | vkDestroyRenderPass d | vkDestroySampler d => [d]
                     | Buffer_destroy _ => []
                     end) l.

Definition releasedBuffers (l : list Release) : list UniformBufferRef :=
  flat_map (fun r => match r with
                     | Buffer_destroy b => [b]
                     | _ => []
                     end) l.

(** The buffers [prepareUniformBuffers] creates (and maps), in order. *)
Definition prepareUniformBuffers_creates : list UniformBufferRef :=
  [ vsShared; vsMirror; vsOffScreen; vsDebugQuad; terrain; sky;
    depthPass_uniformBuffer; CSM ].

(** What [~VulkanExample()] does not release: the reflection attachment, the
    two offscreen framebuffers and everything [prepareCSM] created. *)
Definition neverReleased (n : nat) : list Dest :=
  [ offscreenPass_image reflection; offscreenPass_mem reflection;
    offscreenPass_view reflection;
    offscreenPass_frameBuffer refraction; offscreenPass_frameBuffer reflection;
    depthPass_renderPass; depth_image; depth_mem; depth_view; depth_sampler ]
  ++ flat_map (fun i => [cascades_view i; cascades_frameBuffer i]) (seq 0 n).

(** A program replays: a completed run makes the same calls, with the same
    result, on the driver that lets every call succeed; an aborted run made
    the first calls of that run. *)
Definition Replays {A : Type} (m : M A) : Prop :=
  forall d,
    match m d with
    | (log, Completed a) => m (succeeding d) = (log, Completed a)
    | (log, Aborted _) => exists rest, fst (m (succeeding d)) = log ++ rest
    end.

End Lifetime.

Module LifetimeFacts.
Import Setup Lifetime.

(** ** Every run is a beginning of the complete run *)

Lemma Replays_ret {A : Type} (a : A) : Replays (ret a).
Proof. intros d. reflexivity. Qed.

Lemma Replays_bind {A B : Type} (m : M A) (k : A -> M B) :
  Replays m -> (forall a, Replays (k a)) -> Replays (bind m k).
Proof.
  intros Hm Hk d. specialize (Hm d). unfold bind.
  destruct (m d) as [log [a|f]].
  - specialize (Hk a d).
    destruct (k a d) as [log' [b|f]].
    + rewrite Hm, Hk. reflexivity.
    + destruct Hk as [rest Hrest]. exists rest. rewrite Hm.
      destruct (k a (succeeding d)) as [l r]. cbn [fst] in *. subst l.
      apply app_assoc.
  - destruct Hm as [rest Hrest].
    destruct (m (succeeding d)) as [l [a|f']]; cbn [fst] in Hrest; subst l.
    + destruct (k a (succeeding d)) as [l' r]. exists (rest ++ l').
      cbn [fst]. symmetry. apply app_assoc.
    + exists rest. reflexivity.
Qed.

Lemma Replays_VK_CHECK_RESULT (c : VkCall) : Replays (VK_CHECK_RESULT c).
Proof.
  intros d. unfold VK_CHECK_RESULT.
  destruct (Z.eqb_spec (vkResult d c) VK_SUCCESS) as [He|Hne].
  - reflexivity.
  - exists []. reflexivity.
Qed.

Lemma Replays_getSupportedDepthFormat : Replays getSupportedDepthFormat.
Proof. intros d. reflexivity. Qed.

Lemma Replays_assert (b : bool) : Replays (assert_validDepthFormat b).
Proof. intros d. destruct b; [reflexivity|]. exists []. reflexivity. Qed.

Lemma Replays_for_each (body : nat -> M unit) :
  (forall i, Replays (body i)) -> forall idx, Replays (for_each idx body).
Proof.
  intros Hb; induction idx as [|i rest IH]; cbn [for_each].
  - apply Replays_ret.
  - apply Replays_bind; auto.
Qed.

Create HintDb replays.

#[local] Hint Resolve Replays_ret Replays_VK_CHECK_RESULT
  Replays_getSupportedDepthFormat Replays_assert : replays.

Ltac replays :=
  repeat first [ apply Replays_bind; [ | intros ? ]
               | apply Replays_for_each; intros ?
               | solve [auto with replays] ].

Lemma prepareOffscreen_replays (colorFormat : Z) : Replays (prepareOffscreen colorFormat).
Proof. unfold prepareOffscreen, createFrameBuffer. replays. Qed.

Lemma prepareCSM_replays (n : nat) : Replays (prepareCSM n).
Proof. unfold prepareCSM. replays. Qed.

(** *** The complete runs *)

Lemma bind_run {A B : Type} (m : M A) (k : A -> M B) (d : Driver)
    (log : list Event) (a : A) :
  m d = (log, Completed a) ->
  bind m k d = (log ++ fst (k a d), snd (k a d)).
Proof.
  intros Hm. unfold bind. rewrite Hm. destruct (k a d); reflexivity.
Qed.

Lemma check_succeeding (c : VkCall) (d : Driver) :
  VK_CHECK_RESULT c (succeeding d) = ([Called c], Completed tt).
Proof. reflexivity. Qed.

Lemma query_succeeding (d : Driver) :
  getSupportedDepthFormat (succeeding d)
  = ([QueriedDepthFormat],
     Completed (match supportedDepthFormat d with
                | Some _ => true
                | None => false
                end, depthFormatOf d)).
Proof.
  unfold getSupportedDepthFormat, depthFormatOf. cbn [succeeding supportedDepthFormat].
  destruct (supportedDepthFormat d); reflexivity.
Qed.

Lemma cascades_succeeding (d : Driver) (fmt : Format) :
  forall idx,
    for_each idx
      (fun i =>
         VK_CHECK_RESULT (vkCreateImageView (cascades_view i) fmt) ;;
         VK_CHECK_RESULT (vkCreateFramebuffer (cascades_frameBuffer i)))%nat
      (succeeding d)
    = (flat_map (cascade_calls fmt) idx, Completed tt).
Proof.
  induction idx as [|i rest IH]; [reflexivity|].
  cbn [for_each flat_map].
  rewrite (@bind_run _ _ _ _ _ (cascade_calls fmt i) tt).
  - rewrite IH. reflexivity.
  - rewrite (@bind_run _ _ _ _ _ _ _ (check_succeeding _ d)), check_succeeding. reflexivity.
Qed.

Ltac run_succeeding :=
  repeat first
    [ rewrite (@bind_run _ _ _ _ _ _ _ (check_succeeding _ _)); cbn [fst snd]
    | rewrite check_succeeding; cbn [fst snd] ].

Lemma prepareCSM_succeeding (n : nat) (d : Driver) :
  prepareCSM n (succeeding d) = (prepareCSM_calls n (depthFormatOf d), Completed tt).
Proof.
  unfold prepareCSM, prepareCSM_calls.
  rewrite (@bind_run _ _ _ _ _ _ _ (query_succeeding d)). cbn [fst snd].
  do 5 (rewrite (@bind_run _ _ _ _ _ _ _ (check_succeeding _ _)); cbn [fst snd]).
  rewrite (@bind_run _ _ _ _ _ _ _ (cascades_succeeding d (depthFormatOf d) (seq 0 n))).
  rewrite check_succeeding. reflexivity.
Qed.

Lemma createFrameBuffer_succeeding (colorFormat : Z) (target : Attachment) (d : Driver) :
  createFrameBuffer colorFormat target (succeeding d)
  = (createFrameBuffer_calls colorFormat target, Completed tt).
Proof.
  unfold createFrameBuffer. run_succeeding. reflexivity.
Qed.

Lemma prepareOffscreen_succeeding (colorFormat : Z) (d : Driver) (f : Z) :
  supportedDepthFormat d = Some f ->
  prepareOffscreen colorFormat (succeeding d)
  = (prepareOffscreen_calls colorFormat (VkFormat f), Completed tt).
Proof.
  intros Hf. unfold prepareOffscreen, prepareOffscreen_calls.
  rewrite (@bind_run _ _ _ _ _ _ _ (query_succeeding d)). cbn [fst snd].
  unfold depthFormatOf. rewrite Hf.
  rewrite (@bind_run _ _ _ _ _ [] tt) by reflexivity.
  do 2 (rewrite (@bind_run _ _ _ _ _ _ _ (check_succeeding _ _)); cbn [fst snd]).
  do 2 (rewrite (@bind_run _ _ _ _ _ _ _ (createFrameBuffer_succeeding _ _ _)); cbn [fst snd]).
  run_succeeding. reflexivity.
Qed.

Lemma prepareOffscreen_no_format (colorFormat : Z) (d : Driver) :
  supportedDepthFormat d = None ->
  prepareOffscreen colorFormat d
  = ([QueriedDepthFormat], Aborted FailedAssert_validDepthFormat).
Proof.
  intros Hnone. unfold prepareOffscreen.
  unfold bind at 1. unfold getSupportedDepthFormat. rewrite Hnone.
  cbn [fst snd]. unfold bind at 1. reflexivity.
Qed.

Lemma prepareCSM_completed (n : nat) (d : Driver) (log : list Event) :
  prepareCSM n d = (log, Completed tt) -> log = prepareCSM_calls n (depthFormatOf d).
Proof.
  intros Hrun. pose proof (prepareCSM_replays n d) as Hrep.
  rewrite Hrun, prepareCSM_succeeding in Hrep. congruence.
Qed.

Lemma prepareOffscreen_completed (colorFormat : Z) (d : Driver) (log : list Event) :
  prepareOffscreen colorFormat d = (log, Completed tt) ->
  log = prepareOffscreen_calls colorFormat (depthFormatOf d).
Proof.
  intros Hrun. pose proof (prepareOffscreen_replays colorFormat d) as Hrep.
  rewrite Hrun in Hrep.
  destruct (supportedDepthFormat d) as [f|] eqn:Hf.
  - rewrite (prepareOffscreen_succeeding colorFormat d Hf) in Hrep.
    unfold depthFormatOf. rewrite Hf. congruence.
  - rewrite (prepareOffscreen_no_format colorFormat d Hf) in Hrun. discriminate.
Qed.

(** *** No call is made twice *)

Lemma in_cascade_calls (fmt : Format) (e : Event) (a k : nat) :
  In e (flat_map (cascade_calls fmt) (seq a k)) ->
  exists i, a <= i < a + k /\
            (e = Called (vkCreateImageView (cascades_view i) fmt) \/
             e = Called (vkCreateFramebuffer (cascades_frameBuffer i))).
Proof.
  intros Hin. apply in_flat_map in Hin. destruct Hin as (i & Hi & He).
  apply in_seq in Hi. exists i. split; [exact Hi|].
  destruct He as [<-|[<-|[]]]; auto.
Qed.

Lemma NoDup_cascade_calls (fmt : Format) :
  forall k a, NoDup (flat_map (cascade_calls fmt) (seq a k)).
Proof.
  induction k as [|k IH]; intros a; [constructor|].
  cbn [seq flat_map cascade_calls app].
  constructor; [|constructor; [|apply IH]].
  - intros [Heq|Hin]; [discriminate|].
    apply in_cascade_calls in Hin. destruct Hin as (i & Hi & [He|He]);
      [injection He as He; lia | discriminate].
  - intros Hin.
    apply in_cascade_calls in Hin. destruct Hin as (i & Hi & [He|He]);
      [discriminate | injection He as He; lia].
Qed.

Lemma NoDup_prepareCSM_calls (n : nat) (fmt : Format) : NoDup (prepareCSM_calls n fmt).
Proof.
  unfold prepareCSM_calls.
  apply NoDup_app; [| apply NoDup_app |].
  - repeat constructor; cbn; intuition congruence.
  - apply NoDup_cascade_calls.
  - repeat constructor. intros [].
  - intros e He [Hs|[]]. apply in_cascade_calls in He.
    destruct He as (i & _ & [He|He]); congruence.
  - intros e He Hin. apply in_app_iff in Hin. destruct Hin as [Hin|[Hs|[]]].
    + apply in_cascade_calls in Hin. destruct Hin as (i & _ & [Hi|Hi]); subst e;
        cbn in He; intuition congruence.
    + subst e. cbn in He. intuition congruence.
Qed.

Lemma NoDup_prepareOffscreen_calls (colorFormat : Z) (fmt : Format) :
  NoDup (prepareOffscreen_calls colorFormat fmt).
Proof.
  unfold prepareOffscreen_calls, createFrameBuffer_calls. cbn [app].
  repeat constructor; cbn; intuition congruence.
Qed.

(** X12.  Whatever the driver answers, [prepareOffscreen] and [prepareCSM] make
    the first calls of one fixed sequence, in its order, and no call occurs
    twice in that sequence: a failed call is never tried again, and an
    aborted run has created nothing that a complete run would not create. *)
Theorem setup_calls_in_program_order (colorFormat : Z) (n : nat) (d : Driver) :
  (exists rest,
      prepareOffscreen_calls colorFormat (depthFormatOf d)
      = fst (prepareOffscreen colorFormat d) ++ rest) /\
  NoDup (prepareOffscreen_calls colorFormat (depthFormatOf d)) /\
  (exists rest,
      prepareCSM_calls n (depthFormatOf d) = fst (prepareCSM n d) ++ rest) /\
  NoDup (prepareCSM_calls n (depthFormatOf d)).
Proof.
  split; [|split; [apply NoDup_prepareOffscreen_calls|split;
                   [|apply NoDup_prepareCSM_calls]]].
  - destruct (supportedDepthFormat d) as [f|] eqn:Hf.
    + pose proof (prepareOffscreen_replays colorFormat d) as Hrep.
      rewrite (prepareOffscreen_succeeding colorFormat d Hf) in Hrep.
      unfold depthFormatOf. rewrite Hf.
      destruct (prepareOffscreen colorFormat d) as [log [[]|fl]]; cbn [fst] in *.
      * exists []. rewrite app_nil_r. congruence.
      * exact Hrep.
    + rewrite (prepareOffscreen_no_format colorFormat d Hf).
      unfold depthFormatOf. rewrite Hf. eexists. reflexivity.
  - pose proof (prepareCSM_replays n d) as Hrep.
    rewrite prepareCSM_succeeding in Hrep.
    destruct (prepareCSM n d) as [log [[]|fl]]; cbn [fst] in *.
    + exists []. rewrite app_nil_r. congruence.
    + exact Hrep.
Qed.

(** X13.  Every call that returns a [VkResult] is checked.  A run of
    [prepareOffscreen] or of [prepareCSM] that completes has seen every call
    succeed; a run that aborts on a call names the last call it made, with
    the result the driver gave, and every call before it succeeded; a run
    that aborts on the assertion has seen every call it made succeed. *)
Theorem setup_calls_are_checked (colorFormat : Z) (n : nat) (d : Driver) :
  soundRun d (prepareOffscreen colorFormat d) /\ soundRun d (prepareCSM n d).
Proof.
  split.
  - apply SetupFacts.prepareOffscreen_sound.
  - apply SetupFacts.prepareCSM_sound.
Qed.

(** ** What the destructor releases *)

Lemma created_app (l1 l2 : list Event) : created (l1 ++ l2) = created l1 ++ created l2.
Proof. apply flat_map_app. Qed.

Lemma created_cascade_calls (fmt : Format) :
  forall k a,
    created (flat_map (cascade_calls fmt) (seq a k))
    = flat_map (fun i => [cascades_view i; cascades_frameBuffer i]) (seq a k).
Proof.
  induction k as [|k IH]; intros a; [reflexivity|].
  cbn [seq flat_map]. rewrite created_app, IH. reflexivity.
Qed.

Lemma in_cascade_objects (x : Dest) (n : nat) :
  In x (flat_map (fun i => [cascades_view i; cascades_frameBuffer i]) (seq 0 n)) ->
  exists i, x = cascades_view i \/ x = cascades_frameBuffer i.
Proof.
  intros Hin. apply in_flat_map in Hin. destruct Hin as (i & _ & Hx).
  exists i. destruct Hx as [<-|[<-|[]]]; auto.
Qed.

(** X14.  After complete runs of [prepareOffscreen] and [prepareCSM] (for any
    number of cascades), [~VulkanExample()] releases only objects that were
    created, each once, and of the created objects it does not release
    exactly these: the image, memory and view of the reflection attachment,
    the two offscreen framebuffers, and everything [prepareCSM] created
    (render pass, layered image, its memory, all views, the cascade
    framebuffers and the sampler).  Of the eight uniform buffers
    [prepareUniformBuffers] creates it destroys the first four and not
    [terrain], [sky], [depthPass.uniformBuffer] and [CSM]. *)
Theorem destructor_leaves_objects_alive (colorFormat : Z) (n : nat) (d : Driver)
    (log1 log2 : list Event) :
  prepareOffscreen colorFormat d = (log1, Completed tt) ->
  prepareCSM n d = (log2, Completed tt) ->
  let made := created (log1 ++ log2) in
  let freed := releasedObjects destructor in
  NoDup freed /\
  incl freed made /\
  (forall x, In x made -> (~ In x freed <-> In x (neverReleased n))) /\
  NoDup (releasedBuffers destructor) /\
  incl (releasedBuffers destructor) prepareUniformBuffers_creates /\
  (forall b, In b prepareUniformBuffers_creates ->
             (~ In b (releasedBuffers destructor)
              <-> In b [terrain; sky; depthPass_uniformBuffer; CSM])).
Proof.
  intros H1 H2. cbv zeta.
  apply prepareOffscreen_completed in H1. apply prepareCSM_completed in H2.
  subst log1 log2.
  assert (Hmade : created (prepareOffscreen_calls colorFormat (depthFormatOf d)
                           ++ prepareCSM_calls n (depthFormatOf d))
                  = [ offscreenPass_renderPass; offscreenPass_sampler;
                      offscreenPass_image refraction; offscreenPass_mem refraction;
                      offscreenPass_view refraction;
                      offscreenPass_image reflection; offscreenPass_mem reflection;
                      offscreenPass_view reflection;
                      offscreenPass_image depth; offscreenPass_mem depth;
                      offscreenPass_view depth;
                      offscreenPass_frameBuffer refraction;
                      offscreenPass_frameBuffer reflection;
                      depthPass_renderPass; depth_image; depth_mem; depth_view ]
                    ++ flat_map (fun i => [cascades_view i; cascades_frameBuffer i])
                                (seq 0 n)
                    ++ [depth_sampler]).
  { unfold prepareCSM_calls. rewrite !created_app, created_cascade_calls.
    reflexivity. }
  rewrite Hmade. clear Hmade.
  split; [|split; [|split; [|split; [|split]]]].
  - repeat constructor; cbn; intuition congruence.
  - intros x Hx. cbn in Hx. apply in_app_iff. left. cbn.
    intuition (subst; auto 20).
  - intros x Hx. unfold neverReleased. split.
    + intros Hnot. apply in_app_iff in Hx. destruct Hx as [Hx|Hx].
      * apply in_app_iff. left. cbn in Hx, Hnot |- *.
        intuition (subst; auto 20).
      * apply in_app_iff in Hx. destruct Hx as [Hx|[Hx|[]]].
        -- apply in_app_iff. right. exact Hx.
        -- apply in_app_iff. left. subst x. cbn. auto 20.
    + intros Hin Hfreed. apply in_app_iff in Hin. destruct Hin as [Hin|Hin].
      * cbn in Hin, Hfreed. intuition congruence.
      * apply in_cascade_objects in Hin. destruct Hin as [i [Hi|Hi]]; subst x;
          cbn in Hfreed; intuition congruence.
  - repeat constructor; cbn; intuition congruence.
  - intros b Hb. cbn in Hb |- *. intuition (subst; auto 20).
  - intros b Hb. cbn in Hb |- *. split.
    + intros Hnot. intuition (subst; auto 20).
    + intros Hin Hfreed. intuition congruence.
Qed.

(** ** The formats handed to the driver *)










End LifetimeFacts.

(* ================================================================== *)
(** * Part VII: descriptor sets, uniform buffers and the draws that use them *)
(* ================================================================== *)

Module Resources.
Import Lifetime.

(** ** [setupDescriptorSetLayout] *)

Inductive DescriptorSetLayoutRef : Type :=
| descriptorSetLayouts_textured | descriptorSetLayouts_terrain
| descriptorSetLayouts_skysphere | depthPass_descriptorSetLayout
| cascadeDebug_descriptorSetLayout.

Inductive VkDescriptorType : Type :=
| VK_DESCRIPTOR_TYPE_UNIFORM_BUFFER
| VK_DESCRIPTOR_TYPE_COMBINED_IMAGE_SAMPLER.

Inductive VkShaderStageFlagBits : Type :=
| VK_SHADER_STAGE_VERTEX_BIT
| VK_SHADER_STAGE_FRAGMENT_BIT.

(** One [addBinding(binding, type, stages)]; the stages are the flags or-ed
    together. *)
Record LayoutBinding : Type := addBinding {
  lb_binding : Z;
  lb_type : VkDescriptorType;
  lb_stages : list VkShaderStageFlagBits
}.

Definition descriptorSetLayout_bindings (l : DescriptorSetLayoutRef)
  : list LayoutBinding :=
  match l with
  | descriptorSetLayouts_textured =>
      [ addBinding 0 VK_DESCRIPTOR_TYPE_UNIFORM_BUFFER
          [VK_SHADER_STAGE_VERTEX_BIT; VK_SHADER_STAGE_FRAGMENT_BIT];
        addBinding 1 VK_DESCRIPTOR_TYPE_COMBINED_IMAGE_SAMPLER [VK_SHADER_STAGE_FRAGMENT_BIT];
        addBinding 2 VK_DESCRIPTOR_TYPE_COMBINED_IMAGE_SAMPLER [VK_SHADER_STAGE_FRAGMENT_BIT];
        addBinding 3 VK_DESCRIPTOR_TYPE_COMBINED_IMAGE_SAMPLER [VK_SHADER_STAGE_FRAGMENT_BIT];
        addBinding 4 VK_DESCRIPTOR_TYPE_COMBINED_IMAGE_SAMPLER [VK_SHADER_STAGE_FRAGMENT_BIT];
        addBinding 5 VK_DESCRIPTOR_TYPE_UNIFORM_BUFFER [VK_SHADER_STAGE_FRAGMENT_BIT] ]
  | descriptorSetLayouts_terrain =>
      [ addBinding 0 VK_DESCRIPTOR_TYPE_UNIFORM_BUFFER
          [VK_SHADER_STAGE_VERTEX_BIT; VK_SHADER_STAGE_FRAGMENT_BIT];
        addBinding 1 VK_DESCRIPTOR_TYPE_COMBINED_IMAGE_SAMPLER [VK_SHADER_STAGE_FRAGMENT_BIT];
        addBinding 2 VK_DESCRIPTOR_TYPE_COMBINED_IMAGE_SAMPLER [VK_SHADER_STAGE_FRAGMENT_BIT];
        addBinding 3 VK_DESCRIPTOR_TYPE_COMBINED_IMAGE_SAMPLER [VK_SHADER_STAGE_FRAGMENT_BIT];
        addBinding 4 VK_DESCRIPTOR_TYPE_UNIFORM_BUFFER [VK_SHADER_STAGE_FRAGMENT_BIT] ]
  | descriptorSetLayouts_skysphere =>
      [ addBinding 0 VK_DESCRIPTOR_TYPE_UNIFORM_BUFFER [VK_SHADER_STAGE_VERTEX_BIT];
        addBinding 1 VK_DESCRIPTOR_TYPE_COMBINED_IMAGE_SAMPLER [VK_SHADER_STAGE_FRAGMENT_BIT] ]
  | depthPass_descriptorSetLayout =>
      [ addBinding 0 VK_DESCRIPTOR_TYPE_UNIFORM_BUFFER [VK_SHADER_STAGE_VERTEX_BIT] ]
  | cascadeDebug_descriptorSetLayout =>
      [ addBinding 0 VK_DESCRIPTOR_TYPE_COMBINED_IMAGE_SAMPLER
          [VK_SHADER_STAGE_FRAGMENT_BIT] ]
  end.

(** The descriptor set layout given to [addLayout] for each pipeline layout. *)
Definition pipelineLayout_addLayout (l : PipelineLayoutRef) : DescriptorSetLayoutRef :=
  match l with
  | pipelineLayouts_textured => descriptorSetLayouts_textured
  | pipelineLayouts_debug => descriptorSetLayouts_textured
  | pipelineLayouts_terrain => descriptorSetLayouts_terrain
  | pipelineLayouts_sky => descriptorSetLayouts_skysphere
  | depthPass_pipelineLayout => depthPass_descriptorSetLayout
  | cascadeDebug_pipelineLayout => cascadeDebug_descriptorSetLayout
  end.

(** ** [setupDescriptorSet] *)

(** The descriptor sets it creates: the named members, and
    [cascades[i].descriptorSet]. *)
Inductive DescriptorSetTarget : Type :=
| set_member (d : DescriptorSetRef)
| cascades_descriptorSet (i : nat).

(** What the pointer given to [addDescriptor] points to. *)
Inductive DescriptorInfo : Type :=
| buffer_descriptor (b : UniformBufferRef)
| offscreenPass_refraction_descriptor
| offscreenPass_reflection_descriptor
| textures_waterNormalMap_descriptor
| textures_heightMap_descriptor
| textures_terrainArray_descriptor
| textures_skySphere_descriptor
| depthMapDescriptor
| cascadeImageInfo.

Record Descriptor : Type := addDescriptor {
  d_binding : Z;
  d_type : VkDescriptorType;
  d_info : DescriptorInfo
}.

Record DescriptorSetCreated : Type := {
  ds_target : DescriptorSetTarget;
  ds_layout : DescriptorSetLayoutRef;      (* addLayout *)
  ds_descriptors : list Descriptor
}.

(** One turn of the loop "Shadow map cascades (one set per cascade)". *)
Definition cascadeDescriptorSet (i : nat) : DescriptorSetCreated :=
  {| ds_target := cascades_descriptorSet i;
     ds_layout := descriptorSetLayouts_textured;
     ds_descriptors :=
       [ addDescriptor 0 VK_DESCRIPTOR_TYPE_UNIFORM_BUFFER
           (buffer_descriptor depthPass_uniformBuffer);
         addDescriptor 1 VK_DESCRIPTOR_TYPE_COMBINED_IMAGE_SAMPLER cascadeImageInfo ] |}.

(** [cascades_size] is [cascades.size()]. *)
Definition setupDescriptorSet (cascades_size : nat) : list DescriptorSetCreated :=
  [ (* Water plane *)
    {| ds_target := set_member descriptorSets_waterplane;
       ds_layout := descriptorSetLayouts_textured;
       ds_descriptors :=
         [ addDescriptor 0 VK_DESCRIPTOR_TYPE_UNIFORM_BUFFER (buffer_descriptor vsMirror);
           addDescriptor 1 VK_DESCRIPTOR_TYPE_COMBINED_IMAGE_SAMPLER
             offscreenPass_refraction_descriptor;
           addDescriptor 2 VK_DESCRIPTOR_TYPE_COMBINED_IMAGE_SAMPLER
             offscreenPass_reflection_descriptor;
           addDescriptor 3 VK_DESCRIPTOR_TYPE_COMBINED_IMAGE_SAMPLER
             textures_waterNormalMap_descriptor;
           addDescriptor 4 VK_DESCRIPTOR_TYPE_COMBINED_IMAGE_SAMPLER depthMapDescriptor;
           addDescriptor 5 VK_DESCRIPTOR_TYPE_UNIFORM_BUFFER (buffer_descriptor CSM) ] |};
    (* Debug quad *)
    {| ds_target := set_member descriptorSets_debugquad;
       ds_layout := descriptorSetLayouts_textured;
       ds_descriptors :=
         [ addDescriptor 1 VK_DESCRIPTOR_TYPE_COMBINED_IMAGE_SAMPLER
             offscreenPass_reflection_descriptor;
           addDescriptor 2 VK_DESCRIPTOR_TYPE_COMBINED_IMAGE_SAMPLER
             offscreenPass_refraction_descriptor ] |};
    (* Terrain *)
    {| ds_target := set_member descriptorSets_terrain;
       ds_layout := descriptorSetLayouts_terrain;
       ds_descriptors :=
         [ addDescriptor 0 VK_DESCRIPTOR_TYPE_UNIFORM_BUFFER (buffer_descriptor terrain);
           addDescriptor 1 VK_DESCRIPTOR_TYPE_COMBINED_IMAGE_SAMPLER
             textures_heightMap_descriptor;
           addDescriptor 2 VK_DESCRIPTOR_TYPE_COMBINED_IMAGE_SAMPLER
             textures_terrainArray_descriptor;
           addDescriptor 3 VK_DESCRIPTOR_TYPE_COMBINED_IMAGE_SAMPLER depthMapDescriptor;
           addDescriptor 4 VK_DESCRIPTOR_TYPE_UNIFORM_BUFFER (buffer_descriptor CSM) ] |};
    (* Skysphere *)
    {| ds_target := set_member descriptorSets_skysphere;
       ds_layout := descriptorSetLayouts_skysphere;
       ds_descriptors :=
         [ addDescriptor 0 VK_DESCRIPTOR_TYPE_UNIFORM_BUFFER (buffer_descriptor sky);
           addDescriptor 1 VK_DESCRIPTOR_TYPE_COMBINED_IMAGE_SAMPLER
             textures_skySphere_descriptor ] |} ]
  (* Shadow map cascades (one set per cascade) *)
  ++ map cascadeDescriptorSet (seq 0 cascades_size)
  ++ [ (* Depth pass *)
       {| ds_target := set_member depthPass_descriptorSet;
          ds_layout := depthPass_descriptorSetLayout;
          ds_descriptors :=
            [ addDescriptor 0 VK_DESCRIPTOR_TYPE_UNIFORM_BUFFER
                (buffer_descriptor depthPass_uniformBuffer) ] |};
       (* Cascade debug *)
       {| ds_target := set_member cascadeDebug_descriptorSet;
          ds_layout := cascadeDebug_descriptorSetLayout;
          ds_descriptors :=
            [ addDescriptor 0 VK_DESCRIPTOR_TYPE_COMBINED_IMAGE_SAMPLER
                depthMapDescriptor ] |} ].

(** The layout a set was created with (the first creation under that name). *)
Definition DescriptorSetTarget_beq (a b : DescriptorSetTarget) : bool :=
  match a, b with
  | set_member x, set_member y =>
      match x, y with
      | descriptorSets_waterplane, descriptorSets_waterplane
      | descriptorSets_debugquad, descriptorSets_debugquad
      | descriptorSets_terrain, descriptorSets_terrain
      | descriptorSets_skysphere, descriptorSets_skysphere
      | depthPass_descriptorSet, depthPass_descriptorSet
      | cascadeDebug_descriptorSet, cascadeDebug_descriptorSet => true
      | _, _ => false
      end
  | cascades_descriptorSet i, cascades_descriptorSet j => Nat.eqb i j
  | _, _ => false
  end.

Definition layoutOfSet (sets : list DescriptorSetCreated) (t : DescriptorSetTarget)
  : option DescriptorSetLayoutRef :=
  option_map ds_layout (find (fun c => DescriptorSetTarget_beq (ds_target c) t) sets).

(** The bindings of the set's layout that the set does not write. *)
Definition unwrittenBindings (c : DescriptorSetCreated) : list Z :=
  filter (fun b => negb (existsb (Z.eqb b) (map d_binding (ds_descriptors c))))
         (map lb_binding (descriptorSetLayout_bindings (ds_layout c))).

(** Every descriptor written names a binding of the layout, with its type,
    and no binding is written twice. *)
Definition writesWithinLayout (c : DescriptorSetCreated) : Prop :=
  Forall (fun d => exists lb,
              In lb (descriptorSetLayout_bindings (ds_layout c)) /\
              lb_binding lb = d_binding d /\ lb_type lb = d_type d)
         (ds_descriptors c) /\
  NoDup (map d_binding (ds_descriptors c)).

(** The uniform buffers the descriptor sets refer to. *)
Definition referencedBuffers (sets : list DescriptorSetCreated) : list UniformBufferRef :=
  flat_map (fun c => flat_map (fun d => match d_info d with
                                        | buffer_descriptor b => [b]
                                        | _ => []
                                        end) (ds_descriptors c)) sets.

(** ** The sizes of the uniform blocks

    The blocks ([uboShared], ...) and their struct types.  The members are
    [float], [glm::vec3], [glm::vec4] and [glm::mat4] (4, 12, 16 and 64
    bytes, all aligned to 4), so the size of a struct is the sum of the sizes
    of its members.  [TERRAIN_LAYER_COUNT] and [SHADOW_MAP_CASCADE_COUNT] are
    macros. *)
Inductive UniformBlock : Type :=
| block_uboShared | block_uboSky | block_uboTerrain | block_uboCSM
| block_uboWaterPlane | block_depthPass_ubo.

Inductive BlockType : Type :=
| struct_UBO | struct_UBOTerrain | struct_UBOCSM | struct_UBOWaterPlane
| struct_DepthPass_UniformBlock.

Definition typeOfBlock (b : UniformBlock) : BlockType :=
  match b with
  | block_uboShared | block_uboSky => struct_UBO
  | block_uboTerrain => struct_UBOTerrain
  | block_uboCSM => struct_UBOCSM
  | block_uboWaterPlane => struct_UBOWaterPlane
  | block_depthPass_ubo => struct_DepthPass_UniformBlock
  end.

Definition sizeof_float : Z := 4.
Definition sizeof_vec3 : Z := 12.

Section Sizes.

Variable TERRAIN_LAYER_COUNT : nat.
Variable SHADOW_MAP_CASCADE_COUNT : nat.

(** The members of each struct, as their sizes, in declaration order. *)
Definition members (t : BlockType) : list Z :=
  match t with
  | struct_UBO => [sizeof_mat4; sizeof_mat4; sizeof_vec4]
  | struct_UBOTerrain =>
      [sizeof_mat4; sizeof_mat4; sizeof_vec4] ++ repeat sizeof_vec4 TERRAIN_LAYER_COUNT
  | struct_UBOCSM =>
      repeat sizeof_float SHADOW_MAP_CASCADE_COUNT
      ++ repeat sizeof_mat4 SHADOW_MAP_CASCADE_COUNT
      ++ [sizeof_mat4; sizeof_vec3]
  | struct_UBOWaterPlane =>
      [sizeof_mat4; sizeof_mat4; sizeof_vec4; sizeof_vec4; sizeof_float]
  | struct_DepthPass_UniformBlock => repeat sizeof_mat4 SHADOW_MAP_CASCADE_COUNT
  end.

Definition sizeof (b : UniformBlock) : Z :=
  fold_right Z.add 0%Z (members (typeOfBlock b)).

End Sizes.

(** [prepareUniformBuffers]: each [createBuffer(..., &buffer, sizeof(block))],
    as the buffer and the block whose size is passed. *)
Definition prepareUniformBuffers_createBuffer : list (UniformBufferRef * UniformBlock) :=
  [ (vsShared, block_uboShared);
    (vsMirror, block_uboWaterPlane);
    (vsOffScreen, block_uboShared);
    (vsDebugQuad, block_uboShared);
    (terrain, block_uboShared);
    (sky, block_uboShared);
    (depthPass_uniformBuffer, block_depthPass_ubo);
    (CSM, block_uboCSM) ].

(** The copies into the mapped buffers, each as the buffer written and the
    block copied; the size passed is always [sizeof] of that block. *)
Definition updateUniformBufferTerrain_copies : list (UniformBufferRef * UniformBlock) :=
  [ (terrain, block_uboTerrain) ].

Definition updateUniformBufferCSM_copies : list (UniformBufferRef * UniformBlock) :=
  [ (depthPass_uniformBuffer, block_depthPass_ubo); (CSM, block_uboCSM) ].

Definition updateUniformBuffers_copies : list (UniformBufferRef * UniformBlock) :=
  [ (vsShared, block_uboShared);            (* Mesh *)
    (vsMirror, block_uboWaterPlane);        (* Mirror *)
    (vsDebugQuad, block_uboShared) ]        (* Debug quad *)
  ++ updateUniformBufferTerrain_copies
  ++ updateUniformBufferCSM_copies
  ++ [ (sky, block_uboSky) ].               (* Sky *)

Definition updateUniformBufferOffscreen_copies : list (UniformBufferRef * UniformBlock) :=
  [ (vsOffScreen, block_uboShared) ].

(** What [prepareUniformBuffers] copies after creating and mapping the
    buffers: it ends with [updateUniformBuffers(); updateUniformBufferOffscreen();]. *)
Definition prepareUniformBuffers_copies : list (UniformBufferRef * UniformBlock) :=
  updateUniformBuffers_copies ++ updateUniformBufferOffscreen_copies.

Definition UniformBufferRef_beq (a b : UniformBufferRef) : bool :=
  match a, b with
  | vsShared, vsShared | vsMirror, vsMirror | vsOffScreen, vsOffScreen
  | vsDebugQuad, vsDebugQuad | terrain, terrain | sky, sky | CSM, CSM
  | depthPass_uniformBuffer, depthPass_uniformBuffer => true
  | _, _ => false
  end.

(** The block whose size a buffer was created with. *)
Definition createdWith (b : UniformBufferRef) : option UniformBlock :=
  option_map snd (find (fun p => UniformBufferRef_beq (fst p) b)
                       prepareUniformBuffers_createBuffer).

(** ** The state a draw finds

    For every draw of the class in a stream: the render pass that is open,
    the pipeline bound last, and the layout and the sets of the last
    [bindDescriptorSets].  [drawUI] binds what it needs itself. *)
Record DrawContext : Type := {
  dc_renderPass : option VkHandle;
  dc_pipeline : option PipelineRef;
  dc_setsLayout : option PipelineLayoutRef;
  dc_sets : list DescriptorSetRef
}.

Section Contexts.

Context {F M : Type} {FO : FloatOps F} {GO : GlmOps F M}.

Local Abbreviation State := (VulkanExample (F := F) (M := M)).
Local Abbreviation Command := (Cmd (F := F) (M := M)).

Fixpoint drawContextsFrom (pass : option VkHandle) (bound : option PipelineRef)
    (layout : option PipelineLayoutRef) (sets : list DescriptorSetRef)
    (l : list Command) : list DrawContext :=
  match l with
  | [] => []
  | c :: t =>
      match c with
      | CmdBegin => drawContextsFrom None None None [] t
      | CmdBeginRenderPass rp _ _ _ _ => drawContextsFrom (Some rp) bound layout sets t
      | CmdEndRenderPass => drawContextsFrom None bound layout sets t
      | CmdBindPipeline p => drawContextsFrom pass (Some p) layout sets t
      | CmdBindDescriptorSets lay ds _ => drawContextsFrom pass bound (Some lay) ds t
      | CmdDrawModel _ | CmdDrawHeightMap | CmdDraw _ _ _ _ =>
          {| dc_renderPass := pass; dc_pipeline := bound;
             dc_setsLayout := layout; dc_sets := sets |}
          :: drawContextsFrom pass bound layout sets t
      | CmdDrawUI => drawContextsFrom pass None None [] t
      | _ => drawContextsFrom pass bound layout sets t
      end
  end.

Definition drawContexts (cb : CommandBuffer (F := F) (M := M)) : list DrawContext :=
  drawContextsFrom None None None [] cb.

(** The pipeline layout of the pipeline a draw finds bound. *)
Definition pipelineLayoutAt (created : list PipelineCreated) (dc : DrawContext)
  : option PipelineLayoutRef :=
  match dc_pipeline dc with
  | Some p => option_map created_layout (createdAs created p)
  | None => None
  end.

(** The sets were bound through the very layout of the bound pipeline. *)
Definition sameLayout (created : list PipelineCreated) (dc : DrawContext) : bool :=
  match pipelineLayoutAt created dc, dc_setsLayout dc with
  | Some lp, Some lb => PipelineLayoutRef_beq lp lb
  | _, _ => false
  end.

(** The sets bound at a draw were created with the descriptor set layout of
    the bound pipeline's layout, and bound through a pipeline layout over
    that same descriptor set layout. *)
Definition setsMatchPipeline (created : list PipelineCreated)
    (sets : list DescriptorSetCreated) (dc : DrawContext) : Prop :=
  exists lp lb,
    pipelineLayoutAt created dc = Some lp /\
    dc_setsLayout dc = Some lb /\
    pipelineLayout_addLayout lb = pipelineLayout_addLayout lp /\
    dc_sets dc <> [] /\
    Forall (fun d => layoutOfSet sets (set_member d) = Some (pipelineLayout_addLayout lp))
           (dc_sets dc).

(** The render pass object a pipeline was created for. *)
Definition renderPassOf (s : State) (r : PipelineRenderPass) : VkHandle :=
  match r with
  | for_renderPass => renderPass s
  | for_depthPass_renderPass => depthPass_renderPass s
  end.

(** The draw happens in the render pass its pipeline was created for. *)
Definition inOwnRenderPass (created : list PipelineCreated) (s : State)
    (dc : DrawContext) : bool :=
  match dc_renderPass dc, dc_pipeline dc with
  | Some rp, Some p =>
      match createdAs created p with
      | Some cp => Z.eqb (renderPassOf s (created_renderPass cp)) rp
      | None => false
      end
  | _, _ => false
  end.

End Contexts.

End Resources.

Module ResourceFacts.
Import Lifetime Resources.

(** ** The sets [setupDescriptorSet] creates *)

Lemma find_past_cascades (t : DescriptorSetRef) (rest : list DescriptorSetCreated) :
  forall l,
    find (fun c => DescriptorSetTarget_beq (ds_target c) (set_member t))
         (map cascadeDescriptorSet l ++ rest)
    = find (fun c => DescriptorSetTarget_beq (ds_target c) (set_member t)) rest.
Proof.
  induction l as [|i l IH]; [reflexivity|].
  cbn [map app find cascadeDescriptorSet ds_target DescriptorSetTarget_beq]. exact IH.
Qed.

Lemma layoutOfSet_member (n : nat) (d : DescriptorSetRef) :
  layoutOfSet (setupDescriptorSet n) (set_member d)
  = Some match d with
         | descriptorSets_waterplane | descriptorSets_debugquad =>
             descriptorSetLayouts_textured
         | descriptorSets_terrain => descriptorSetLayouts_terrain
         | descriptorSets_skysphere => descriptorSetLayouts_skysphere
         | depthPass_descriptorSet => depthPass_descriptorSetLayout
         | cascadeDebug_descriptorSet => cascadeDebug_descriptorSetLayout
         end.
Proof.
  unfold layoutOfSet, setupDescriptorSet.
  destruct d; cbn [app find ds_target DescriptorSetTarget_beq];
    try reflexivity; rewrite find_past_cascades; reflexivity.
Qed.

Lemma in_cascade_sets (c : DescriptorSetCreated) (l : list nat) :
  In c (map cascadeDescriptorSet l) -> exists i, In i l /\ c = cascadeDescriptorSet i.
Proof.
  intros Hin. apply in_map_iff in Hin. destruct Hin as (i & <- & Hi). eauto.
Qed.

Lemma member_past_cascades (d : DescriptorSetRef) (rest : list DescriptorSetTarget)
    (l : list nat) :
  In (set_member d) (map cascades_descriptorSet l ++ rest) -> In (set_member d) rest.
Proof.
  intros H. apply in_app_iff in H. destruct H as [H|H]; [|exact H].
  apply in_map_iff in H. destruct H as (i & Hi & _). discriminate Hi.
Qed.

Lemma NoDup_cascade_targets (l : list nat) :
  NoDup l -> NoDup (map cascades_descriptorSet l).
Proof.
  induction 1 as [|i l Hi Hl IH]; cbn [map]; constructor; [|exact IH].
  intros Hin. apply in_map_iff in Hin. destruct Hin as (j & Hj & Hjl).
  injection Hj as ->. exact (Hi Hjl).
Qed.

Lemma cascade_targets (l : list nat) :
  map ds_target (map cascadeDescriptorSet l) = map cascades_descriptorSet l.
Proof. rewrite map_map. reflexivity. Qed.

Lemma within_layout (c : DescriptorSetCreated) :
  forallb (fun d => existsb (fun lb => Z.eqb (lb_binding lb) (d_binding d)
                                       && match lb_type lb, d_type d with
                                          | VK_DESCRIPTOR_TYPE_UNIFORM_BUFFER,
                                            VK_DESCRIPTOR_TYPE_UNIFORM_BUFFER
                                          | VK_DESCRIPTOR_TYPE_COMBINED_IMAGE_SAMPLER,
                                            VK_DESCRIPTOR_TYPE_COMBINED_IMAGE_SAMPLER => true
                                          | _, _ => false
                                          end)
                          (descriptorSetLayout_bindings (ds_layout c)))
          (ds_descriptors c) = true ->
  Forall (fun d => exists lb,
              In lb (descriptorSetLayout_bindings (ds_layout c)) /\
              lb_binding lb = d_binding d /\ lb_type lb = d_type d)
         (ds_descriptors c).
Proof.
  intros H. rewrite forallb_forall in H. apply Forall_forall. intros d Hd.
  specialize (H d Hd). apply existsb_exists in H. destruct H as (lb & Hlb & Heq).
  apply andb_true_iff in Heq. destruct Heq as [Hb Ht].
  exists lb. split; [exact Hlb|]. split; [apply Z.eqb_eq; exact Hb|].
  destruct (lb_type lb), (d_type d); (reflexivity || discriminate).
Qed.

Lemma NoDup_bindings (l : list Z) :
  (fix distinct (l : list Z) : bool :=
     match l with
     | [] => true
     | x :: t => negb (existsb (Z.eqb x) t) && distinct t
     end) l = true ->
  NoDup l.
Proof.
  induction l as [|x t IH]; intros H; [constructor|].
  apply andb_true_iff in H. destruct H as [Hx Ht].
  constructor; [|apply IH; exact Ht].
  intros Hin. apply negb_true_iff in Hx.
  assert (He : existsb (Z.eqb x) t = true)
    by (apply existsb_exists; exists x; split; [exact Hin | apply Z.eqb_refl]).
  congruence.
Qed.

Ltac within := split; [apply within_layout; reflexivity | apply NoDup_bindings; reflexivity].

(** X15.  [setupDescriptorSet], for any number of cascades: it creates six sets
    and one per cascade, all under different names; every descriptor it
    writes names a binding of the set's layout, with the type the layout
    declares, and no binding twice.  All bindings of the layout are written,
    except in the debug quad's set, which leaves bindings 0, 3, 4 and 5 of the
    textured layout unwritten, and in the sets of the cascades, which leave
    2, 3, 4 and 5 of it unwritten. *)
Theorem setupDescriptorSet_writes_within_layouts (n : nat) :
  length (setupDescriptorSet n) = 6 + n /\
  NoDup (map ds_target (setupDescriptorSet n)) /\
  Forall (fun c =>
            writesWithinLayout c /\
            unwrittenBindings c
            = match ds_target c with
              | set_member descriptorSets_debugquad => [0; 3; 4; 5]%Z
              | cascades_descriptorSet _ => [2; 3; 4; 5]%Z
              | set_member _ => []
              end)
         (setupDescriptorSet n).
Proof.
  unfold setupDescriptorSet. split; [|split].
  - rewrite !length_app, length_map, length_seq. cbn [length]. lia.
  - rewrite !map_app, cascade_targets. cbn [map ds_target app].
    do 4 (constructor;
          [ intros H; cbn [In] in H;
            repeat (destruct H as [H|H]; [discriminate H|]);
            apply member_past_cascades in H; cbn [In] in H; intuition discriminate
          | ]).
    apply NoDup_app; [| |].
    + apply NoDup_cascade_targets, seq_NoDup.
    + repeat constructor; cbn [In]; intuition discriminate.
    + intros x Hx Hy. apply in_map_iff in Hx. destruct Hx as (i & <- & _).
      cbn [In] in Hy. intuition discriminate.
  - repeat (apply Forall_cons; [split; [within | reflexivity] | ]).
    apply Forall_app. split.
    + apply Forall_forall. intros c Hc. apply in_cascade_sets in Hc.
      destruct Hc as (i & _ & ->). split; [within | reflexivity].
    + repeat (apply Forall_cons; [split; [within | reflexivity] | ]). constructor.
Qed.

(** ** Uniform buffers: created, written, read and destroyed *)

Lemma referenced_by_cascades (l : list nat) (b : UniformBufferRef) :
  In b (referencedBuffers (map cascadeDescriptorSet l)) -> b = depthPass_uniformBuffer.
Proof.
  induction l as [|i l IH]; cbn; [contradiction|].
  intros [H|H]; [symmetry; exact H | apply IH; exact H].
Qed.

Lemma referencedBuffers_app (l1 l2 : list DescriptorSetCreated) :
  referencedBuffers (l1 ++ l2) = referencedBuffers l1 ++ referencedBuffers l2.
Proof. apply flat_map_app. Qed.

(** X16.  For any number of cascades: the uniform buffers that descriptor sets
    refer to are [vsMirror], [CSM], [terrain], [sky] and
    [depthPass.uniformBuffer]; all of them are created by
    [prepareUniformBuffers].  The buffers [prepareUniformBuffers] creates
    are exactly the buffers [updateUniformBuffers] and
    [updateUniformBufferOffscreen] copy into.  [vsShared], [vsOffScreen] and
    [vsDebugQuad] are created and copied into, but no descriptor set refers
    to them; and of the buffers the destructor destroys, only [vsMirror] is
    one a descriptor set refers to. *)
Theorem uniform_buffers_created_written_read (n : nat) :
  let read := referencedBuffers (setupDescriptorSet n) in
  (forall b, In b read
             <-> In b [vsMirror; CSM; terrain; sky; depthPass_uniformBuffer]) /\
  incl read prepareUniformBuffers_creates /\
  map fst prepareUniformBuffers_createBuffer = prepareUniformBuffers_creates /\
  (forall b, In b (map fst prepareUniformBuffers_copies)
             <-> In b prepareUniformBuffers_creates) /\
  (forall b, In b prepareUniformBuffers_creates ->
             (~ In b read <-> In b [vsShared; vsOffScreen; vsDebugQuad])) /\
  (forall b, In b (releasedBuffers destructor) -> In b read -> b = vsMirror).
Proof.
  cbv zeta.
  assert (Hread : forall b, In b (referencedBuffers (setupDescriptorSet n))
                            <-> In b [vsMirror; CSM; terrain; sky;
                                      depthPass_uniformBuffer]).
  { intros b. unfold setupDescriptorSet. rewrite !referencedBuffers_app.
    rewrite !in_app_iff. split.
    - intros [H|[H|H]].
      + cbn in H. cbn [In]. intuition.
      + apply referenced_by_cascades in H. subst b. cbn [In]. intuition.
      + cbn in H. cbn [In]. intuition.
    - intros H. cbn [In] in H.
      destruct H as [H|[H|[H|[H|[H|[]]]]]]; subst b;
        try (left; cbn; intuition; fail).
      right. right. cbn. intuition. }
  split; [exact Hread|]. split; [|split; [|split; [|split]]].
  - intros b Hb. apply Hread in Hb. cbn [In] in Hb |- *.
    unfold prepareUniformBuffers_creates. cbn [In]. intuition.
  - reflexivity.
  - intros b. cbn. intuition.
  - intros b Hb. rewrite Hread. cbn [In] in Hb |- *.
    split.
    + intros Hnot. destruct b; intuition.
    + intros Hin Hr. destruct b; intuition discriminate.
  - intros b Hd Hr. apply Hread in Hr. cbn in Hd. cbn [In] in Hr.
    destruct b; intuition discriminate.
Qed.

(** ** Sizes *)

Lemma sum_repeat (x : Z) :
  forall k, fold_right Z.add 0%Z (repeat x k) = (x * Z.of_nat k)%Z.
Proof.
  induction k as [|k IH]; [cbn; lia|].
  cbn [repeat fold_right]. rewrite IH. lia.
Qed.

Lemma sum_app (l1 l2 : list Z) :
  fold_right Z.add 0%Z (l1 ++ l2)
  = (fold_right Z.add 0%Z l1 + fold_right Z.add 0%Z l2)%Z.
Proof.
  induction l1 as [|x t IH]; [reflexivity|]. cbn [app fold_right]. rewrite IH. lia.
Qed.

Lemma sizeof_values (L N : nat) :
  sizeof L N block_uboShared = 144%Z /\
  sizeof L N block_uboSky = 144%Z /\
  sizeof L N block_uboTerrain = (144 + 16 * Z.of_nat L)%Z /\
  sizeof L N block_uboCSM = (68 * Z.of_nat N + 76)%Z /\
  sizeof L N block_uboWaterPlane = 164%Z /\
  sizeof L N block_depthPass_ubo = (64 * Z.of_nat N)%Z.
Proof.
  unfold sizeof. cbn [typeOfBlock members].
  rewrite !sum_app, !sum_repeat.
  unfold sizeof_mat4, sizeof_vec4, sizeof_vec3, sizeof_float.
  cbn [fold_right]. repeat split; lia.
Qed.

(** X17.  Every copy into a uniform buffer passes the size of the block copied.
    For every buffer but one that is the size the buffer was created with.
    The exception is [uniformBuffers.terrain]: it is created with
    [sizeof(uboShared)] and [updateUniformBufferTerrain] copies
    [sizeof(uboTerrain)] bytes into it, which is 16 bytes more for each of
    the [TERRAIN_LAYER_COUNT] layers.  So every copy stays within the size
    its buffer was created with exactly when [TERRAIN_LAYER_COUNT] is 0. *)
Theorem uniform_copies_against_created_sizes (TERRAIN_LAYER_COUNT N : nat) :
  let size := sizeof TERRAIN_LAYER_COUNT N in
  Forall (fun p =>
            exists made,
              createdWith (fst p) = Some made /\
              size (snd p)
              = (size made
                 + if UniformBufferRef_beq (fst p) terrain
                   then sizeof_vec4 * Z.of_nat TERRAIN_LAYER_COUNT
                   else 0)%Z)
         prepareUniformBuffers_copies /\
  (Forall (fun p =>
             exists made,
               createdWith (fst p) = Some made /\ (size (snd p) <= size made)%Z)
          prepareUniformBuffers_copies
   <-> TERRAIN_LAYER_COUNT = 0).
Proof.
  cbv zeta.
  destruct (sizeof_values TERRAIN_LAYER_COUNT N) as (Hs & Hk & Ht & Hc & Hw & Hd).
  split; [|split].
  - unfold prepareUniformBuffers_copies, updateUniformBuffers_copies,
      updateUniformBufferTerrain_copies, updateUniformBufferCSM_copies,
      updateUniformBufferOffscreen_copies.
    cbn [app].
    repeat (apply Forall_cons;
            [ eexists; split; [reflexivity|];
              cbn [fst snd UniformBufferRef_beq];
              rewrite ?Hs, ?Hk, ?Ht, ?Hc, ?Hw, ?Hd; unfold sizeof_vec4; lia | ]).
    constructor.
  - intros Hall. rewrite Forall_forall in Hall.
    destruct (Hall (terrain, block_uboTerrain)) as (made & Hmade & Hle).
    { cbn. auto 10. }
    cbn in Hmade. injection Hmade as <-. cbn [snd] in Hle.
    rewrite Ht, Hs in Hle. lia.
  - intros ->.
    unfold prepareUniformBuffers_copies, updateUniformBuffers_copies,
      updateUniformBufferTerrain_copies, updateUniformBufferCSM_copies,
      updateUniformBufferOffscreen_copies.
    cbn [app].
    repeat (apply Forall_cons;
            [ eexists; split; [reflexivity|];
              cbn [fst snd];
              rewrite ?Hs, ?Hk, ?Ht, ?Hc, ?Hw, ?Hd; lia | ]).
    constructor.
Qed.

(** ** The state the recorded draws find *)

Section DrawFacts.

Context {F M : Type} {FO : FloatOps F} {GO : GlmOps F M}.
Variable N : nat.

Local Abbreviation State := (VulkanExample (F := F) (M := M)).
Local Abbreviation Command := (Cmd (F := F) (M := M)).

(** The draw of [drawShadowCasters], and the two draws of [drawScene] in the
    render pass [rp]. *)
Definition depthContext (s : State) : DrawContext :=
  {| dc_renderPass := Some (depthPass_renderPass s);
     dc_pipeline := Some pipelines_depthpass;
     dc_setsLayout := Some depthPass_pipelineLayout;
     dc_sets := [depthPass_descriptorSet] |}.

Definition sceneContexts (rp : VkHandle) : list DrawContext :=
  [ {| dc_renderPass := Some rp; dc_pipeline := Some pipelines_sky;
       dc_setsLayout := Some pipelineLayouts_sky;
       dc_sets := [descriptorSets_skysphere] |};
    {| dc_renderPass := Some rp; dc_pipeline := Some pipelines_terrain;
       dc_setsLayout := Some pipelineLayouts_terrain;
       dc_sets := [descriptorSets_terrain] |} ].

Definition mirrorContext (s : State) : DrawContext :=
  {| dc_renderPass := Some (renderPass s); dc_pipeline := Some pipelines_mirror;
     dc_setsLayout := Some pipelineLayouts_textured;
     dc_sets := [descriptorSets_waterplane] |}.

Definition quadContext (s : State) : DrawContext :=
  {| dc_renderPass := Some (renderPass s); dc_pipeline := Some pipelines_debug;
     dc_setsLayout := Some pipelineLayouts_textured;
     dc_sets := [descriptorSets_debugquad] |}.

Definition cascadeQuadContext (s : State) : DrawContext :=
  {| dc_renderPass := Some (renderPass s); dc_pipeline := Some cascadeDebug_pipeline;
     dc_setsLayout := Some cascadeDebug_pipelineLayout;
     dc_sets := [cascadeDebug_descriptorSet] |}.

Definition debugContexts (s : State) : list DrawContext :=
  (if debugDisplayReflection s then [quadContext s] else [])
  ++ (if debugDisplayRefraction s then [quadContext s] else [])
  ++ (if enabled (cascadeDebug s) then [cascadeQuadContext s] else []).

Lemma drawContextsFrom_cascades (s : State) (rest : list Command)
    (R : list DrawContext) :
  (forall bound layout sets, drawContextsFrom None bound layout sets rest = R) ->
  forall k a bound layout sets,
    drawContextsFrom None bound layout sets (flat_map (cascadePass s) (seq a k) ++ rest)
    = repeat (depthContext s) k ++ R.
Proof.
  intros HR. induction k as [|k IH]; intros a bound layout sets; [apply HR|].
  cbn [seq flat_map]. rewrite <- app_assoc.
  unfold cascadePass at 1. cbn [app drawShadowCasters drawContextsFrom repeat].
  f_equal. apply IH.
Qed.

Lemma drawContexts_recorded (s : State) (i : nat) :
  drawContexts (recordCommandBuffer N s i)
  = repeat (depthContext s) N
    ++ sceneContexts (op_renderPass (offscreenPass s))
    ++ sceneContexts (op_renderPass (offscreenPass s))
    ++ sceneContexts (renderPass s)
    ++ [mirrorContext s]
    ++ debugContexts s.
Proof.
  unfold drawContexts, recordCommandBuffer, drawCSM.
  cbn [app drawContextsFrom].
  apply drawContextsFrom_cascades. intros bound layout sets.
  unfold refractionPass, reflectionPass, mainPass, debugDraws, debugContexts.
  destruct (debugDisplayReflection s), (debugDisplayRefraction s),
    (enabled (cascadeDebug s)); reflexivity.
Qed.

Lemma filter_repeat_none {A : Type} (f : A -> bool) (x : A) (k : nat) :
  f x = false -> filter f (repeat x k) = [].
Proof.
  intros Hx. induction k as [|k IH]; [reflexivity|].
  cbn [repeat filter]. rewrite Hx. exact IH.
Qed.

Lemma Forall_repeat {A : Type} (P : A -> Prop) (x : A) (k : nat) :
  P x -> Forall P (repeat x k).
Proof. intros Hx. induction k; cbn [repeat]; constructor; assumption. Qed.

(** The draws of [drawScene] are foreign to a pass other than [renderPass];
    the other draws of the main pass are never foreign to it. *)
Lemma foreign_scene (s : State) (c0 c1 : bool) (rp : VkHandle) :
  filter (fun dc => negb (inOwnRenderPass (preparePipelines c0 c1) s dc))
         (sceneContexts rp)
  = if Z.eqb (renderPass s) rp then [] else sceneContexts rp.
Proof.
  unfold sceneContexts, inOwnRenderPass.
  cbn [filter dc_renderPass dc_pipeline].
  cbn [createdAs preparePipelines find created_pipeline PipelineRef_beq
       created_renderPass renderPassOf].
  destruct (Z.eqb (renderPass s) rp); reflexivity.
Qed.

Lemma foreign_main (s : State) (c0 c1 : bool) :
  filter (fun dc => negb (inOwnRenderPass (preparePipelines c0 c1) s dc))
         ([mirrorContext s] ++ debugContexts s)
  = [].
Proof.
  unfold debugContexts, inOwnRenderPass.
  destruct (debugDisplayReflection s), (debugDisplayRefraction s),
    (enabled (cascadeDebug s));
    cbn [app filter dc_renderPass dc_pipeline mirrorContext quadContext
         cascadeQuadContext];
    cbn [createdAs preparePipelines find created_pipeline PipelineRef_beq
         created_renderPass renderPassOf];
    rewrite Z.eqb_refl; reflexivity.
Qed.

Ltac matches n :=
  exists_layouts; repeat split;
  [ discriminate | repeat constructor; apply (layoutOfSet_member n) ]
with exists_layouts :=
  match goal with
  | |- setsMatchPipeline _ _ ?dc =>
      unfold setsMatchPipeline;
      eexists; eexists; split; [reflexivity|]; split; [reflexivity|]
  end.

(** X18.  In every recorded command buffer, with the pipelines of
    [preparePipelines] and the sets of [setupDescriptorSet]: at every draw
    of the class a pipeline is bound and descriptor sets are bound; each set
    bound was created with the descriptor set layout of the bound pipeline's
    pipeline layout, and was bound through a pipeline layout over that same
    descriptor set layout.  The pipeline layout named in
    [bindDescriptorSets] is the one the pipeline was created with, except at
    the quads of "Display reflection" and "Display refraction": there the
    sets are bound through [pipelineLayouts.textured] and the pipeline was
    created with [pipelineLayouts.debug].  There is one such draw for each of
    the two toggles that is on. *)
Theorem recorded_draws_find_sets_of_their_pipeline (n : nat) (s : State)
    (depthClampEnable0 deviceFeatures_depthClamp : bool) :
  let created := preparePipelines depthClampEnable0 deviceFeatures_depthClamp in
  Forall (fun cb =>
            Forall (setsMatchPipeline created (setupDescriptorSet n)) (drawContexts cb) /\
            length (filter (fun dc => negb (sameLayout created dc)) (drawContexts cb))
            = Nat.b2n (debugDisplayReflection s) + Nat.b2n (debugDisplayRefraction s) /\
            (forall dc, In dc (drawContexts cb) -> sameLayout created dc = false ->
                        dc_pipeline dc = Some pipelines_debug /\
                        dc_setsLayout dc = Some pipelineLayouts_textured /\
                        pipelineLayoutAt created dc = Some pipelineLayouts_debug))
         (commandBuffers (buildCommandBuffers N s)).
Proof.
  cbv zeta. apply Forall_recorded. intros i.
  rewrite drawContexts_recorded. split; [|split].
  - apply Forall_app. split; [apply Forall_repeat; matches n|].
    unfold sceneContexts, debugContexts. cbn [app].
    do 7 (apply Forall_cons; [matches n|]).
    destruct (debugDisplayReflection s), (debugDisplayRefraction s),
      (enabled (cascadeDebug s)); cbn [app];
      repeat (apply Forall_cons; [matches n|]); constructor.
  - rewrite filter_app, filter_repeat_none by reflexivity.
    unfold sceneContexts, debugContexts.
    destruct (debugDisplayReflection s), (debugDisplayRefraction s),
      (enabled (cascadeDebug s)); reflexivity.
  - intros dc Hin Hdiff. apply in_app_iff in Hin. destruct Hin as [Hin|Hin].
    + apply repeat_spec in Hin. subst dc. discriminate Hdiff.
    + unfold sceneContexts, debugContexts in Hin.
      destruct (debugDisplayReflection s), (debugDisplayRefraction s),
        (enabled (cascadeDebug s)); cbn [app In] in Hin;
        repeat (destruct Hin as [Hin|Hin];
                [subst dc; first [discriminate Hdiff | repeat split]|]);
        contradiction.
Qed.

(** X19.  In every recorded command buffer there are [N] + 7 draws of the class
    and one more for each debug display that is on.  The draws of the
    cascade passes use a pipeline created for [depthPass.renderPass], the
    pass they are in; the draws of the main pass use pipelines created for
    [renderPass], the pass they are in.  The four draws of the refraction
    and reflection passes, which are begun with [offscreenPass.renderPass],
    use the sky and terrain pipelines, which were created for [renderPass]:
    no pipeline is created for [offscreenPass.renderPass]. *)
Theorem recorded_draws_and_the_pass_of_their_pipeline (s : State)
    (depthClampEnable0 deviceFeatures_depthClamp : bool) :
  let created := preparePipelines depthClampEnable0 deviceFeatures_depthClamp in
  Forall (fun cb =>
            length (drawContexts cb) = N + 7 + enabledToggles s /\
            length (filter (fun dc => negb (inOwnRenderPass created s dc))
                           (drawContexts cb))
            = (if Z.eqb (renderPass s) (op_renderPass (offscreenPass s)) then 0 else 4) /\
            (forall dc, In dc (drawContexts cb) ->
                        inOwnRenderPass created s dc = false ->
                        dc_renderPass dc = Some (op_renderPass (offscreenPass s)) /\
                        (dc_pipeline dc = Some pipelines_sky \/
                         dc_pipeline dc = Some pipelines_terrain)))
         (commandBuffers (buildCommandBuffers N s)) /\
  Forall (fun c => created_renderPass c = for_renderPass \/
                   created_renderPass c = for_depthPass_renderPass)
         created.
Proof.
  cbv zeta. split.
  - apply Forall_recorded. intros i.
    rewrite drawContexts_recorded.
    split; [|split].
    + rewrite length_app, repeat_length. unfold sceneContexts, debugContexts, enabledToggles.
      destruct (debugDisplayReflection s), (debugDisplayRefraction s),
        (enabled (cascadeDebug s)); cbn [app length Nat.b2n]; lia.
    + do 4 rewrite filter_app.
      rewrite filter_repeat_none
        by (unfold inOwnRenderPass, depthContext; cbn; rewrite Z.eqb_refl; reflexivity).
      rewrite !foreign_scene, foreign_main. rewrite Z.eqb_refl.
      destruct (Z.eqb (renderPass s) (op_renderPass (offscreenPass s))); reflexivity.
    + intros dc Hin Hout. apply in_app_iff in Hin. destruct Hin as [Hin|Hin].
      * apply repeat_spec in Hin. subst dc.
        unfold inOwnRenderPass, depthContext in Hout. cbn in Hout.
        rewrite Z.eqb_refl in Hout. discriminate Hout.
      * unfold sceneContexts, debugContexts in Hin.
        destruct (debugDisplayReflection s), (debugDisplayRefraction s),
          (enabled (cascadeDebug s)); cbn [app In] in Hin;
          repeat (destruct Hin as [Hin|Hin];
                  [ subst dc;
                    first [ split; [reflexivity | auto]
                          | unfold inOwnRenderPass in Hout; cbn in Hout;
                            rewrite Z.eqb_refl in Hout; discriminate Hout ] | ]);
          contradiction.
  - unfold preparePipelines. cbv zeta.
    repeat (apply Forall_cons; [cbn [created_renderPass]; auto|]). constructor.
Qed.

End DrawFacts.

End ResourceFacts.

(* ================================================================== *)
(** * Part VIII: the terrain sliders of the handler *)
(* ================================================================== *)

Lemma same_length_by_nth {A : Type} (l1 l2 : list A) :
  (forall j, nth_error l1 j = None <-> nth_error l2 j = None) -> length l1 = length l2.
Proof.
  intros H.
  destruct (Nat.lt_trichotomy (length l1) (length l2)) as [Hlt|[Heq|Hgt]];
    [|exact Heq|].
  - assert (Hn : nth_error l1 (length l1) = None) by (apply nth_error_None; lia).
    apply H, nth_error_None in Hn. lia.
  - assert (Hn : nth_error l2 (length l2) = None) by (apply nth_error_None; lia).
    apply H, nth_error_None in Hn. lia.
Qed.

Section TerrainLayers.

Context {F M : Type} {FO : FloatOps F} {GO : GlmOps F M}.
Variable N : nat.

Local Abbreviation State := (VulkanExample (F := F) (M := M)).

(** What one layer is after the handler, given what its slider answered. *)
Definition layerAfter (answer : option (F * F)) (l : vec4 F) : vec4 F :=
  match answer with
  | Some xy => set_layer_xy xy l
  | None => l
  end.

Lemma terrain_fold_layers (slider : nat -> option (F * F)) :
  forall (k a : nat) (s : State) (j : nat),
    nth_error
      (uboTerrain_layers
         (fold_left
            (fun s i =>
               match slider i with
               | Some xy =>
                   set_uboTerrain_layers (upd i (set_layer_xy xy) (uboTerrain_layers s)) s
               | None => s
               end) (seq a k) s)) j
    = option_map
        (layerAfter (if andb (Nat.leb a j) (Nat.ltb j (a + k)) then slider j else None))
        (nth_error (uboTerrain_layers s) j).
Proof.
  induction k as [|k IH]; intros a s j.
  - cbn [seq fold_left]. replace (a + 0) with a by lia.
    replace (andb (Nat.leb a j) (Nat.ltb j a)) with false
      by (destruct (Nat.leb_spec a j), (Nat.ltb_spec j a); simpl; try reflexivity; lia).
    destruct (nth_error (uboTerrain_layers s) j); reflexivity.
  - cbn [seq fold_left]. rewrite IH.
    destruct (Nat.eqb_spec j a) as [->|Hne].
    + replace (Nat.leb (S a) a) with false by (symmetry; apply Nat.leb_gt; lia).
      rewrite Nat.leb_refl.
      replace (Nat.ltb a (a + S k)) with true by (symmetry; apply Nat.ltb_lt; lia).
      cbn [andb]. destruct (slider a) as [xy|].
      * cbn [uboTerrain_layers set_uboTerrain_layers].
        rewrite upd_nth_error, Nat.eqb_refl.
        destruct (nth_error (uboTerrain_layers s) a); reflexivity.
      * destruct (nth_error (uboTerrain_layers s) a); reflexivity.
    + replace (andb (Nat.leb (S a) j) (Nat.ltb j (S a + k)))
        with (andb (Nat.leb a j) (Nat.ltb j (a + S k)))
        by (destruct (Nat.leb_spec (S a) j), (Nat.leb_spec a j),
              (Nat.ltb_spec j (S a + k)), (Nat.ltb_spec j (a + S k));
            simpl; try reflexivity; lia).
      destruct (slider a) as [xy|]; [|reflexivity].
      cbn [uboTerrain_layers set_uboTerrain_layers].
      rewrite upd_nth_error.
      destruct (Nat.eqb_spec j a); [contradiction|reflexivity].
Qed.

(** The part of the handler under the "Debugging" header does not write the
    terrain layers. *)
Lemma debugging_keeps_layers (overlay : UIOverlay (F := F)) (s : State) :
  exists s1,
    uboTerrain_layers s1 = uboTerrain_layers s /\
    OnUpdateUIOverlay N overlay s
    = if header_Terrain_layers overlay then
        fold_left
          (fun s i =>
             match sliderFloat2_layer overlay i with
             | Some xy =>
                 set_uboTerrain_layers (upd i (set_layer_xy xy) (uboTerrain_layers s)) s
             | None => s
             end)
          (seq 0 TERRAIN_LAYER_COUNT) s1
      else s1.
Proof.
  unfold OnUpdateUIOverlay. eexists. split; [|reflexivity].
  destruct s as [r1 r2 lp [en ci] layers op la dr cs cam rp fbs w h cc cbs].
  destruct (header_Debugging overlay); [|reflexivity].
  destruct (checkBox_Display_reflection overlay) as [v1|],
    (checkBox_Display_refraction overlay) as [v2|],
    (checkBox_Display_cascades overlay) as [[|]|],
    (sliderInt_Cascade overlay) as [vi|],
    (sliderFloat_Split_lambda overlay) as [vl|];
    destruct en; reflexivity.
Qed.

(** X20.  After [OnUpdateUIOverlay] there are as many terrain layers as
    before, and layer [i] is the layer from before, with its x and y replaced
    by the two values of slider [i] exactly when the "Terrain layers" header
    is open, [i] is below [TERRAIN_LAYER_COUNT] and that slider reported a
    change; z and w of a layer are never written, and nothing under the
    "Debugging" header touches the layers. *)
Theorem OnUpdateUIOverlay_terrain_layers (overlay : UIOverlay (F := F)) (s : State)
    (i : nat) :
  let changed :=
    if header_Terrain_layers overlay && Nat.ltb i TERRAIN_LAYER_COUNT
    then sliderFloat2_layer overlay i else None in
  nth_error (uboTerrain_layers (OnUpdateUIOverlay N overlay s)) i
  = option_map (layerAfter changed) (nth_error (uboTerrain_layers s) i) /\
  (forall l l', nth_error (uboTerrain_layers s) i = Some l ->
                nth_error (uboTerrain_layers (OnUpdateUIOverlay N overlay s)) i = Some l' ->
                v4z l' = v4z l /\ v4w l' = v4w l) /\
  length (uboTerrain_layers (OnUpdateUIOverlay N overlay s))
  = length (uboTerrain_layers s).
Proof.
  cbv zeta.
  destruct (debugging_keeps_layers overlay s) as (s1 & Hl & ->).
  assert (Hnth : forall j,
             nth_error
               (uboTerrain_layers
                  (if header_Terrain_layers overlay then
                     fold_left
                       (fun s i =>
                          match sliderFloat2_layer overlay i with
                          | Some xy =>
                              set_uboTerrain_layers
                                (upd i (set_layer_xy xy) (uboTerrain_layers s)) s
                          | None => s
                          end)
                       (seq 0 TERRAIN_LAYER_COUNT) s1
                   else s1)) j
             = option_map
                 (layerAfter (if header_Terrain_layers overlay
                                 && Nat.ltb j TERRAIN_LAYER_COUNT
                              then sliderFloat2_layer overlay j else None))
                 (nth_error (uboTerrain_layers s) j)).
  { intros j. destruct (header_Terrain_layers overlay).
    - rewrite terrain_fold_layers, Hl. reflexivity.
    - rewrite Hl. cbn [andb]. destruct (nth_error (uboTerrain_layers s) j); reflexivity. }
  split; [apply Hnth|]. split.
  - intros l l' Hbefore Hafter. rewrite Hnth, Hbefore in Hafter.
    cbn [option_map] in Hafter. injection Hafter as <-.
    destruct (if header_Terrain_layers overlay && Nat.ltb i TERRAIN_LAYER_COUNT
              then sliderFloat2_layer overlay i else None) as [xy|];
      split; reflexivity.
  - apply same_length_by_nth. intros j. rewrite Hnth.
    destruct (nth_error (uboTerrain_layers s) j); [|tauto].
    cbn [option_map]. split; intros H; discriminate H || (intros; discriminate).
Qed.

End TerrainLayers.

(* ================================================================== *)
(** * Part IX: the state each pipeline is created from *)
(* ================================================================== *)

(** X21.  [preparePipelines] creates each of the six pipelines once, each
    with two shaders.  Although the create-info structures are shared and
    assigned to between the creations, every pipeline is created with cull
    mode NONE (the FRONT_BIT of the initialiser is overwritten before the
    first creation); the depth test is off for the two debug pipelines only,
    the depth write is off for the sky pipeline only, and the colour
    attachment count is 0 for the depth pass pipeline only (1 for the
    others); [deviceFeatures.depthClamp] reaches the depth pass pipeline
    only, the other five keep the value of the initialiser; the depth pass
    pipeline alone is created for [depthPass.renderPass]. *)
Theorem preparePipelines_created_states
    (depthClampEnable0 deviceFeatures_depthClamp : bool) :
  let created := preparePipelines depthClampEnable0 deviceFeatures_depthClamp in
  NoDup (map created_pipeline created) /\
  (forall p, In p (map created_pipeline created)) /\
  Forall (fun c =>
            let p := created_pipeline c in
            let st := created_state c in
            let isDepthpass := PipelineRef_beq p pipelines_depthpass in
            length (created_shaders c) = 2 /\
            cullMode st = VK_CULL_MODE_NONE /\
            depthTestEnable st
            = negb (PipelineRef_beq p pipelines_debug
                    || PipelineRef_beq p cascadeDebug_pipeline) /\
            depthWriteEnable st = negb (PipelineRef_beq p pipelines_sky) /\
            attachmentCount st = (if isDepthpass then 0 else 1)%Z /\
            depthClampEnable st
            = (if isDepthpass then deviceFeatures_depthClamp else depthClampEnable0) /\
            created_renderPass c
            = (if isDepthpass then for_depthPass_renderPass else for_renderPass))
         created.
Proof.
  cbv zeta. unfold preparePipelines. cbv zeta. split; [|split].
  - cbn [map created_pipeline].
    repeat constructor; cbn [In]; intuition discriminate.
  - intros p. cbn [map created_pipeline In]. destruct p; auto 10.
  - repeat (apply Forall_cons; [repeat split|]). constructor.
Qed.

(* ================================================================== *)
(** * Part X: the theorems with preconditions, at the configuration of [main.cpp] *)
(* ================================================================== *)

Local Open Scope R_scope.

(** Uniform blocks and buffers for four cascades, before the first update. *)
Definition uniforms0 : CSMUniforms (F := R) (M := mat4R) :=
  let block :=
    {| ubo_cascadeSplits := repeat 0 4;
       ubo_cascadeViewProjMat := repeat (mat4_diag_R 0) 4;
       ubo_inverseViewMat := mat4_diag_R 0;
       ubo_lightDir := mkvec3 0 0 0 |} in
  {| depthPass_ubo_cascadeViewProjMat := repeat (mat4_diag_R 0) 4;
     depthPass_uniformBuffer_mapped := repeat (mat4_diag_R 0) 4;
     uboCSM := block;
     uniformBuffers_CSM_mapped := block |}.

Lemma updateUniformBufferCSM_mirrors_cascades_witness :
  let u' := updateUniformBufferCSM example1 uniforms0 in
  depthPass_uniformBuffer_mapped u' = map viewProjMatrix (cascades example1) /\
  uniformBuffers_CSM_mapped u'
  = {| ubo_cascadeSplits := map splitDepth (cascades example1);
       ubo_cascadeViewProjMat := map viewProjMatrix (cascades example1);
       ubo_inverseViewMat := inverse (matrices_view (camera example1));
       ubo_lightDir := vec3_of_vec4 (normalize4 (vec4_neg (lightPos example1))) |} /\
  depthPass_ubo_cascadeViewProjMat u' = depthPass_uniformBuffer_mapped u' /\
  uboCSM u' = uniformBuffers_CSM_mapped u'.
Proof.
  apply (@updateUniformBufferCSM_mirrors_cascades R mat4R _ _ example1 uniforms0);
    reflexivity.
Defined.

Lemma render_refreshes_uniforms_witness :
  let s' := fst (render 4 true false false (example0, uniforms0)) in
  let u' := snd (render 4 true false false (example0, uniforms0)) in
  let csm := uniformBuffers_CSM_mapped u' in
  nth_error (ubo_cascadeSplits csm) 0
  = Some (splitDepthOf example0 (splitsOf 4 example0) 0) /\
  nth_error (ubo_cascadeViewProjMat csm) 0
  = Some (cascadeViewProj (lightPos example0) (sliceOf example0 (splitsOf 4 example0) 0)) /\
  nth_error (depthPass_uniformBuffer_mapped u') 0
  = Some (cascadeViewProj (lightPos example0) (sliceOf example0 (splitsOf 4 example0) 0)) /\
  ubo_lightDir csm = vec3_of_vec4 (normalize4 (vec4_neg fixedLightPos)) /\
  lightPos s' = fixedLightPos /\
  commandBuffers s' = commandBuffers example0.
Proof.
  apply (@render_refreshes_uniforms R mat4R _ _ 4 false false example0 uniforms0 0%nat);
    [reflexivity | reflexivity | reflexivity | reflexivity | reflexivity | lia].
Defined.

Lemma OnUpdateUIOverlay_keeps_streams_current_witness :
  streamsCurrent 4 (buildCommandBuffers 4 example0) /\
  streamsCurrent 4 (OnUpdateUIOverlay 4 overlay0 (buildCommandBuffers 4 example0)).
Proof.
  assert (Hcur : streamsCurrent 4 (buildCommandBuffers 4 example0))
    by reflexivity.
  split; [exact Hcur|].
  exact (@OnUpdateUIOverlay_keeps_streams_current R mat4R _ _ 4 overlay0
           (buildCommandBuffers 4 example0) Hcur).
Defined.

Local Close Scope R_scope.

Lemma destructor_leaves_objects_alive_witness :
  let d := Lifetime.succeeding Setup.outOfDeviceMemory in
  let log1 := fst (Setup.prepareOffscreen Setup.colorFormat0 d) in
  let log2 := fst (Setup.prepareCSM 4 d) in
  let made := Lifetime.created (log1 ++ log2) in
  let freed := Lifetime.releasedObjects Lifetime.destructor in
  NoDup freed /\
  incl freed made /\
  (forall x, In x made -> (~ In x freed <-> In x (Lifetime.neverReleased 4))) /\
  NoDup (Lifetime.releasedBuffers Lifetime.destructor) /\
  incl (Lifetime.releasedBuffers Lifetime.destructor)
       Lifetime.prepareUniformBuffers_creates /\
  (forall b, In b Lifetime.prepareUniformBuffers_creates ->
             (~ In b (Lifetime.releasedBuffers Lifetime.destructor)
              <-> In b [Lifetime.terrain; Lifetime.sky; Lifetime.depthPass_uniformBuffer;
                        Lifetime.CSM])).
Proof.
  cbv zeta.
  apply (@LifetimeFacts.destructor_leaves_objects_alive Setup.colorFormat0 4
           (Lifetime.succeeding Setup.outOfDeviceMemory));
    reflexivity.
Defined.
